(** * POI Oracle: the classifier, the gazetteer, the query interpreter,
      the analysis orchestrator and the analyze endpoint

    A shallow embedding of [utils/poiClassifier.ts], [utils/llmIntegration.ts],
    [utils/aiReasoning.ts] and [pages/api/analyze.ts], of the status and
    probe endpoints ([pages/api/status.ts], [pages/api/test-llm.ts]) and of
    what the page, the map and the settings dialog do with their answers,
    followed by the properties proved about them.

    Conventions of the embedding.
    - A JavaScript string is a [string] of ASCII characters: the case
      mappings and the white-space class are the ASCII ones, and a character
      above 127 is left as it is.
    - The classifier only adds and compares literal constants, so it runs on
      binary64 floats ([PrimFloat]), as the code does.
    - The numbers of the orchestrator and of [generateSamplePOIs] depend on
      [Math.random()]; a draw is an exact rational and the arithmetic on it
      is exact ([Q]), where the code rounds each operation to binary64. A
      property of these numbers is therefore stated only in a form the
      rounding leaves true (a bound the binary64 result can reach is not
      strict, a radius leaves room for the rounding, a rounded percentage is
      given by its range), and the binary64 expressions are evaluated at the
      two extreme draws.
    - An object literal used as a table is a [gmap] together with the
      properties every object inherits from [Object.prototype].
    - [Math.random()], [Date.now()], the OpenAI client and [JSON.parse] belong
      to the runtime: they are the fields of a [World]. What [JSON.parse]
      returns is read at the type the interpreter declares for it.
    - An async function is the function of its result: it returns a value or
      throws. *)

From Stdlib Require Import ZArith QArith Qround Qminmax Lqa Floats.PrimFloat.
From Stdlib Require Uint63.
From Stdlib Require Import Ascii String List Bool Lia.
From stdpp Require Import base strings gmap list pretty.
Import ListNotations.

Set Warnings "-inexact-float,-register-all".
Local Open Scope string_scope.
Local Open Scope list_scope.

(** ** JavaScript strings *)

Module JS.

Definition is_upper (c : ascii) : bool :=
  let n := nat_of_ascii c in Nat.leb 65 n && Nat.leb n 90.

Definition is_lower (c : ascii) : bool :=
  let n := nat_of_ascii c in Nat.leb 97 n && Nat.leb n 122.

Definition lower_char (c : ascii) : ascii :=
  if is_upper c then ascii_of_nat (nat_of_ascii c + 32) else c.

Definition upper_char (c : ascii) : ascii :=
  if is_lower c then ascii_of_nat (nat_of_ascii c - 32) else c.

(** [s.toLowerCase()] *)
Fixpoint toLowerCase (s : string) : string :=
  match s with
  | EmptyString => EmptyString
  | String c r => String (lower_char c) (toLowerCase r)
  end.

(** [s.toUpperCase()] *)
Fixpoint toUpperCase (s : string) : string :=
  match s with
  | EmptyString => EmptyString
  | String c r => String (upper_char c) (toUpperCase r)
  end.

(** [s.startsWith(p)] *)
Fixpoint startsWith (s p : string) : bool :=
  match p, s with
  | EmptyString, _ => true
  | String _ _, EmptyString => false
  | String a p', String b s' => Ascii.eqb a b && startsWith s' p'
  end.

(** [s.includes(sub)] *)
Fixpoint includes (s sub : string) : bool :=
  startsWith s sub ||
  match s with
  | EmptyString => false
  | String _ r => includes r sub
  end.

(** [s.slice(n)], [n] not negative *)
Fixpoint slice_from (n : nat) (s : string) : string :=
  match n, s with
  | O, _ => s
  | S _, EmptyString => EmptyString
  | S m, String _ r => slice_from m r
  end.

Fixpoint take (n : nat) (s : string) : string :=
  match n, s with
  | O, _ => EmptyString
  | S _, EmptyString => EmptyString
  | S m, String c r => String c (take m r)
  end.

(** [s.slice(0, -n)] *)
Definition slice_to_minus (n : nat) (s : string) : string :=
  take (String.length s - n) s.

Fixpoint rev_onto (s acc : string) : string :=
  match s with
  | EmptyString => acc
  | String c r => rev_onto r (String c acc)
  end.

Definition reverse (s : string) : string := rev_onto s EmptyString.

(** [s.endsWith(p)] *)
Definition endsWith (s p : string) : bool := startsWith (reverse s) (reverse p).

(** [s.charAt(i)]: the empty string out of range *)
Definition charAt (i : nat) (s : string) : string :=
  match String.get i s with
  | Some c => String c EmptyString
  | None => EmptyString
  end.

(** The class [\s] and the characters [trim] strips, within ASCII:
    tab, line feed, vertical tab, form feed, carriage return, space. *)
Definition is_space (c : ascii) : bool :=
  let n := nat_of_ascii c in (Nat.leb 9 n && Nat.leb n 13) || Nat.eqb n 32.

(** [s.replace(/\s+/g, '')] *)
Fixpoint strip_spaces (s : string) : string :=
  match s with
  | EmptyString => EmptyString
  | String c r => if is_space c then strip_spaces r else String c (strip_spaces r)
  end.

Fixpoint trimStart (s : string) : string :=
  match s with
  | EmptyString => EmptyString
  | String c r => if is_space c then trimStart r else s
  end.

(** [s.trim()] *)
Definition trim (s : string) : string := reverse (trimStart (reverse (trimStart s))).

(** [l.join(sep)] on an array of strings *)
Fixpoint join (sep : string) (l : list string) : string :=
  match l with
  | [] => EmptyString
  | [x] => x
  | x :: r => x +:+ sep +:+ join sep r
  end.

(** [!s] is false, that is [s] is truthy, for a string that is not empty. *)
Definition truthy (s : string) : bool := negb (String.eqb s EmptyString).

(** The names every object inherits from [Object.prototype]; each holds a
    function or, for [__proto__], the prototype object: a truthy value. *)
Definition Object_prototype : list string :=
  [ "constructor"; "__defineGetter__"; "__defineSetter__"; "hasOwnProperty";
    "__lookupGetter__"; "__lookupSetter__"; "isPrototypeOf";
    "propertyIsEnumerable"; "toString"; "valueOf"; "__proto__";
    "toLocaleString" ].

(** What [obj[key]] reads on an object literal [obj] whose own properties
    are [own]. *)
Inductive Property (A : Type) : Type :=
  | Own (a : A)
  | Inherited (key : string)
  | Missing.
Arguments Own {A} a.
Arguments Inherited {A} key.
Arguments Missing {A}.

(** [key] names an inherited property. *)
Definition inherited (key : string) : bool := existsb (String.eqb key) Object_prototype.

Definition get {A : Type} (own : gmap string A) (key : string) : Property A :=
  match own !! key with
  | Some a => Own a
  | None => if inherited key then Inherited key else Missing
  end.

End JS.

(** ** The taxonomy and the classifier ([utils/poiClassifier.ts]) *)

Module POICategory.
Record t : Type := mk {
  id : string;
  name : string;
  description : string;
  keywords : list string;
  contextualRules : list string
}.
End POICategory.

Definition POI_CATEGORIES : list POICategory.t := [
  POICategory.mk "food_beverage" "Food & Beverage"
    "Restaurants, cafes, street food, and beverage outlets"
    ["restaurant"; "cafe"; "dhaba"; "chai"; "food"; "biryani"; "dosa"; "coffee"; "bakery"]
    ["Near residential areas"; "High foot traffic zones"; "Commercial streets"];
  POICategory.mk "retail" "Retail & Shopping"
    "Shops, markets, malls, and retail outlets"
    ["shop"; "store"; "market"; "mall"; "kirana"; "bazaar"; "supermarket"; "grocery"]
    ["Commercial zones"; "Market districts"; "Residential periphery"];
  POICategory.mk "healthcare" "Healthcare"
    "Hospitals, clinics, pharmacies, diagnostic centers"
    ["hospital"; "clinic"; "pharmacy"; "medical"; "doctor"; "diagnostic"; "chemist"; "health"]
    ["Accessible locations"; "Near residential areas"; "Main roads"];
  POICategory.mk "education" "Education"
    "Schools, colleges, coaching centers, libraries"
    ["school"; "college"; "university"; "coaching"; "tuition"; "library"; "academy"; "institute"]
    ["Residential neighborhoods"; "Safe zones"; "Away from industrial areas"];
  POICategory.mk "finance" "Financial Services"
    "Banks, ATMs, insurance, financial services"
    ["bank"; "atm"; "insurance"; "finance"; "money transfer"; "loan"; "credit"]
    ["Commercial areas"; "High security zones"; "Main markets"];
  POICategory.mk "transportation" "Transportation"
    "Bus stops, metro stations, auto stands, parking"
    ["bus"; "metro"; "auto"; "taxi"; "parking"; "station"; "stand"; "terminal"]
    ["Transit hubs"; "Major roads"; "Junction points"];
  POICategory.mk "worship" "Places of Worship"
    "Temples, mosques, churches, gurudwaras"
    ["temple"; "mosque"; "church"; "gurudwara"; "mandir"; "masjid"; "prayer"]
    ["Community centers"; "Peaceful areas"; "Heritage zones"];
  POICategory.mk "entertainment" "Entertainment"
    "Theaters, gaming zones, recreational facilities"
    ["cinema"; "theater"; "gaming"; "entertainment"; "multiplex"; "park"; "playground"]
    ["Commercial zones"; "Urban centers"; "Family areas"];
  POICategory.mk "government" "Government Services"
    "Government offices, post offices, civic centers"
    ["government"; "office"; "post office"; "municipal"; "civic"; "panchayat"; "tehsil"]
    ["Administrative zones"; "Accessible locations"; "City centers"];
  POICategory.mk "technology" "IT & Technology"
    "IT parks, tech companies, coworking spaces"
    ["IT park"; "tech park"; "office"; "coworking"; "startup"; "software"; "technology"]
    ["Business districts"; "Modern infrastructure"; "Metro connectivity"];
  POICategory.mk "hospitality" "Hospitality"
    "Hotels, lodges, guest houses"
    ["hotel"; "lodge"; "guest house"; "resort"; "inn"; "motel"; "hostel"]
    ["Tourist areas"; "Business districts"; "Transport hubs"];
  POICategory.mk "automotive" "Automotive"
    "Fuel stations, service centers, showrooms"
    ["petrol"; "diesel"; "fuel"; "service center"; "showroom"; "workshop"; "garage"]
    ["Main roads"; "Highway junctions"; "Industrial areas"];
  POICategory.mk "fitness" "Fitness & Wellness"
    "Gyms, yoga centers, spas, salons"
    ["gym"; "fitness"; "yoga"; "spa"; "salon"; "wellness"; "health club"]
    ["Residential areas"; "Commercial zones"; "IT park vicinity"];
  POICategory.mk "industrial" "Industrial"
    "Factories, warehouses, manufacturing units"
    ["factory"; "warehouse"; "industrial"; "manufacturing"; "godown"; "plant"]
    ["Industrial zones"; "City outskirts"; "Logistics hubs"];
  POICategory.mk "residential" "Residential"
    "Apartments, villas, housing societies"
    ["apartment"; "villa"; "society"; "colony"; "township"; "residential"]
    ["Planned layouts"; "School proximity"; "Green zones"]
].

Module Classification.
Record t : Type := mk { category : string; confidence : float }.
End Classification.

(** [Math.min] on two numbers neither of which is NaN *)
Definition Math_min (x y : float) : float := if PrimFloat.ltb y x then y else x.

(** The loop over [category.keywords]: 0.35 for every keyword the
    lower-cased name includes. *)
Definition keyword_score (nameLower : string) (keywords : list string) (score : float) : float :=
  fold_left
    (fun score keyword =>
       if JS.includes nameLower keyword then PrimFloat.add score 0.35%float else score)
    keywords score.

(** The loop over [category.contextualRules]: 0.15 for every rule whose
    lower-cased text the lower-cased context includes. *)
Definition context_score (contextLower : string) (rules : list string) (score : float) : float :=
  fold_left
    (fun score rule =>
       if JS.includes contextLower (JS.toLowerCase rule)
       then PrimFloat.add score 0.15%float else score)
    rules score.

(** One turn of the loop over [POI_CATEGORIES]. *)
Definition classify_step (nameLower contextLower : string) (context_given : bool)
    (bestMatch : Classification.t) (category : POICategory.t) : Classification.t :=
  let score := keyword_score nameLower (POICategory.keywords category) 0%float in
  let score :=
    if context_given
    then context_score contextLower (POICategory.contextualRules category) score
    else score in
  let confidence := Math_min score 0.95%float in
  if PrimFloat.ltb (Classification.confidence bestMatch) confidence
  then Classification.mk (POICategory.id category) confidence
  else bestMatch.

(** [classifyPOI(name, context?)]; [None] is an absent context. *)
Definition classifyPOI (name : string) (context : option string) : Classification.t :=
  let nameLower := JS.toLowerCase name in
  let contextLower := match context with Some c => JS.toLowerCase c | None => "" end in
  let context_given := match context with Some c => JS.truthy c | None => false end in
  fold_left (classify_step nameLower contextLower context_given)
    POI_CATEGORIES (Classification.mk "unknown" 0.3%float).

(** ** The gazetteer ([CITY_COORDINATES], [getCityCoordinates]) *)

Local Open Scope Q_scope.

Definition CITY_TABLE : list (string * (Q * Q)) := [
  ("bangalore", (129716 # 10000, 775946 # 10000));
  ("bengaluru", (129716 # 10000, 775946 # 10000));
  ("delhi", (286139 # 10000, 772090 # 10000));
  ("mumbai", (190760 # 10000, 728777 # 10000));
  ("nairobi", (- (12921 # 10000), 368219 # 10000));
  ("hyderabad", (173850 # 10000, 784867 # 10000));
  ("kenya", (- (12921 # 10000), 368219 # 10000));
  ("chennai", (130827 # 10000, 802707 # 10000));
  ("pune", (185204 # 10000, 738567 # 10000));
  ("kolkata", (225726 # 10000, 883639 # 10000));
  ("ahmedabad", (230225 # 10000, 725714 # 10000));
  ("jaipur", (269124 # 10000, 757873 # 10000));
  ("lucknow", (268467 # 10000, 809462 # 10000));
  ("kochi", (99312 # 10000, 762673 # 10000));
  ("chandigarh", (307333 # 10000, 767794 # 10000))
].

Definition CITY_COORDINATES : gmap string (Q * Q) := list_to_map CITY_TABLE.

(** [CITY_COORDINATES.bangalore] *)
Definition bangalore : Q * Q := (129716 # 10000, 775946 # 10000).

(** What [getCityCoordinates] hands back: a coordinate pair, or the
    property of [Object.prototype] the look-up ran into. *)
Inductive Coordinates : Type :=
  | LatLng (lat lng : Q)
  | NotCoordinates (key : string).

(** [location.toLowerCase().replace(/\s+/g, '')] *)
Definition normalized (location : string) : string :=
  JS.strip_spaces (JS.toLowerCase location).

(** [CITY_COORDINATES[normalized] || CITY_COORDINATES.bangalore] *)
Definition getCityCoordinates (location : string) : Coordinates :=
  match JS.get CITY_COORDINATES (normalized location) with
  | JS.Own (lat, lng) => LatLng lat lng
  | JS.Inherited key => NotCoordinates key
  | JS.Missing => LatLng (fst bangalore) (snd bangalore)
  end.

(** A JavaScript number that may be NaN. *)
Inductive Num : Type :=
  | Finite (q : Q)
  | NaN.

(** [coords[0] + d] and [coords[1] + d]: [undefined + d] is NaN. *)
Definition lat_plus (coords : Coordinates) (d : Q) : Num :=
  match coords with
  | LatLng lat _ => Finite (lat + d)
  | NotCoordinates _ => NaN
  end.

Definition lng_plus (coords : Coordinates) (d : Q) : Num :=
  match coords with
  | LatLng _ lng => Finite (lng + d)
  | NotCoordinates _ => NaN
  end.

Local Close Scope Q_scope.

(** ** The query interpreter ([utils/llmIntegration.ts]) *)

Module LLMQueryAnalysis.
Record t : Type := mk {
  location : string;
  businessType : string;
  contextualFactors : list string;
  marketInsights : string;
  keyAssumptions : list string
}.
End LLMQueryAnalysis.

Definition cities : list string :=
  [ "bangalore"; "bengaluru"; "delhi"; "mumbai"; "nairobi"; "hyderabad";
    "kenya"; "chennai"; "pune"; "kolkata"; "ahmedabad"; "jaipur" ].

(** [Object.entries(businessTypes)]: the entries in the order written. *)
Definition businessTypes : list (string * string) := [
  ("chai", "Chai Stall");
  ("tea", "Tea Shop");
  ("coffee", "Coffee Shop");
  ("pharmacy", "Pharmacy");
  ("medical", "Medical Store");
  ("restaurant", "Restaurant");
  ("food", "Food Outlet");
  ("gym", "Fitness Center");
  ("school", "Educational Institution");
  ("bank", "Banking Services");
  ("atm", "ATM");
  ("salon", "Beauty Salon");
  ("spa", "Wellness Spa");
  ("grocery", "Grocery Store");
  ("supermarket", "Supermarket")
].

(** The loop over [cities]: the first city the query includes, capitalised. *)
Fixpoint extract_location (queryLower : string) (cities : list string) (location : string) : string :=
  match cities with
  | [] => location
  | city :: rest =>
      if JS.includes queryLower city
      then JS.toUpperCase (JS.charAt 0 city) +:+ JS.slice_from 1 city
      else extract_location queryLower rest location
  end.

(** The loop over the entries of [businessTypes]: the first keyword found. *)
Fixpoint extract_business (queryLower : string) (entries : list (string * string))
    (businessType : string) : string :=
  match entries with
  | [] => businessType
  | (keyword, type) :: rest =>
      if JS.includes queryLower keyword then type
      else extract_business queryLower rest businessType
  end.

(** [if (cond) contextualFactors.push(tag)] *)
Definition push_if (cond : bool) (tag : string) (factors : list string) : list string :=
  if cond then factors ++ [tag] else factors.

Definition extract_factors (queryLower : string) : list string :=
  let f := [] in
  let f := push_if (JS.includes queryLower "it park" || JS.includes queryLower "tech park")
             "Proximity to IT/Tech Parks" f in
  let f := push_if (JS.includes queryLower "residential") "Residential Area Focus" f in
  let f := push_if (JS.includes queryLower "underserved" || JS.includes queryLower "gap")
             "Market Gap Analysis Required" f in
  let f := push_if (JS.includes queryLower "commercial") "Commercial Zone Priority" f in
  let f := push_if (JS.includes queryLower "metro" || JS.includes queryLower "transit")
             "Metro/Transit Accessibility" f in
  match f with
  | [] => ["General Commercial Viability"; "Foot Traffic Potential"]
  | _ => f
  end.

(** [contextualFactors.includes(tag)] on an array of strings *)
Definition array_includes (l : list string) (tag : string) : bool :=
  existsb (String.eqb tag) l.

(** [simulateAnalysis(query)]: the heuristic interpretation. *)
Definition simulateAnalysis (query : string) : LLMQueryAnalysis.t :=
  let queryLower := JS.toLowerCase query in
  let location := extract_location queryLower cities "Bangalore" in
  let businessType := extract_business queryLower businessTypes "Business" in
  let contextualFactors := extract_factors queryLower in
  let marketInsights :=
    "Analyzing optimal locations for " +:+ businessType +:+ " in " +:+ location +:+ ". " +:+
    (if Nat.ltb 0 (length contextualFactors)
     then "Key considerations include " +:+
          JS.toLowerCase (JS.join " and " (firstn 2 contextualFactors)) +:+ ". "
     else "") +:+
    "The analysis will identify high-footfall areas with good accessibility, visibility, and demographic alignment for your target customer base." in
  let it := array_includes contextualFactors "Proximity to IT/Tech Parks" in
  let keyAssumptions := [
    "High demand areas are concentrated near major " +:+
      (if it then "IT parks and tech corridors" else "commercial zones");
    businessType +:+ " performs best in areas with consistent daily foot traffic patterns";
    "Peak business hours align with " +:+
      (if it then "8-10 AM and 6-8 PM (IT crowd)" else "standard 9 AM - 6 PM working hours");
    "Competition density in target area is moderate to high" ] in
  LLMQueryAnalysis.mk location businessType contextualFactors marketInsights keyAssumptions.

(** *** Exceptions *)

(** A thrown value: an [Error] object with its message, or anything else. *)
Inductive Exn : Type :=
  | Error (message : string)
  | Thrown (value : string).

(** How a call ends: it returns (an async function resolves), or it
    throws (the promise is rejected). *)
Inductive Result (A : Type) : Type :=
  | Ok (a : A)
  | Throw (e : Exn).
Arguments Ok {A} a.
Arguments Throw {A} e.

#[global] Instance Result_ret : MRet Result := fun A a => Ok a.
#[global] Instance Result_bind : MBind Result :=
  fun A B f m => match m with Ok a => f a | Throw e => Throw e end.

(** [try { body } catch (error) { handler }] *)
Definition try_catch {A : Type} (body : Result A) (handler : Exn -> Result A) : Result A :=
  match body with
  | Ok a => Ok a
  | Throw e => handler e
  end.

(** *** The runtime *)

Module ClientOptions.
Record t : Type := mk {
  baseURL : option string;
  apiKey : option string;
  dangerouslyAllowBrowser : bool
}.
End ClientOptions.

(** An [OpenAI] client, known by the options it was built with. *)
Module OpenAI.
Record t : Type := mk { options : ClientOptions.t }.
End OpenAI.

Module ChatRequest.
Record t : Type := mk {
  model : string;
  messages : list (string * string);   (* role, content *)
  temperature : option Q;
  max_tokens : nat
}.
End ChatRequest.

(** A chat completion, as far as the interpreter reads it:
    [response.choices[0]?.message?.content]. *)
Module ChatCompletion.
Record Message : Type := mkMessage { content : option string }.
Record Choice : Type := mkChoice { message : option Message }.
Record t : Type := mk { choices : option (list Choice) }.
End ChatCompletion.

(** Everything outside the program. [JSON_parse] is read at the type the
    interpreter declares for what it returns, [LLMQueryAnalysis]; it throws
    a [SyntaxError] on text that is not JSON. *)
Module World.
Record t : Type := mk {
  random : nat -> Q;                       (* the n-th draw of Math.random() *)
  now : nat -> Z;                          (* the n-th reading of Date.now() *)
  new_OpenAI : ClientOptions.t -> Result OpenAI.t;
  chat_completions_create : OpenAI.t -> ChatRequest.t -> Result ChatCompletion.t;
  JSON_parse : string -> Result LLMQueryAnalysis.t
}.
End World.

(** The double quote, and the line feed. *)
Definition dq : string := String (ascii_of_nat 34) EmptyString.
Definition quoted (s : string) : string := dq +:+ s +:+ dq.

Definition SYSTEM_PROMPT : string :=
  "You are POI Oracle, an expert spatial intelligence AI specialized in location analysis for businesses in India and Africa.

Your task is to analyze business location queries and extract structured information. Always respond with valid JSON in this exact format:
{
  " +:+ quoted "location" +:+ ": " +:+ quoted "city name (e.g., Bangalore, Delhi, Nairobi)" +:+ ",
  " +:+ quoted "businessType" +:+ ": " +:+ quoted "type of business (e.g., Chai Stall, Pharmacy, Restaurant)" +:+ ",
  " +:+ quoted "contextualFactors" +:+ ": [" +:+ quoted "factor1" +:+ ", " +:+ quoted "factor2" +:+ ", " +:+ quoted "factor3" +:+ "],
  " +:+ quoted "marketInsights" +:+ ": " +:+ quoted "A detailed 2-3 sentence analysis of the market opportunity" +:+ ",
  " +:+ quoted "keyAssumptions" +:+ ": [" +:+ quoted "assumption1" +:+ ", " +:+ quoted "assumption2" +:+ ", " +:+ quoted "assumption3" +:+ "]
}

Focus on:
1. Identifying the exact target location and business type
2. Understanding contextual factors (IT parks, residential areas, foot traffic patterns)
3. Making realistic assumptions about the business environment
4. Providing actionable market insights based on spatial reasoning

Be specific about Indian/African market dynamics when relevant.".

(** [response.choices[0]?.message?.content]: reading [choices[0]] of an
    absent [choices] throws a [TypeError]; the rest is optional chaining. *)
Definition first_content (response : ChatCompletion.t) : Result (option string) :=
  match ChatCompletion.choices response with
  | None => Throw (Error "Cannot read properties of undefined (reading '0')")
  | Some [] => Ok None
  | Some (choice :: _) =>
      match ChatCompletion.message choice with
      | None => Ok None
      | Some m => Ok (ChatCompletion.content m)
      end
  end.

(** The Markdown fence is taken off the reply before it is parsed. *)
Definition strip_fence (content : string) : string :=
  let jsonContent := JS.trim content in
  let jsonContent :=
    if JS.startsWith jsonContent "```json" then JS.slice_from 7 jsonContent else jsonContent in
  let jsonContent :=
    if JS.startsWith jsonContent "```" then JS.slice_from 3 jsonContent else jsonContent in
  let jsonContent :=
    if JS.endsWith jsonContent "```" then JS.slice_to_minus 3 jsonContent else jsonContent in
  JS.trim jsonContent.

Section Interpreter.

(** [process.env], and the world the process runs in. *)
Variable process_env : gmap string string.
Variable w : World.t.

(** [process.env[key] || fallback] *)
Definition env_or (key fallback : string) : string :=
  match process_env !! key with
  | Some v => if JS.truthy v then v else fallback
  | None => fallback
  end.

Definition USE_LLM : bool :=
  bool_decide (process_env !! "NEXT_PUBLIC_USE_LLM" = Some "true").
Definition LLM_PROVIDER : string := env_or "NEXT_PUBLIC_LLM_PROVIDER" "ollama".
Definition OLLAMA_BASE_URL : string := env_or "NEXT_PUBLIC_OLLAMA_URL" "http://localhost:11434/v1".
Definition OLLAMA_MODEL : string := env_or "NEXT_PUBLIC_OLLAMA_MODEL" "llama3.2".

(** [getClient()]: [None] is the [null] it returns for an unknown provider;
    the constructor may throw. *)
Definition getClient : Result (option OpenAI.t) :=
  if String.eqb LLM_PROVIDER "ollama" then
    client ← World.new_OpenAI w
      (ClientOptions.mk (Some OLLAMA_BASE_URL) (Some "ollama") true);
    mret (Some client)
  else if String.eqb LLM_PROVIDER "openai" then
    client ← World.new_OpenAI w
      (ClientOptions.mk None (process_env !! "NEXT_PUBLIC_OPENAI_API_KEY") true);
    mret (Some client)
  else mret None.

(** The request [analyzeSpatialQuery] sends. *)
Definition analysis_request (query : string) : ChatRequest.t :=
  ChatRequest.mk
    (if String.eqb LLM_PROVIDER "ollama" then OLLAMA_MODEL else "gpt-3.5-turbo")
    [("system", SYSTEM_PROMPT); ("user", query)]
    (Some (7 # 10)%Q)
    600.

(** The body of the [try] block of [analyzeSpatialQuery]. *)
Definition ask_llm (query : string) : Result LLMQueryAnalysis.t :=
  client ← getClient;
  match client with
  | None => mret (simulateAnalysis query)
  | Some client =>
      response ← World.chat_completions_create w client (analysis_request query);
      content ← first_content response;
      match content with
      | None => Throw (Error "No response from LLM")
      | Some content =>
          if negb (JS.truthy content) then Throw (Error "No response from LLM")
          else
            analysis ← World.JSON_parse w (strip_fence content);
            mret analysis
      end
  end.

(** [analyzeSpatialQuery(query)] *)
Definition analyzeSpatialQuery (query : string) : Result LLMQueryAnalysis.t :=
  if negb USE_LLM || String.eqb LLM_PROVIDER "simulate" then
    mret (simulateAnalysis query)
  else
    try_catch (ask_llm query) (fun error => mret (simulateAnalysis query)).

(** [testLLMConnection()] *)
Definition testLLMConnection : Result bool :=
  if negb USE_LLM || String.eqb LLM_PROVIDER "simulate" then mret false
  else
    try_catch
      (client ← getClient;
       match client with
       | None => mret false
       | Some client =>
           _ ← World.chat_completions_create w client
                 (ChatRequest.mk
                    (if String.eqb LLM_PROVIDER "ollama" then OLLAMA_MODEL else "gpt-3.5-turbo")
                    [("user", "test")] None 5);
           mret true
       end)
      (fun error => mret false).

End Interpreter.

(** ** The orchestrator ([utils/aiReasoning.ts]) *)

Module Attributes.
Record t : Type := mk {
  hours : option string;
  rating : option Q;
  tags : option (list string)
}.
End Attributes.

(** [name] is [None] where the code stores [undefined]; [lat] and [lng]
    may be NaN. *)
Module POIData.
Record t : Type := mk {
  id : string;
  name : option string;
  category : string;
  lat : Num;
  lng : Num;
  confidence : Q;
  verified : bool;
  attributes : option Attributes.t
}.
End POIData.

Module AnalysisResult.
Record AiReasoning : Type := mkAiReasoning {
  interpretation : string;
  suggestedLocations : list POIData.t;
  assumptions : list string;
  confidence : Q
}.
Record GroundTruth : Type := mkGroundTruth {
  verifiedPOIs : list POIData.t;
  corrections : list string;
  gaps : list string;
  accuracy : Q
}.
Record Visualization : Type := mkVisualization {
  center : Coordinates;
  zoom : Z
}.
Record t : Type := mk {
  query : string;
  aiReasoning : AiReasoning;
  groundTruth : GroundTruth;
  recommendation : string;
  visualization : Visualization
}.
End AnalysisResult.

(** [Math.floor] and [Math.round] (halves go up), as numbers. *)
Definition Math_floor (x : Q) : Z := Qfloor x.
Definition Math_round (x : Q) : Z := Qfloor (x + (1 # 2)).

(** How many draws of [Math.random()] and readings of [Date.now()] have
    been made. *)
Module Cursor.
Record t : Type := mk { draws : nat; ticks : nat }.
End Cursor.

(** A computation that draws random numbers and reads the clock. *)
Definition Eff (A : Type) : Type := Cursor.t -> A * Cursor.t.

#[global] Instance Eff_ret : MRet Eff := fun A a s => (a, s).
#[global] Instance Eff_bind : MBind Eff :=
  fun A B f m s => let (a, s') := m s in f a s'.

(** [contextFactors.some(f => f.toLowerCase().includes('it') ||
    f.toLowerCase().includes('tech'))] *)
Definition mentions_it (contextFactors : list string) : bool :=
  existsb (fun f => JS.includes (JS.toLowerCase f) "it" || JS.includes (JS.toLowerCase f) "tech")
    contextFactors.

Definition mentions_residential (contextFactors : list string) : bool :=
  existsb (fun f => JS.includes (JS.toLowerCase f) "residential") contextFactors.

(** The [locationNames] table of [generateAISuggestions]. *)
Definition locationNames (businessType : string) : gmap string (list string) :=
  list_to_map [
    ("location",
      [ "Prime " +:+ businessType +:+ " Zone - High Traffic";
        businessType +:+ " Hotspot - Tech Corridor";
        "Emerging " +:+ businessType +:+ " District";
        "Premium " +:+ businessType +:+ " Location";
        "Strategic " +:+ businessType +:+ " Point" ]);
    ("market",
      [ "Underserved Market - " +:+ businessType;
        "High Growth Potential Zone";
        "Market Gap - " +:+ businessType +:+ " Opportunity";
        "Emerging Consumer Hub";
        "Untapped " +:+ businessType +:+ " Market" ]);
    ("competitor",
      [ "Low Competition Zone";
        "Competitor Weak Spot";
        "Market Share Opportunity";
        "Strategic Entry Point";
        "Competition Gap Area" ]);
    ("optimize",
      [ "Optimal Coverage Point";
        "Network Efficiency Zone";
        "Supply Chain Hub";
        "Logistics Optimization Point";
        "Resource Efficiency Location" ])
  ].

(** [locationNames[queryType || 'location'] || locationNames.location] *)
Definition names_for (businessType : string) (queryType : option string)
    : JS.Property (list string) :=
  let key :=
    match queryType with
    | Some t => if JS.truthy t then t else "location"
    | None => "location"
    end in
  match JS.get (locationNames businessType) key with
  | JS.Missing => JS.get (locationNames businessType) "location"
  | found => found
  end.

(** [names[i]]: [undefined] on a function or on the prototype object. *)
Definition name_at (names : JS.Property (list string)) (i : nat) : option string :=
  match names with
  | JS.Own l => l !! i
  | _ => None
  end.

Definition verifiedNames (businessType : string) : list string :=
  [ "Verified: " +:+ businessType +:+ " - Prime Location";
    "Validated: High-Traffic " +:+ businessType +:+ " Zone";
    "Confirmed: " +:+ businessType +:+ " Opportunity";
    "Ground Truth: Optimal " +:+ businessType +:+ " Spot" ].

(** [verifiedNames[i] || `Verified Location ${i + 1}`] *)
Definition verified_name (businessType : string) (i : nat) : string :=
  match verifiedNames businessType !! i with
  | Some n => if JS.truthy n then n else "Verified Location " +:+ pretty (i + 1)%nat
  | None => "Verified Location " +:+ pretty (i + 1)%nat
  end.

(** [generateRecommendation]. The percentage is the rounding of the exact
    product; the code rounds the binary64 product, which can give the next
    integer (never one outside the range of the exact ones). *)
Definition generateRecommendation (businessType location : string)
    (verified : list POIData.t) (corrections gaps : list string) : string :=
  let topLocation : string :=
    match verified with
    | v :: _ => match POIData.name v with Some n => n | None => "undefined" end
    | [] => "No optimal location identified"
    end in
  let confidence : Z :=
    match verified with
    | v :: _ => Math_round (POIData.confidence v * 100)
    | [] => 0%Z
    end in
  "━━━━━━━━━━━━━━━━━━━━━━━━━━━━━━━━━━━━━━━━━━━━━━━━━━━━
📊 ANALYSIS SUMMARY: " +:+ businessType +:+ " in " +:+ location +:+ "
━━━━━━━━━━━━━━━━━━━━━━━━━━━━━━━━━━━━━━━━━━━━━━━━━━━━

✅ Verified Locations: " +:+ pretty (length verified) +:+ "
⚠️  AI Corrections Made: " +:+ pretty (length corrections) +:+ "
🔍 Market Gaps Found: " +:+ pretty (length gaps) +:+ "

━━━━━━━━━━━━━━━━━━━━━━━━━━━━━━━━━━━━━━━━━━━━━━━━━━━━
🎯 TOP RECOMMENDATION
━━━━━━━━━━━━━━━━━━━━━━━━━━━━━━━━━━━━━━━━━━━━━━━━━━━━

Location: " +:+ topLocation +:+ "
Confidence: " +:+ pretty confidence +:+ "% (grounded in POI data)

This recommendation is validated against real-world POI 
data using our 61% accuracy classifier, ensuring AI 
reasoning is grounded in physical reality.
".

Section Orchestrator.

Variable process_env : gmap string string.
Variable w : World.t.

(** [Math.random()] and [Date.now()] *)
Definition Math_random : Eff Q :=
  fun s => (World.random w (Cursor.draws s),
            Cursor.mk (S (Cursor.draws s)) (Cursor.ticks s)).

Definition Date_now : Eff Z :=
  fun s => (World.now w (Cursor.ticks s),
            Cursor.mk (Cursor.draws s) (S (Cursor.ticks s))).

(** One turn of the loop of [generateAISuggestions]. The coordinates and
    the confidence are the exact sums; the code's are these rounded to
    binary64. *)
Definition ai_suggestion (coords : Coordinates) (names : JS.Property (list string))
    (contextFactors : list string) (i : nat) : Eff POIData.t :=
  let hasITContext := mentions_it contextFactors in
  t ← Date_now;
  r1 ← Math_random;
  r2 ← Math_random;
  r3 ← Math_random;
  mret (POIData.mk
    ("ai_" +:+ pretty t +:+ "_" +:+ pretty i)
    (name_at names i)
    "ai_suggested"
    (lat_plus coords ((r1 - (5 # 10)) * (4 # 100))%Q)
    (lng_plus coords ((r2 - (5 # 10)) * (4 # 100))%Q)
    ((55 # 100) + r3 * (25 # 100))%Q
    false
    (Some (Attributes.mk
       (Some (if hasITContext then "7 AM - 10 PM" else "9 AM - 9 PM"))
       None
       (Some ["AI Generated"; if hasITContext then "Tech Zone" else "Commercial Zone"])))).

(** [generateAISuggestions] *)
Definition generateAISuggestions (location businessType : string)
    (contextFactors : list string) (queryType : option string) : Eff (list POIData.t) :=
  let coords := getCityCoordinates location in
  let names := names_for businessType queryType in
  mapM (ai_suggestion coords names contextFactors) (seq 0 5).

(** One turn of the loop of [validateWithGroundTruth]. The coordinates,
    the confidence and the rating are the exact sums; the code's are these
    rounded to binary64. *)
Definition verified_poi (coords : Coordinates) (businessType : string) (i : nat) : Eff POIData.t :=
  t ← Date_now;
  r1 ← Math_random;
  r2 ← Math_random;
  r3 ← Math_random;
  r4 ← Math_random;
  mret (POIData.mk
    ("verified_" +:+ pretty t +:+ "_" +:+ pretty i)
    (Some (verified_name businessType i))
    "ground_truth_verified"
    (lat_plus coords ((r1 - (5 # 10)) * (35 # 1000))%Q)
    (lng_plus coords ((r2 - (5 # 10)) * (35 # 1000))%Q)
    ((82 # 100) + r3 * (13 # 100))%Q
    true
    (Some (Attributes.mk
       (Some "Based on verified operating patterns")
       (Some ((35 # 10) + r4 * (15 # 10))%Q)
       (Some ["POI Classifier Validated"; "Ground Truth"])))).

(** [validateWithGroundTruth] *)
Definition validateWithGroundTruth (aiSuggestions : list POIData.t)
    (location businessType : string) : Eff (list POIData.t) :=
  let coords := getCityCoordinates location in
  r ← Math_random;
  let validationRate := ((60 # 100) + r * (10 # 100))%Q in
  let validCount := Math_floor (inject_Z (Z.of_nat (length aiSuggestions)) * validationRate) in
  mapM (verified_poi coords businessType) (seq 0 (Z.to_nat validCount)).

(** [identifyCorrectionsAndGaps] *)
Definition identifyCorrectionsAndGaps (contextFactors : list string)
    (businessType location : string) : Eff (list string * list string) :=
  let corrections :=
    if mentions_it contextFactors then
      [ "AI assumed standard commercial hours; actual IT park peak times are 8-10 AM and 6-8 PM";
        "AI suggested general commercial areas; IT corridors have different foot traffic patterns" ]
    else
      [ "AI overestimated foot traffic in suggested Zone 2 by approximately 35%";
        "Competition density in AI's top pick is higher than estimated (4 similar businesses within 500m)" ] in
  r ← Math_random;
  let gaps :=
    [ "Identified " +:+ pretty (Math_floor (r * 3) + 2)%Z +:+
        " underserved neighborhoods with high demand potential";
      "Found market gap: No " +:+ businessType +:+ " within 1km of " +:+ location +:+
        " Central Metro Station" ] in
  let gaps :=
    if mentions_residential contextFactors
    then gaps ++ [ "Residential zones in " +:+ location +:+
                   " East show 40% higher demand than current supply" ]
    else gaps in
  mret (corrections, gaps).

(** What [analyzeQuery] does once the interpretation is there. *)
Definition compose_result (query : string) (queryType : option string)
    (llmAnalysis : LLMQueryAnalysis.t) : Eff AnalysisResult.t :=
  let location := LLMQueryAnalysis.location llmAnalysis in
  let businessType := LLMQueryAnalysis.businessType llmAnalysis in
  let contextualFactors := LLMQueryAnalysis.contextualFactors llmAnalysis in
  let marketInsights := LLMQueryAnalysis.marketInsights llmAnalysis in
  let keyAssumptions := LLMQueryAnalysis.keyAssumptions llmAnalysis in
  aiSuggestions ← generateAISuggestions location businessType contextualFactors queryType;
  verifiedPOIs ← validateWithGroundTruth aiSuggestions location businessType;
  cg ← identifyCorrectionsAndGaps contextualFactors businessType location;
  let corrections := fst cg in
  let gaps := snd cg in
  let accuracy :=
    Math_round
      (inject_Z (Z.of_nat (length verifiedPOIs)) /
       inject_Z (Z.max (Z.of_nat (length aiSuggestions)) 1) * 100)%Q in
  r ← Math_random;
  mret (AnalysisResult.mk
    query
    (AnalysisResult.mkAiReasoning marketInsights aiSuggestions keyAssumptions
       ((72 # 100) + r * (8 # 100))%Q)
    (AnalysisResult.mkGroundTruth verifiedPOIs corrections gaps
       (Qmin (inject_Z accuracy) 70))
    (generateRecommendation businessType location verifiedPOIs corrections gaps)
    (AnalysisResult.mkVisualization (getCityCoordinates location) 13)).

(** [analyzeQuery(query, queryType?)]: a rejected interpretation rejects
    the analysis. *)
Definition analyzeQuery (query : string) (queryType : option string)
    : Eff (Result AnalysisResult.t) :=
  fun s =>
    match analyzeSpatialQuery process_env w query with
    | Ok llmAnalysis =>
        let (result, s') := compose_result query queryType llmAnalysis s in
        (Ok result, s')
    | Throw e => (Throw e, s)
    end.

End Orchestrator.

(** ** The analyze endpoint ([pages/api/analyze.ts]) *)

(** A value of a JSON request body. *)
Inductive JSValue : Type :=
  | JUndefined
  | JNull
  | JBool (b : bool)
  | JNumber (q : Q)
  | JString (s : string)
  | JArray (items : list JSValue)
  | JObject (fields : gmap string JSValue).

(** [typeof v] *)
Definition typeof (v : JSValue) : string :=
  match v with
  | JUndefined => "undefined"
  | JNull => "object"
  | JBool _ => "boolean"
  | JNumber _ => "number"
  | JString _ => "string"
  | JArray _ => "object"
  | JObject _ => "object"
  end.

(** [!v] *)
Definition falsy (v : JSValue) : bool :=
  match v with
  | JUndefined => true
  | JNull => true
  | JBool b => negb b
  | JNumber q => Qeq_bool q 0
  | JString s => negb (JS.truthy s)
  | JArray _ => false
  | JObject _ => false
  end.

(** The string held by a value whose [typeof] is string. *)
Definition string_value (v : JSValue) : string :=
  match v with
  | JString s => s
  | _ => ""
  end.

(** [const { key } = v]: reading a property of [null] or [undefined]
    throws; a property absent from the object, and any property named here
    of a primitive or an array, is [undefined]. *)
Definition destructure (v : JSValue) (key : string) : Result JSValue :=
  match v with
  | JUndefined =>
      Throw (Error ("Cannot destructure property '" +:+ key +:+ "' of 'req.body' as it is undefined."))
  | JNull =>
      Throw (Error ("Cannot destructure property '" +:+ key +:+ "' of 'req.body' as it is null."))
  | JObject fields =>
      match fields !! key with
      | Some x => Ok x
      | None => Ok JUndefined
      end
  | _ => Ok JUndefined
  end.

Module Request.
Record t : Type := mk { method : option string; body : JSValue }.
End Request.

Module Response.
Inductive Json : Type :=
  | Failure (error : string)
  | FailureDetails (error details : string)
  | Analysis (result : AnalysisResult.t).
Record t : Type := mk { status : nat; json : Json }.
End Response.

Section Endpoint.

(** The orchestrator as the endpoint calls it: the query, and the
    [queryType] as it stands in the body. *)
Variable analyzeQuery : string -> JSValue -> Result AnalysisResult.t.

(** A response together with the calls of the orchestrator made for it. *)
Definition Served : Type := Response.t * list (string * JSValue).

(** The body of the [try] block. *)
Definition serve (req : Request.t) : Result Response.t * list (string * JSValue) :=
  match destructure (Request.body req) "query", destructure (Request.body req) "queryType" with
  | Ok query, Ok queryType =>
      if falsy query || negb (String.eqb (typeof query) "string") then
        (Ok (Response.mk 400 (Response.Failure "Query is required")), [])
      else
        (result ← analyzeQuery (string_value query) queryType;
         mret (Response.mk 200 (Response.Analysis result)),
         [(string_value query, queryType)])
  | Throw e, _ => (Throw e, [])
  | _, Throw e => (Throw e, [])
  end.

(** [req.method !== 'POST'] *)
Definition not_post (req : Request.t) : bool :=
  match Request.method req with
  | Some m => negb (String.eqb m "POST")
  | None => true
  end.

(** [handler(req, res)] *)
Definition handler (req : Request.t) : Served :=
  if not_post req then (Response.mk 405 (Response.Failure "Method not allowed"), [])
  else
    let (outcome, calls) := serve req in
    match outcome with
    | Ok response => (response, calls)
    | Throw error =>
        (Response.mk 500
           (Response.FailureDetails "Failed to analyze query"
              match error with
              | Error message => message
              | Thrown _ => "Unknown error"
              end),
         calls)
    end.

End Endpoint.

(** ** [generateSamplePOIs] ([utils/poiClassifier.ts]) *)

(** The POI record as [generateSamplePOIs] fills it: the confidence is the
    classifier's, a binary64. *)
Module SamplePOI.
Record t : Type := mk {
  id : string;
  name : string;
  category : string;
  lat : Num;
  lng : Num;
  confidence : float;
  verified : bool;
  attributes : option Attributes.t
}.
End SamplePOI.

(** [CITY_COORDINATES[location.toLowerCase()] || CITY_COORDINATES.bangalore] *)
Definition baseCoord (location : string) : Coordinates :=
  match JS.get CITY_COORDINATES (JS.toLowerCase location) with
  | JS.Own (lat, lng) => LatLng lat lng
  | JS.Inherited key => NotCoordinates key
  | JS.Missing => LatLng (fst bangalore) (snd bangalore)
  end.

(** How often the loop [for (let i = 0; i < count; i++)] turns. *)
Definition turns (count : Q) : nat := Z.to_nat (Qceiling count).

Section SamplePOIs.

Variable w : World.t.

(** One turn of the loop of [generateSamplePOIs]. The coordinates and the
    rating are the exact sums; the code's are these rounded to binary64. *)
Definition sample_poi (base : Coordinates) (category : string) (i : nat) : Eff SamplePOI.t :=
  let classification := classifyPOI category None in
  t ← Date_now w;
  r1 ← Math_random w;
  r2 ← Math_random w;
  r3 ← Math_random w;
  r4 ← Math_random w;
  mret (SamplePOI.mk
    ("poi_" +:+ pretty t +:+ "_" +:+ pretty i)
    (category +:+ " Location " +:+ pretty (i + 1)%nat)
    (Classification.category classification)
    (lat_plus base ((r1 - (5 # 10)) * (1 # 10))%Q)
    (lng_plus base ((r2 - (5 # 10)) * (1 # 10))%Q)
    (Classification.confidence classification)
    (negb (Qle_bool r3 (3 # 10)))
    (Some (Attributes.mk (Some "9 AM - 9 PM") (Some (3 + r4 * 2)%Q) (Some [category])))).

(** [generateSamplePOIs(location, category, count = 5)]; [None] is an
    absent count. *)
Definition generateSamplePOIs (location category : string) (count : option Q)
    : Eff (list SamplePOI.t) :=
  let count := match count with Some c => c | None => 5%Q end in
  mapM (sample_poi (baseCoord location) category) (seq 0 (turns count)).

End SamplePOIs.

(** ** The status endpoint ([pages/api/status.ts]) and the probe
    ([pages/api/test-llm.ts]) *)

Module JsonResponse.
Record t : Type := mk { status : nat; body : JSValue }.
End JsonResponse.

(** [{ llmConnected, mode: llmConnected ? 'llm' : 'simulation' }] *)
Definition status_body (llmConnected : bool) : JSValue :=
  JObject {[ "llmConnected" := JBool llmConnected;
             "mode" := JString (if llmConnected then "llm" else "simulation") ]}.

(** The handler of [pages/api/status.ts]. *)
Definition status_handler (process_env : gmap string string) (w : World.t)
    : Result JsonResponse.t :=
  try_catch
    (llmConnected ← testLLMConnection process_env w;
     mret (JsonResponse.mk 200 (status_body llmConnected)))
    (fun error => mret (JsonResponse.mk 200 (status_body false))).

(** [s.replace(pattern, replacement)] for a pattern that is a string, not
    empty, and a replacement without [$]: the first occurrence is
    replaced. *)
Fixpoint replace_first (s pattern replacement : string) : string :=
  if JS.startsWith s pattern
  then replacement +:+ JS.slice_from (String.length pattern) s
  else match s with
       | EmptyString => EmptyString
       | String c r => String c (replace_first r pattern replacement)
       end.

(** A request made with [fetch], as far as the probe sets it; [body] is the
    object handed to [JSON.stringify]. *)
Module FetchRequest.
Record t : Type := mk {
  url : string;
  method : string;
  headers : list (string * string);
  body : option JSValue;
  timeout : Z
}.
End FetchRequest.

(** [endpoint.replace('/v1', '/api/tags')]: only a string has a [replace]
    to call. *)
Definition tags_url (endpoint : JSValue) : Result string :=
  match endpoint with
  | JString s => Ok (replace_first s "/v1" "/api/tags")
  | JUndefined => Throw (Error "Cannot read properties of undefined (reading 'replace')")
  | JNull => Throw (Error "Cannot read properties of null (reading 'replace')")
  | _ => Throw (Error "endpoint.replace is not a function")
  end.

Definition tags_request (url : string) : FetchRequest.t :=
  FetchRequest.mk url "GET" [] None 5000%Z.

Definition completion_request (endpoint : string) (model : JSValue) : FetchRequest.t :=
  FetchRequest.mk (endpoint +:+ "/chat/completions") "POST"
    [("Content-Type", "application/json")]
    (Some (JObject {[ "model" := model;
                      "messages" := JArray [JObject {[ "role" := JString "user";
                                                       "content" := JString "test" ]}];
                      "max_tokens" := JNumber 5 ]}))
    10000%Z.

(** [{ connected }] *)
Definition connected_body (connected : bool) : JSValue :=
  JObject {[ "connected" := JBool connected ]}.

Section Probe.

(** [fetch]: the [ok] flag of the response, or what it throws (no
    connection, the time limit). *)
Variable fetch : FetchRequest.t -> Result bool.

(** The body of the [try] block, with the requests made. *)
Definition probe (endpoint model : JSValue) : Result JsonResponse.t * list FetchRequest.t :=
  match tags_url endpoint with
  | Throw e => (Throw e, [])
  | Ok url =>
      match fetch (tags_request url) with
      | Throw e => (Throw e, [tags_request url])
      | Ok true => (Ok (JsonResponse.mk 200 (connected_body true)), [tags_request url])
      | Ok false =>
          let request := completion_request (string_value endpoint) model in
          (ok ← fetch request; mret (JsonResponse.mk 200 (connected_body ok)),
           [tags_request url; request])
      end
  end.

(** The handler of [pages/api/test-llm.ts]; the destructuring of the body
    stands before the [try]. *)
Definition test_llm_handler (req : Request.t) : Result JsonResponse.t * list FetchRequest.t :=
  if not_post req then
    (Ok (JsonResponse.mk 405 (JObject {[ "error" := JString "Method not allowed" ]})), [])
  else
    match destructure (Request.body req) "endpoint", destructure (Request.body req) "model" with
    | Ok endpoint, Ok model =>
        let (outcome, requests) := probe endpoint model in
        (try_catch outcome (fun error => mret (JsonResponse.mk 200 (connected_body false))),
         requests)
    | Throw e, _ => (Throw e, [])
    | _, Throw e => (Throw e, [])
    end.

End Probe.

(** ** The page ([pages/index.tsx]) and the map ([components/MapView.tsx]) *)

(** [data.connected] and the like: reading a property of [null] or
    [undefined] throws. The key names no inherited property. *)
Definition read_property (v : JSValue) (key : string) : Result JSValue :=
  match v with
  | JUndefined =>
      Throw (Error ("Cannot read properties of undefined (reading '" +:+ key +:+ "')"))
  | JNull =>
      Throw (Error ("Cannot read properties of null (reading '" +:+ key +:+ "')"))
  | JObject fields =>
      match fields !! key with
      | Some x => Ok x
      | None => Ok JUndefined
      end
  | _ => Ok JUndefined
  end.

(** [checkLLMStatus]: the status the page sets, from what
    [fetch('/api/status')] and [res.json()] give. *)
Definition checkLLMStatus (data : Result JSValue) : string :=
  match
    try_catch
      (data ← data;
       connected ← read_property data "connected";
       mret (if falsy connected then "demo" else "connected"))
      (fun _ => mret "demo")
  with
  | Ok status => status
  | Throw _ => "demo"
  end.

(** [handleAnalyze]: the request the page sends, none for a query that is
    blank. The body is the object handed to [JSON.stringify]. *)
Definition handleAnalyze (query queryType : string) : option Request.t :=
  if negb (JS.truthy (JS.trim query)) then None
  else Some (Request.mk (Some "POST")
               (JObject {[ "query" := JString query; "queryType" := JString queryType ]})).

(** [allPOIs]: the POIs the page hands to the map. *)
Definition allPOIs (result : option AnalysisResult.t) : list POIData.t :=
  match result with
  | Some r =>
      AnalysisResult.suggestedLocations (AnalysisResult.aiReasoning r) ++
      AnalysisResult.verifiedPOIs (AnalysisResult.groundTruth r)
  | None => []
  end.

(** [pois.filter(p => !p.verified)] and [pois.filter(p => p.verified)]: the
    markers of the map, AI suggestions and verified POIs. *)
Definition markers (pois : list POIData.t) : list POIData.t * list POIData.t :=
  (List.filter (fun p => negb (POIData.verified p)) pois,
   List.filter (fun p => POIData.verified p) pois).

(** ** The settings dialog ([components/SettingsModal.tsx]) *)

Module LLMConfig.
Record t : Type := mk { provider : string; endpoint : string; model : string }.
End LLMConfig.

(** The request [handleTest] sends to the probe endpoint; the body is the
    configuration handed to [JSON.stringify]. *)
Definition handleTest_request (config : LLMConfig.t) : Request.t :=
  Request.mk (Some "POST")
    (JObject {[ "provider" := JString (LLMConfig.provider config);
                "endpoint" := JString (LLMConfig.endpoint config);
                "model" := JString (LLMConfig.model config) ]}).

(** [handleTest]: the test result the dialog sets, from what [fetch] and
    [response.json()] give. *)
Definition handleTest (data : Result JSValue) : string :=
  match
    try_catch
      (data ← data;
       connected ← read_property data "connected";
       mret (if falsy connected then "error" else "success"))
      (fun _ => mret "error")
  with
  | Ok testResult => testResult
  | Throw _ => "error"
  end.

(** ** Notions the properties are stated with *)

(** Some keyword of some category occurs in the lower-cased name: the test
    [nameLower.includes(keyword)] succeeds somewhere. *)
Definition matches_keyword (name : string) : bool :=
  existsb
    (fun c => existsb (JS.includes (JS.toLowerCase name)) (POICategory.keywords c))
    POI_CATEGORIES.

(** The same with the keyword lower-cased too. *)
Definition matches_keyword_nocase (name : string) : bool :=
  existsb
    (fun c =>
       existsb (fun k => JS.includes (JS.toLowerCase name) (JS.toLowerCase k))
         (POICategory.keywords c))
    POI_CATEGORIES.

(** A context is given and some contextual rule occurs in it. *)
Definition matches_context (context : option string) : bool :=
  match context with
  | Some ctx =>
      existsb
        (fun c =>
           existsb (fun r => JS.includes (JS.toLowerCase ctx) (JS.toLowerCase r))
             (POICategory.contextualRules c))
        POI_CATEGORIES
  | None => false
  end.

(** The keywords that lose to an earlier category scoring as much:
    category, keyword, the category returned. *)
Definition shadowed : list (string * string * string) :=
  [ ("technology", "tech park", "entertainment");
    ("technology", "office", "government");
    ("automotive", "workshop", "retail");
    ("fitness", "health club", "healthcare") ].

Definition winner_for (c : POICategory.t) (k : string) : string :=
  match
    find (fun e => String.eqb (fst (fst e)) (POICategory.id c) && String.eqb (snd (fst e)) k)
      shadowed
  with
  | Some e => snd e
  | None => POICategory.id c
  end.

(** [Math.random()] keeps its contract: every draw lies in [0, 1). *)
Definition unit_draws (w : World.t) : Prop :=
  forall n, (0 <= World.random w n)%Q /\ (World.random w n < 1)%Q.

(** The interpreter is in LLM mode: the test
    [!USE_LLM || LLM_PROVIDER === 'simulate'] fails. *)
Definition llm_mode (process_env : gmap string string) : bool :=
  negb (negb (USE_LLM process_env) || String.eqb (LLM_PROVIDER process_env) "simulate").

(** The ways the chat completion fails for a query: the client cannot be
    built, the call throws (network error, timeout, error status), the reply
    has no choices array, its content is absent or empty, or the content
    left after the fence is stripped is not JSON. *)
Inductive llm_failure (process_env : gmap string string) (w : World.t) (query : string) : Prop :=
  | client_fails e :
      getClient process_env w = Throw e ->
      llm_failure process_env w query
  | call_fails client e :
      getClient process_env w = Ok (Some client) ->
      World.chat_completions_create w client (analysis_request process_env query) = Throw e ->
      llm_failure process_env w query
  | reply_malformed client response e :
      getClient process_env w = Ok (Some client) ->
      World.chat_completions_create w client (analysis_request process_env query) = Ok response ->
      first_content response = Throw e ->
      llm_failure process_env w query
  | content_absent client response :
      getClient process_env w = Ok (Some client) ->
      World.chat_completions_create w client (analysis_request process_env query) = Ok response ->
      first_content response = Ok None ->
      llm_failure process_env w query
  | content_empty client response :
      getClient process_env w = Ok (Some client) ->
      World.chat_completions_create w client (analysis_request process_env query) = Ok response ->
      first_content response = Ok (Some "") ->
      llm_failure process_env w query
  | json_malformed client response content e :
      getClient process_env w = Ok (Some client) ->
      World.chat_completions_create w client (analysis_request process_env query) = Ok response ->
      first_content response = Ok (Some content) ->
      World.JSON_parse w (strip_fence content) = Throw e ->
      llm_failure process_env w query.

(** What the endpoint answers once the orchestrator has been called. *)
Definition answer (outcome : Result AnalysisResult.t) : Response.t :=
  match outcome with
  | Ok result => Response.mk 200 (Response.Analysis result)
  | Throw (Error message) =>
      Response.mk 500 (Response.FailureDetails "Failed to analyze query" message)
  | Throw (Thrown _) =>
      Response.mk 500 (Response.FailureDetails "Failed to analyze query" "Unknown error")
  end.

(** The product whose floor is [validCount], in binary64, for five
    suggestions. *)
Definition validation_product (r : float) : float :=
  PrimFloat.mul 5%float (PrimFloat.add 0.60%float (PrimFloat.mul r 0.10%float)).

(** The other numbers made from a draw, in binary64, as the code computes
    them: the three confidences, a coordinate moved by a draw, the rating of
    a sample POI, and the product [Math.round] is applied to in the
    recommendation. *)
Definition suggestion_confidence_binary64 (r : float) : float :=
  PrimFloat.add 0.55%float (PrimFloat.mul r 0.25%float).

Definition verified_confidence_binary64 (r : float) : float :=
  PrimFloat.add 0.82%float (PrimFloat.mul r 0.13%float).

Definition reasoning_confidence_binary64 (r : float) : float :=
  PrimFloat.add 0.72%float (PrimFloat.mul r 0.08%float).

Definition moved_binary64 (coordinate scale r : float) : float :=
  PrimFloat.add coordinate (PrimFloat.mul (PrimFloat.sub r 0.5%float) scale).

Definition sample_rating_binary64 (r : float) : float :=
  PrimFloat.add 3%float (PrimFloat.mul r 2%float).

Definition percentage_binary64 (confidence : float) : float :=
  PrimFloat.mul confidence 100%float.

(** The least and the greatest draw: 0 and the double just below 1. *)
Definition extreme_draws : list float := [0%float; 0.99999999999999989%float].

(** The double a decimal literal of the table stands for: the quotient of
    its digits by the power of ten, rounded once. *)
Definition float_of_Q (q : Q) : float :=
  let n := PrimFloat.of_uint63 (Uint63.of_Z (Z.abs (Qnum q))) in
  let d := PrimFloat.of_uint63 (Uint63.of_Z (Zpos (Qden q))) in
  if (Qnum q <? 0)%Z then PrimFloat.opp (PrimFloat.div n d) else PrimFloat.div n d.

(** A coordinate of the table, moved by each extreme draw at [scale],
    stays within [radius] of where it was. *)
Definition moved_near (scale radius : float) (coordinate : Q) : bool :=
  forallb
    (fun r =>
       PrimFloat.leb
         (PrimFloat.abs
            (PrimFloat.sub (moved_binary64 (float_of_Q coordinate) scale r)
               (float_of_Q coordinate)))
         radius)
    extreme_draws.

(** ** The classifier, category by category *)

(** The confidence one category gets: the body of the loop of
    [classifyPOI] up to [Math.min(score, 0.95)]. *)
Definition category_confidence (nameLower contextLower : string) (context_given : bool)
    (category : POICategory.t) : float :=
  let score := keyword_score nameLower (POICategory.keywords category) 0%float in
  let score :=
    if context_given
    then context_score contextLower (POICategory.contextualRules category) score
    else score in
  Math_min score 0.95%float.

(** The confidence of a category for a name and a context, as
    [classifyPOI] computes it. *)
Definition confidence_of (name : string) (context : option string)
    (category : POICategory.t) : float :=
  category_confidence (JS.toLowerCase name)
    (match context with Some c => JS.toLowerCase c | None => "" end)
    (match context with Some c => JS.truthy c | None => false end)
    category.

(** How many keywords of the category the lower-cased name includes, and
    how many of its contextual rules a given context includes. *)
Definition keywords_matched (name : string) (category : POICategory.t) : nat :=
  length (filter (fun k => JS.includes (JS.toLowerCase name) k = true)
            (POICategory.keywords category)).

Definition rules_matched (context : option string) (category : POICategory.t) : nat :=
  match context with
  | Some ctx =>
      if JS.truthy ctx then
        length (filter (fun r => JS.includes (JS.toLowerCase ctx) (JS.toLowerCase r) = true)
                  (POICategory.contextualRules category))
      else 0
  | None => 0
  end.

(** [inc] added [n] times to [score], one addition after the other. *)
Definition add_times (n : nat) (inc score : float) : float :=
  Nat.iter n (fun s => PrimFloat.add s inc) score.

(** The confidence after [k] keywords and [r] contextual rules. *)
Definition confidence_after (k r : nat) : float :=
  Math_min (add_times r 0.15%float (add_times k 0.35%float 0%float)) 0.95%float.

(** The confidences a category of the taxonomy can get (at most 9 keywords
    and 3 rules), and the floor. *)
Definition confidence_values : list float :=
  0.3%float ::
  flat_map (fun k => map (confidence_after k) (seq 0 4)) (seq 0 10).
(** What holds of the best match once the categories [done] have been
    looked at: it is at least the floor and at least every confidence seen,
    and it is either the initial match or the first category of [done] that
    reached its confidence. *)
Definition best_so_far (conf : POICategory.t -> float) (done : list POICategory.t)
    (best : Classification.t) : Prop :=
  In (Classification.confidence best) confidence_values /\
  PrimFloat.leb 0.3%float (Classification.confidence best) = true /\
  (forall c, In c done -> PrimFloat.leb (conf c) (Classification.confidence best) = true) /\
  (best = Classification.mk "unknown" 0.3%float \/
   exists pre c post,
     done = pre ++ c :: post /\
     best = Classification.mk (POICategory.id c) (conf c) /\
     PrimFloat.ltb 0.3%float (conf c) = true /\
     forall c', In c' pre -> PrimFloat.ltb (conf c') (conf c) = true).

(** The step of the loop of [classifyPOI] for a given confidence of each
    category: a category replaces the best match when its confidence is
    strictly greater. *)
Definition keep_best (conf : POICategory.t -> float) (best : Classification.t)
    (c : POICategory.t) : Classification.t :=
  if PrimFloat.ltb (Classification.confidence best) (conf c)
  then Classification.mk (POICategory.id c) (conf c)
  else best.


(** ** More notions *)

(** A coordinate is a number, at most [radius] away from [center]. *)
Definition within (center radius : Q) (x : Num) : Prop :=
  match x with
  | Finite q => (center - radius <= q)%Q /\ (q <= center + radius)%Q
  | NaN => False
  end.

(** The first and the last character of a string. *)
Definition first_char (s : string) : option ascii :=
  match s with
  | EmptyString => None
  | String c _ => Some c
  end.

Fixpoint last_char (s : string) : option ascii :=
  match s with
  | EmptyString => None
  | String c EmptyString => Some c
  | String _ r => last_char r
  end.

(** The key of [locationNames] a query type selects. *)
Definition names_key (queryType : option string) : string :=
  match queryType with
  | Some t => if JS.truthy t then t else "location"
  | None => "location"
  end.

(** The words of a query that bring a contextual factor. *)
Definition context_triggers : list string :=
  [ "it park"; "tech park"; "residential"; "underserved"; "gap"; "commercial";
    "metro"; "transit" ].

(** A fenced block: the text between a fence that names JSON, or a bare
    one, and the closing fence, each on a line of its own. *)
Definition nl : string := String (ascii_of_nat 10) EmptyString.
Definition fenced_json (text : string) : string := "```json" +:+ nl +:+ text +:+ nl +:+ "```".
Definition fenced (text : string) : string := "```" +:+ nl +:+ text +:+ nl +:+ "```".

(** ** Sample inputs *)

(** A process with the LLM switched on (provider ollama by default), in a
    world where nothing listens on the endpoint. *)
Definition llm_env : gmap string string := {[ "NEXT_PUBLIC_USE_LLM" := "true" ]}.

Definition offline_world : World.t :=
  World.mk (fun _ => 1 # 2)%Q (fun n => 1700000000000 + Z.of_nat n)%Z
    (fun options => Ok (OpenAI.mk options))
    (fun _ _ => Throw (Error "Connection error."))
    (fun _ => Throw (Error "Unexpected end of JSON input")).

(** A world whose endpoint answers every request with [content]; its
    [JSON.parse] knows one text, the object [nairobi_reply] stands for. *)
Definition nairobi_reply : LLMQueryAnalysis.t :=
  LLMQueryAnalysis.mk "Nairobi" "Pharmacy" ["Residential Area Focus"]
    "Pharmacies are sparse in the eastern estates." ["Demand follows population density"].

Definition replying_world (content : option string) : World.t :=
  World.mk (fun _ => 1 # 4)%Q (fun _ => 1700000000000)%Z
    (fun options => Ok (OpenAI.mk options))
    (fun _ _ =>
       Ok (ChatCompletion.mk
             (Some [ChatCompletion.mkChoice (Some (ChatCompletion.mkMessage content))])))
    (fun text =>
       if String.eqb text "{nairobi}" then Ok nairobi_reply
       else Throw (Error "Unexpected token in JSON")).

(** An orchestrator to run the endpoint with: the analysis of the query in
    the offline world. The query type is read when it is a string; any
    other scalar selects the default names, as an absent one does (arrays
    and objects, which the code would turn into a property key, are read as
    absent too). *)
Definition offline_orchestrator (query : string) (queryType : JSValue)
    : Result AnalysisResult.t :=
  fst (analyzeQuery ∅ offline_world query
         (match queryType with JString t => Some t | _ => None end)
         (Cursor.mk 0 0)).

(** A world whose endpoint answers with an interpretation that takes the
    name of an inherited property for the location. *)
Definition constructor_world : World.t :=
  World.mk (fun _ => 1 # 4)%Q (fun _ => 1700000000000)%Z
    (fun options => Ok (OpenAI.mk options))
    (fun _ _ =>
       Ok (ChatCompletion.mk
             (Some [ChatCompletion.mkChoice
                      (Some (ChatCompletion.mkMessage (Some "{constructor}")))])))
    (fun _ => Ok (LLMQueryAnalysis.mk "constructor" "Pharmacy" ["Residential Area Focus"]
                    "No insight." ["None"])).

(** ** Proof steps *)

(** A fact about one character is checked on the 256 of them. *)
Ltac by_cases_on_char c :=
  destruct c as [[|] [|] [|] [|] [|] [|] [|] [|]]; reflexivity.

(** One turn of a loop of the orchestrator is run on a symbolic cursor. *)
Ltac run_turn :=
  unfold ai_suggestion, verified_poi, Date_now, Math_random, mbind, mret, Eff_bind, Eff_ret;
  cbn [fst snd POIData.id POIData.name POIData.category POIData.lat POIData.lng
       POIData.confidence POIData.verified POIData.attributes
       Cursor.draws Cursor.ticks lat_plus lng_plus within].

(** * Properties *)

(** ** Strings *)

Lemma lower_char_idem (c : ascii) : JS.lower_char (JS.lower_char c) = JS.lower_char c.
Proof. by_cases_on_char c. Qed.

Lemma toLowerCase_idem (s : string) : JS.toLowerCase (JS.toLowerCase s) = JS.toLowerCase s.
Proof.
  induction s as [|c r IH]; simpl; [reflexivity|].
  now rewrite lower_char_idem, IH.
Qed.

Lemma existsb_false_In {A : Type} (f : A -> bool) (l : list A) :
  existsb f l = false -> forall x, In x l -> f x = false.
Proof.
  induction l as [|a l IH]; simpl; intros H x Hx; [contradiction|].
  apply orb_false_iff in H as [Ha Hl].
  destruct Hx as [->|Hx]; [exact Ha | now apply IH].
Qed.

Lemma implb_elim (a b : bool) : implb a b = true -> a = true -> b = true.
Proof. now intros H ->. Qed.

(** ** The classifier *)

Lemma keyword_score_none (nameLower : string) (keywords : list string) (score : float) :
  existsb (JS.includes nameLower) keywords = false ->
  keyword_score nameLower keywords score = score.
Proof.
  unfold keyword_score. revert score.
  induction keywords as [|k ks IH]; simpl; intros score H; [reflexivity|].
  apply orb_false_iff in H as [Hk Hks]. rewrite Hk. now apply IH.
Qed.

Lemma context_score_none (contextLower : string) (rules : list string) (score : float) :
  existsb (fun r => JS.includes contextLower (JS.toLowerCase r)) rules = false ->
  context_score contextLower rules score = score.
Proof.
  unfold context_score. revert score.
  induction rules as [|r rs IH]; simpl; intros score H; [reflexivity|].
  apply orb_false_iff in H as [Hr Hrs]. rewrite Hr. now apply IH.
Qed.

(** A category that matches nothing leaves the initial best match alone. *)
Lemma classify_step_none (nameLower contextLower : string) (given : bool) (c : POICategory.t) :
  existsb (JS.includes nameLower) (POICategory.keywords c) = false ->
  (given = true ->
   existsb (fun r => JS.includes contextLower (JS.toLowerCase r))
     (POICategory.contextualRules c) = false) ->
  classify_step nameLower contextLower given (Classification.mk "unknown" 0.3%float) c
  = Classification.mk "unknown" 0.3%float.
Proof.
  intros Hk Hc. unfold classify_step.
  rewrite (keyword_score_none _ _ _ Hk).
  destruct given.
  - rewrite (context_score_none _ _ _ (Hc eq_refl)). reflexivity.
  - reflexivity.
Qed.

Lemma classify_fold_none (nameLower contextLower : string) (given : bool)
    (categories : list POICategory.t) :
  (forall c, In c categories ->
     existsb (JS.includes nameLower) (POICategory.keywords c) = false) ->
  (given = true -> forall c, In c categories ->
     existsb (fun r => JS.includes contextLower (JS.toLowerCase r))
       (POICategory.contextualRules c) = false) ->
  fold_left (classify_step nameLower contextLower given) categories
    (Classification.mk "unknown" 0.3%float)
  = Classification.mk "unknown" 0.3%float.
Proof.
  induction categories as [|c cs IH]; simpl; intros Hk Hc; [reflexivity|].
  rewrite classify_step_none.
  - apply IH; intros; [apply Hk | apply Hc]; auto.
  - apply Hk; auto.
  - intros Hg. apply Hc; auto.
Qed.

Lemma includes_unfold (s sub : string) :
  JS.includes s sub =
  JS.startsWith s sub ||
  match s with
  | EmptyString => false
  | String _ r => JS.includes r sub
  end.
Proof. destruct s; reflexivity. Qed.

(** A substring test that succeeds also succeeds for every suffix of the
    pattern. *)
Lemma startsWith_app_includes (a b s : string) :
  JS.startsWith s (a +:+ b) = true -> JS.includes s b = true.
Proof.
  revert s. induction a as [|x a IH]; intros s H.
  - change (JS.startsWith s b = true) in H.
    rewrite includes_unfold, H. reflexivity.
  - change (JS.startsWith s (String x (a +:+ b)) = true) in H.
    destruct s as [|y s]; [discriminate H|].
    change (Ascii.eqb x y && JS.startsWith s (a +:+ b) = true) in H.
    apply andb_true_iff in H as [_ H].
    rewrite includes_unfold, (IH s H). apply orb_true_r.
Qed.

Lemma includes_app (a b s : string) :
  JS.includes s (a +:+ b) = true -> JS.includes s b = true.
Proof.
  induction s as [|y s IH]; intros H; rewrite includes_unfold in H;
    apply orb_true_iff in H as [H|H].
  - exact (startsWith_app_includes a b _ H).
  - discriminate H.
  - exact (startsWith_app_includes a b _ H).
  - rewrite includes_unfold, (IH H). apply orb_true_r.
Qed.

Lemma lower_char_not_capital_I (c : ascii) : Ascii.eqb "I"%char (JS.lower_char c) = false.
Proof. by_cases_on_char c. Qed.

(** A lower-cased string includes no pattern that starts with a capital I. *)
Lemma lower_excludes_capital (name rest : string) :
  JS.includes (JS.toLowerCase name) (String "I"%char rest) = false.
Proof.
  induction name as [|c r IH]; [reflexivity|].
  change (JS.toLowerCase (String c r))
    with (String (JS.lower_char c) (JS.toLowerCase r)).
  rewrite includes_unfold, IH, orb_false_r.
  change (Ascii.eqb "I"%char (JS.lower_char c) && JS.startsWith (JS.toLowerCase r) rest = false).
  now rewrite lower_char_not_capital_I.
Qed.

(** Every keyword is written in lower case, IT park apart. *)
Lemma keywords_lower_case (c : POICategory.t) (k : string) :
  In c POI_CATEGORIES -> In k (POICategory.keywords c) ->
  JS.toLowerCase k = k \/ k = "IT park".
Proof.
  intros Hc Hk.
  assert (H : forallb
                (fun c => forallb
                   (fun k => String.eqb (JS.toLowerCase k) k || String.eqb k "IT park")
                   (POICategory.keywords c))
                POI_CATEGORIES = true) by (vm_compute; reflexivity).
  rewrite forallb_forall in H. specialize (H c Hc).
  rewrite forallb_forall in H. specialize (H k Hk).
  apply orb_true_iff in H as [H|H]; apply String.eqb_eq in H; auto.
Qed.

Lemma park_is_a_keyword :
  exists c, In c POI_CATEGORIES /\ In "park" (POICategory.keywords c).
Proof.
  exists (nth 7 POI_CATEGORIES (POICategory.mk "" "" "" [] [])).
  split; [do 7 right; left; reflexivity | do 5 right; left; reflexivity].
Qed.

(** On this taxonomy the test the code makes (keywords as written) finds a
    keyword exactly when the test with lower-cased keywords does: the one
    keyword with capitals, IT park, ends in the keyword park. *)
Lemma matches_keyword_nocase_eq (name : string) :
  matches_keyword name = matches_keyword_nocase name.
Proof.
  apply eq_true_iff_eq. unfold matches_keyword, matches_keyword_nocase.
  rewrite !existsb_exists. split; intros (c & Hc & H);
    apply existsb_exists in H as (k & Hk & H).
  - destruct (keywords_lower_case c k Hc Hk) as [E| ->].
    + exists c. split; [exact Hc|]. apply existsb_exists. exists k.
      split; [exact Hk | now rewrite E].
    + now rewrite lower_excludes_capital in H.
  - destruct (keywords_lower_case c k Hc Hk) as [E| ->].
    + exists c. split; [exact Hc|]. apply existsb_exists. exists k.
      split; [exact Hk | now rewrite <- E].
    + change (JS.toLowerCase "IT park") with ("it " +:+ "park") in H.
      apply includes_app in H.
      destruct park_is_a_keyword as (c' & Hc' & Hk').
      exists c'. split; [exact Hc'|]. apply existsb_exists. now exists "park".
Qed.

(** C8. A name that is empty, or that includes no keyword of any category
    whatever the letter casing, classified with no context or with a context
    that includes no contextual rule, comes back as category unknown with
    confidence exactly 0.3. *)
Theorem classify_unknown (name : string) (context : option string) :
  name = "" \/ matches_keyword_nocase name = false ->
  matches_context context = false ->
  classifyPOI name context = Classification.mk "unknown" 0.3%float.
Proof.
  intros Hname Hctx.
  assert (Hk : matches_keyword name = false).
  { destruct Hname as [->|H]; [reflexivity|].
    now rewrite matches_keyword_nocase_eq. }
  unfold classifyPOI. apply classify_fold_none.
  - intros c Hc. exact (existsb_false_In _ _ Hk c Hc).
  - intros Hg c Hc. destruct context as [ctx|]; [|discriminate Hg].
    exact (existsb_false_In _ _ Hctx c Hc).
Qed.

Lemma classify_unknown_witness :
  classifyPOI "" None = Classification.mk "unknown" 0.3%float /\
  classifyPOI "Sunrise Towers" (Some "next to the old bridge")
  = Classification.mk "unknown" 0.3%float.
Proof.
  split.
  - apply (classify_unknown "" None); [left; reflexivity | reflexivity].
  - apply (classify_unknown "Sunrise Towers" (Some "next to the old bridge"));
      [right; vm_compute; reflexivity | vm_compute; reflexivity].
Defined.

(** Only the lower-cased name is read. *)
Lemma classifyPOI_lower (name : string) (context : option string) :
  classifyPOI name context = classifyPOI (JS.toLowerCase name) context.
Proof. unfold classifyPOI. now rewrite toLowerCase_idem. Qed.

(** The keywords are compared as written: the name is lower-cased, the
    keyword is not (the contextual rules are), so the keyword IT park is
    never found, whatever the name. *)
Lemma it_park_never_found (name : string) :
  JS.includes (JS.toLowerCase name) "IT park" = false.
Proof. apply lower_excludes_capital. Qed.

Lemma classify_keywords_checked :
  forallb
    (fun c => forallb
       (fun k =>
          implb (String.eqb (JS.toLowerCase k) k)
            (String.eqb (Classification.category (classifyPOI k None)) (winner_for c k)
             && PrimFloat.leb 0.35%float (Classification.confidence (classifyPOI k None))
             && PrimFloat.leb (Classification.confidence (classifyPOI k None)) 0.95%float))
       (POICategory.keywords c))
    POI_CATEGORIES = true.
Proof. vm_compute. reflexivity. Qed.

(** C1, as the claim has it, fails: office is a keyword of the category
    technology, and the name office is classified as government, the
    earlier category with the same keyword. *)
Lemma classify_keyword_counterexample :
  exists c,
    In c POI_CATEGORIES /\
    POICategory.id c = "technology" /\
    In "office" (POICategory.keywords c) /\
    classifyPOI "office" None = Classification.mk "government" 0.35%float.
Proof.
  exists (nth 9 POI_CATEGORIES (POICategory.mk "" "" "" [] [])).
  split; [do 9 right; left; reflexivity|].
  split; [reflexivity|].
  split; [do 2 right; left; reflexivity|].
  vm_compute. reflexivity.
Qed.

(** C1, amended. For every category and every keyword of it written in
    lower case, the name made of that keyword alone gets a confidence of at
    least 0.35 and at most 0.95, and the category of the keyword, except
    that tech park and office (technology), workshop (automotive) and
    health club (fitness) get the earlier category that scores as much:
    entertainment, government, retail and healthcare. The name is matched
    in lower case: a name and its lower-cased form are classified alike. *)
Theorem classify_keyword (c : POICategory.t) (k : string) :
  In c POI_CATEGORIES ->
  In k (POICategory.keywords c) ->
  JS.toLowerCase k = k ->
  (Classification.category (classifyPOI k None) = winner_for c k /\
   PrimFloat.leb 0.35%float (Classification.confidence (classifyPOI k None)) = true /\
   PrimFloat.leb (Classification.confidence (classifyPOI k None)) 0.95%float = true) /\
  (forall (name : string) (context : option string),
     classifyPOI name context = classifyPOI (JS.toLowerCase name) context).
Proof.
  intros Hc Hk Hlow. split; [|exact classifyPOI_lower].
  pose proof classify_keywords_checked as H.
  rewrite forallb_forall in H. specialize (H c Hc).
  rewrite forallb_forall in H. specialize (H k Hk).
  apply String.eqb_eq in Hlow.
  apply (implb_elim _ _ H) in Hlow.
  apply andb_true_iff in Hlow as [H0 H3]. apply andb_true_iff in H0 as [H1 H2].
  apply String.eqb_eq in H1. auto.
Qed.

Lemma classify_keyword_witness :
  Classification.category (classifyPOI "chai" None) = "food_beverage" /\
  PrimFloat.leb 0.35%float (Classification.confidence (classifyPOI "chai" None)) = true /\
  PrimFloat.leb (Classification.confidence (classifyPOI "chai" None)) 0.95%float = true.
Proof.
  refine (proj1 (classify_keyword
            (POICategory.mk "food_beverage" "Food & Beverage"
               "Restaurants, cafes, street food, and beverage outlets"
               ["restaurant"; "cafe"; "dhaba"; "chai"; "food"; "biryani"; "dosa"; "coffee"; "bakery"]
               ["Near residential areas"; "High foot traffic zones"; "Commercial streets"])
            "chai" _ _ _)).
  - do 0 right; left; reflexivity.
  - do 3 right; left; reflexivity.
  - reflexivity.
Defined.

Example classify_examples :
  classifyPOI "Chai Point" None = Classification.mk "food_beverage" 0.35%float /\
  classifyPOI "Big Bazaar Supermarket" None = Classification.mk "retail" 0.95%float /\
  classifyPOI "IT park" None = Classification.mk "entertainment" 0.35%float /\
  classifyPOI "CAFE" None = Classification.mk "food_beverage" 0.35%float /\
  classifyPOI "Plaza" (Some "Near residential areas, main roads") = Classification.mk "unknown" 0.3%float.
Proof. repeat split; vm_compute; reflexivity. Qed.

(** ** The gazetteer *)

Lemma city_lookup_in_table (key : string) (coords : Q * Q) :
  CITY_COORDINATES !! key = Some coords -> In (key, coords) CITY_TABLE.
Proof.
  intros H. apply list_elem_of_In.
  exact (elem_of_list_to_map_2 (M := gmap string) CITY_TABLE key coords H).
Qed.

(** The keys of the table are in normal form: lower case, no white space. *)
Lemma city_keys_normal (key : string) (coords : Q * Q) :
  CITY_COORDINATES !! key = Some coords ->
  JS.strip_spaces key = key /\ JS.toLowerCase key = key.
Proof.
  intros H. apply city_lookup_in_table in H.
  assert (A : forallb
                (fun e => String.eqb (JS.strip_spaces (fst e)) (fst e)
                          && String.eqb (JS.toLowerCase (fst e)) (fst e))
                CITY_TABLE = true) by (vm_compute; reflexivity).
  rewrite forallb_forall in A. specialize (A _ H). simpl in A.
  apply andb_true_iff in A as [A1 A2].
  split; now apply String.eqb_eq.
Qed.

Lemma getCityCoordinates_own (name : string) (coords : Q * Q) :
  CITY_COORDINATES !! normalized name = Some coords ->
  getCityCoordinates name = LatLng (fst coords) (snd coords).
Proof.
  intros H. unfold getCityCoordinates, JS.get. rewrite H. now destruct coords.
Qed.

(** The slip: a name that is no city but names a property every object
    inherits is answered with that property, not with Bangalore. *)
Lemma getCityCoordinates_inherited :
  getCityCoordinates "constructor" = NotCoordinates "constructor" /\
  getCityCoordinates "__proto__" = NotCoordinates "__proto__".
Proof. split; vm_compute; reflexivity. Qed.

(** C7, as the claim has it, fails: the name De lhi is no key of the table,
    in no letter casing, and the look-up answers Delhi's coordinates, not
    Bangalore's, because white space is removed before the look-up. *)
Lemma gazetteer_counterexample :
  CITY_COORDINATES !! "De lhi" = None /\
  CITY_COORDINATES !! JS.toLowerCase "De lhi" = None /\
  getCityCoordinates "De lhi" = LatLng (286139 # 10000) (772090 # 10000) /\
  getCityCoordinates "De lhi" <> LatLng (fst bangalore) (snd bangalore).
Proof.
  split; [vm_compute; reflexivity|].
  split; [vm_compute; reflexivity|].
  split; [vm_compute; reflexivity|].
  vm_compute. discriminate.
Qed.

(** C7, amended. A name whose normal form (lower-cased, white space
    removed) is a key of the table gets that city's pair; this covers every
    key written in any letter casing. A name whose normal form is neither a
    key of the table nor the name of a property inherited from
    Object.prototype gets Bangalore's pair. *)
Theorem gazetteer_lookup :
  (forall (key : string) (coords : Q * Q) (name : string),
     CITY_COORDINATES !! key = Some coords ->
     normalized name = key \/ JS.toLowerCase name = key ->
     getCityCoordinates name = LatLng (fst coords) (snd coords)) /\
  (forall name : string,
     CITY_COORDINATES !! normalized name = None ->
     JS.inherited (normalized name) = false ->
     getCityCoordinates name = LatLng (fst bangalore) (snd bangalore)).
Proof.
  split.
  - intros key coords name Hkey Hname.
    apply getCityCoordinates_own.
    destruct Hname as [->| Hlow]; [exact Hkey|].
    unfold normalized. rewrite Hlow.
    destruct (city_keys_normal key coords Hkey) as [-> _]. exact Hkey.
  - intros name Hnone Hproto.
    unfold getCityCoordinates, JS.get. now rewrite Hnone, Hproto.
Qed.

Lemma gazetteer_lookup_witness :
  getCityCoordinates "DELHI" = LatLng (286139 # 10000) (772090 # 10000) /\
  getCityCoordinates "Atlantis" = LatLng (129716 # 10000) (775946 # 10000).
Proof.
  split.
  - apply (proj1 gazetteer_lookup "delhi" (286139 # 10000, 772090 # 10000)%Q "DELHI").
    + vm_compute. reflexivity.
    + right. reflexivity.
  - apply (proj2 gazetteer_lookup "Atlantis").
    + vm_compute. reflexivity.
    + reflexivity.
Defined.

(** ** The interpreter *)

(** The fence is taken off whether it names the language or not. *)
Example strip_fence_examples :
  strip_fence "```json
{x}
```" = "{x}" /\
  strip_fence "  ```{x}```  " = "{x}" /\
  strip_fence "{x}" = "{x}".
Proof. repeat split; vm_compute; reflexivity. Qed.

(** The four ways a reply ends: a fenced object is parsed and returned;
    text that is not JSON, an empty content and an absent content fall back
    on the heuristic interpretation. *)
Example analyzeSpatialQuery_replies :
  analyzeSpatialQuery llm_env (replying_world (Some "```json
{nairobi}
```")) "pharmacy in Pune" = Ok nairobi_reply /\
  analyzeSpatialQuery llm_env (replying_world (Some "I cannot help with that."))
    "pharmacy in Pune" = Ok (simulateAnalysis "pharmacy in Pune") /\
  analyzeSpatialQuery llm_env (replying_world (Some "")) "pharmacy in Pune"
    = Ok (simulateAnalysis "pharmacy in Pune") /\
  analyzeSpatialQuery llm_env (replying_world None) "pharmacy in Pune"
    = Ok (simulateAnalysis "pharmacy in Pune").
Proof. repeat split; vm_compute; reflexivity. Qed.

(** Whatever happens inside the [try] block, the interpreter returns. *)
Lemma try_catch_returns {A : Type} (body : Result A) (fallback : A) :
  exists a, try_catch body (fun _ => Ok fallback) = Ok a.
Proof. destruct body as [a|e]; simpl; eauto. Qed.

Lemma analyzeSpatialQuery_returns (process_env : gmap string string) (w : World.t)
    (query : string) :
  exists a, analyzeSpatialQuery process_env w query = Ok a.
Proof.
  unfold analyzeSpatialQuery.
  destruct (negb (USE_LLM process_env) || String.eqb (LLM_PROVIDER process_env) "simulate").
  - eexists. reflexivity.
  - apply try_catch_returns.
Qed.

(** Each failure makes the [try] block throw. *)
Lemma llm_failure_throws (process_env : gmap string string) (w : World.t) (query : string) :
  llm_failure process_env w query ->
  exists e, ask_llm process_env w query = Throw e.
Proof.
  intros [e Hc | client e Hc Hcall | client response e Hc Hcall Hr
         | client response Hc Hcall Hr | client response Hc Hcall Hr
         | client response content e Hc Hcall Hr Hp];
    unfold ask_llm; rewrite Hc; simpl; try rewrite Hcall; simpl;
    try rewrite Hr; simpl; eauto.
  destruct (negb (JS.truthy content)); [eauto|].
  rewrite Hp. simpl. eauto.
Qed.

(** C5. In LLM mode, when the chat completion fails (the client cannot be
    built, the call throws, the reply is malformed, its content is absent or
    empty, or the content is not JSON), the interpreter returns the
    heuristic interpretation of the same query; and in no case does the
    interpreter throw. *)
Theorem llm_failure_falls_back (process_env : gmap string string) (w : World.t)
    (query : string) :
  llm_mode process_env = true ->
  (llm_failure process_env w query ->
   analyzeSpatialQuery process_env w query = Ok (simulateAnalysis query)) /\
  (forall e, analyzeSpatialQuery process_env w query <> Throw e).
Proof.
  intros Hmode. split.
  - intros Hfail. unfold analyzeSpatialQuery.
    unfold llm_mode in Hmode. apply negb_true_iff in Hmode. rewrite Hmode.
    destruct (llm_failure_throws _ _ _ Hfail) as [e ->]. reflexivity.
  - intros e He.
    destruct (analyzeSpatialQuery_returns process_env w query) as [a Ha].
    rewrite Ha in He. discriminate.
Qed.

Lemma llm_failure_falls_back_witness :
  analyzeSpatialQuery llm_env offline_world "pharmacy in Pune"
  = Ok (simulateAnalysis "pharmacy in Pune").
Proof.
  refine (proj1 (llm_failure_falls_back llm_env offline_world "pharmacy in Pune" _) _).
  - reflexivity.
  - eapply call_fails; reflexivity.
Defined.

(** C6. With LLM mode disabled (the flag is off, or the provider is
    simulate) the interpreter returns the heuristic interpretation, a
    function of the query string alone, whatever the world; for the chai
    stall query it gives location Bangalore, business type Chai Stall and,
    among the contextual factors, Proximity to IT/Tech Parks. *)
Theorem heuristic_interpreter :
  (forall (process_env : gmap string string) (w : World.t) (query : string),
     llm_mode process_env = false ->
     analyzeSpatialQuery process_env w query = Ok (simulateAnalysis query)) /\
  (let a := simulateAnalysis "Where should I open a chai stall near IT parks in Bangalore?" in
   LLMQueryAnalysis.location a = "Bangalore" /\
   LLMQueryAnalysis.businessType a = "Chai Stall" /\
   In "Proximity to IT/Tech Parks" (LLMQueryAnalysis.contextualFactors a)).
Proof.
  split.
  - intros process_env w query H. unfold analyzeSpatialQuery.
    unfold llm_mode in H. apply negb_false_iff in H. now rewrite H.
  - vm_compute. auto.
Qed.

Lemma heuristic_interpreter_witness :
  analyzeSpatialQuery ∅ offline_world
    "Where should I open a chai stall near IT parks in Bangalore?"
  = Ok (simulateAnalysis "Where should I open a chai stall near IT parks in Bangalore?").
Proof.
  apply (proj1 heuristic_interpreter ∅ offline_world).
  reflexivity.
Defined.

(** ** The orchestrator *)

Lemma mapM_Eff_cons {A B : Type} (f : A -> Eff B) (x : A) (l : list A) (s : Cursor.t) :
  mapM f (x :: l) s =
  let (y, s1) := f x s in let (k, s2) := mapM f l s1 in (y :: k, s2).
Proof. reflexivity. Qed.

Lemma mapM_Eff_length {A B : Type} (f : A -> Eff B) (l : list A) (s : Cursor.t) :
  length (fst (mapM f l s)) = length l.
Proof.
  revert s. induction l as [|x l IH]; intros s; [reflexivity|].
  rewrite mapM_Eff_cons. destruct (f x s) as [y s1].
  specialize (IH s1). destruct (mapM f l s1) as [k s2]. simpl in *. now rewrite IH.
Qed.

Lemma mapM_Eff_Forall {A B : Type} (P : B -> Prop) (f : A -> Eff B) (l : list A)
    (s : Cursor.t) :
  (forall a s, P (fst (f a s))) -> Forall P (fst (mapM f l s)).
Proof.
  intros Hf. revert s. induction l as [|x l IH]; intros s; [constructor|].
  rewrite mapM_Eff_cons. pose proof (Hf x s) as Hy. destruct (f x s) as [y s1].
  specialize (IH s1). destruct (mapM f l s1) as [k s2]. simpl in *.
  now constructor.
Qed.

Section Steps.

Variable w : World.t.
Variables (location businessType : string) (s : Cursor.t).

Lemma generateAISuggestions_length (contextFactors : list string) (queryType : option string) :
  length (fst (generateAISuggestions w location businessType contextFactors queryType s)) = 5.
Proof. unfold generateAISuggestions. now rewrite mapM_Eff_length. Qed.

Lemma generateAISuggestions_unverified (contextFactors : list string)
    (queryType : option string) :
  Forall (fun p => POIData.verified p = false)
    (fst (generateAISuggestions w location businessType contextFactors queryType s)).
Proof. unfold generateAISuggestions. apply mapM_Eff_Forall. reflexivity. Qed.

Lemma validateWithGroundTruth_verified (aiSuggestions : list POIData.t) :
  Forall (fun p => POIData.verified p = true)
    (fst (validateWithGroundTruth w aiSuggestions location businessType s)).
Proof.
  unfold validateWithGroundTruth, mbind, Eff_bind, Math_random.
  apply mapM_Eff_Forall. reflexivity.
Qed.

(** The count is the floor of the product of the number of suggestions
    and the validation rate, drawn first. *)
Lemma validateWithGroundTruth_length (aiSuggestions : list POIData.t) :
  length (fst (validateWithGroundTruth w aiSuggestions location businessType s)) =
  Z.to_nat (Math_floor
    (inject_Z (Z.of_nat (length aiSuggestions)) *
     ((60 # 100) + World.random w (Cursor.draws s) * (10 # 100)))%Q).
Proof.
  unfold validateWithGroundTruth, mbind, Eff_bind, Math_random.
  now rewrite mapM_Eff_length, length_seq.
Qed.

End Steps.

(** The fields of the result, in terms of the steps that produce them. *)
Lemma compose_result_fields (w : World.t) (query : string) (queryType : option string)
    (a : LLMQueryAnalysis.t) (s : Cursor.t) :
  let r := fst (compose_result w query queryType a s) in
  let g := generateAISuggestions w (LLMQueryAnalysis.location a)
             (LLMQueryAnalysis.businessType a) (LLMQueryAnalysis.contextualFactors a)
             queryType s in
  let v := validateWithGroundTruth w (fst g) (LLMQueryAnalysis.location a)
             (LLMQueryAnalysis.businessType a) (snd g) in
  AnalysisResult.suggestedLocations (AnalysisResult.aiReasoning r) = fst g /\
  AnalysisResult.verifiedPOIs (AnalysisResult.groundTruth r) = fst v /\
  AnalysisResult.accuracy (AnalysisResult.groundTruth r) =
    Qmin (inject_Z (Math_round
            (inject_Z (Z.of_nat (length (fst v))) /
             inject_Z (Z.max (Z.of_nat (length (fst g))) 1) * 100)%Q)) 70.
Proof.
  unfold compose_result, mbind, Eff_bind. cbv zeta.
  destruct (generateAISuggestions w _ _ _ queryType s) as [ai s1].
  cbn [fst snd].
  destruct (validateWithGroundTruth w ai _ _ s1) as [v s2].
  cbn [fst snd].
  destruct (identifyCorrectionsAndGaps w _ _ _ s2) as [cg s3].
  unfold Math_random, mret, Eff_ret. cbn. auto.
Qed.

(** The orchestrator returns: the interpreter never throws. *)
Lemma analyzeQuery_returns (process_env : gmap string string) (w : World.t)
    (query : string) (queryType : option string) (s : Cursor.t) :
  exists a,
    analyzeSpatialQuery process_env w query = Ok a /\
    analyzeQuery process_env w query queryType s =
    (Ok (fst (compose_result w query queryType a s)),
     snd (compose_result w query queryType a s)).
Proof.
  destruct (analyzeSpatialQuery_returns process_env w query) as [a Ha].
  exists a. split; [exact Ha|].
  unfold analyzeQuery. rewrite Ha.
  now destruct (compose_result w query queryType a s).
Qed.

Local Open Scope Q_scope.

Lemma Qfloor_between (x : Q) (n : Z) :
  inject_Z n <= x -> x < inject_Z (n + 1) -> Qfloor x = n.
Proof.
  intros Hlo Hhi.
  assert (H1 : (n <= Qfloor x)%Z).
  { rewrite <- (Qfloor_Z n). now apply Qfloor_resp_le. }
  assert (H2 : (Qfloor x < n + 1)%Z).
  { rewrite Zlt_Qlt. eapply Qle_lt_trans; [apply Qfloor_le | exact Hhi]. }
  lia.
Qed.

(** floor(5 * rate) is 3 for every rate in [0.60, 0.70). *)
Lemma valid_count_three (r : Q) :
  0 <= r -> r < 1 ->
  Math_floor (inject_Z (Z.of_nat 5) * ((60 # 100) + r * (10 # 100))) = 3%Z.
Proof.
  intros H0 H1. unfold Math_floor. apply Qfloor_between.
  - change (inject_Z (Z.of_nat 5)) with 5. change (inject_Z 3) with 3. lra.
  - change (inject_Z (Z.of_nat 5)) with 5. change (inject_Z (3 + 1)) with 4. lra.
Qed.

Lemma Math_round_nonneg (x : Q) : 0 <= x -> (0 <= Math_round x)%Z.
Proof.
  intros H. unfold Math_round.
  rewrite <- (Qfloor_Z 0). apply Qfloor_resp_le.
  change (inject_Z 0) with 0. lra.
Qed.

Lemma ratio_nonneg (v m : nat) :
  0 <= inject_Z (Z.of_nat v) / inject_Z (Z.max (Z.of_nat m) 1) * 100.
Proof.
  apply Qmult_le_0_compat; [|discriminate].
  apply Qle_shift_div_l.
  - change 0%Q with (inject_Z 0). rewrite <- Zlt_Qlt. lia.
  - rewrite Qmult_0_l. change 0%Q with (inject_Z 0). rewrite <- Zle_Qle. lia.
Qed.

Lemma Qmin_inject_Z (a : Z) : Qmin (inject_Z a) 70 = inject_Z (Z.min a 70).
Proof.
  unfold Qmin, GenericMinMax.gmin, Qcompare. cbn [Qnum Qden inject_Z].
  rewrite Z.mul_1_r. change (70 * 1)%Z with 70%Z.
  destruct (Z.compare_spec a 70) as [H|H|H].
  - now rewrite Z.min_l by lia.
  - now rewrite Z.min_l by lia.
  - now rewrite Z.min_r by lia.
Qed.

Local Close Scope Q_scope.

(** C3. For every query and query type, in every world, the orchestrator
    returns a result, and its suggested locations are exactly 5 POIs, each
    with verified = false. *)
Theorem suggestions_five_unverified (process_env : gmap string string) (w : World.t)
    (query : string) (queryType : option string) (s : Cursor.t) :
  exists r s',
    analyzeQuery process_env w query queryType s = (Ok r, s') /\
    length (AnalysisResult.suggestedLocations (AnalysisResult.aiReasoning r)) = 5 /\
    Forall (fun p => POIData.verified p = false)
      (AnalysisResult.suggestedLocations (AnalysisResult.aiReasoning r)).
Proof.
  destruct (analyzeQuery_returns process_env w query queryType s) as (a & _ & ->).
  destruct (compose_result_fields w query queryType a s) as (Hs & _ & _).
  eexists. eexists. split; [reflexivity|].
  rewrite Hs. split.
  - apply generateAISuggestions_length.
  - apply generateAISuggestions_unverified.
Qed.

(** C2. For every query and query type, in every world, the orchestrator
    returns a result whose accuracy is round(100 * verified / max(suggested, 1))
    capped at 70, the counts being those of the lists of the same result;
    the value is an integer between 0 and 70. *)
Theorem accuracy_rounded_capped (process_env : gmap string string) (w : World.t)
    (query : string) (queryType : option string) (s : Cursor.t) :
  exists r s',
    analyzeQuery process_env w query queryType s = (Ok r, s') /\
    AnalysisResult.accuracy (AnalysisResult.groundTruth r) =
      Qmin
        (inject_Z (Math_round
           (100 *
            inject_Z (Z.of_nat (length (AnalysisResult.verifiedPOIs (AnalysisResult.groundTruth r)))) /
            inject_Z (Z.max
              (Z.of_nat (length (AnalysisResult.suggestedLocations (AnalysisResult.aiReasoning r)))) 1))%Q))
        70 /\
    exists n : Z,
      AnalysisResult.accuracy (AnalysisResult.groundTruth r) = inject_Z n /\
      (0 <= n <= 70)%Z.
Proof.
  destruct (analyzeQuery_returns process_env w query queryType s) as (a & _ & ->).
  destruct (compose_result_fields w query queryType a s) as (Hs & Hv & Hacc).
  eexists. eexists. split; [reflexivity|].
  rewrite Hs, Hv, Hacc. split.
  - f_equal. f_equal. unfold Math_round. apply Qfloor_comp.
    field. intros E. unfold Qeq in E. cbn [Qnum Qden inject_Z] in E. lia.
  - rewrite Qmin_inject_Z. eexists. split; [reflexivity|].
    match goal with
    | |- context [Math_round (inject_Z (Z.of_nat ?v) / inject_Z (Z.max (Z.of_nat ?m) 1) * 100)%Q] =>
        pose proof (Math_round_nonneg _ (ratio_nonneg v m))
    end.
    lia.
Qed.

(** With draws in [0, 1), three POIs are verified out of the five. *)
Lemma verified_count (w : World.t) (query : string) (queryType : option string)
    (a : LLMQueryAnalysis.t) (s : Cursor.t) :
  unit_draws w ->
  length (AnalysisResult.verifiedPOIs
            (AnalysisResult.groundTruth (fst (compose_result w query queryType a s)))) = 3.
Proof.
  intros Hw.
  destruct (compose_result_fields w query queryType a s) as (_ & -> & _).
  rewrite validateWithGroundTruth_length, generateAISuggestions_length.
  destruct (Hw (Cursor.draws (snd (generateAISuggestions w (LLMQueryAnalysis.location a)
            (LLMQueryAnalysis.businessType a) (LLMQueryAnalysis.contextualFactors a)
            queryType s)))) as [H0 H1].
  now rewrite valid_count_three.
Qed.

(** C4. For every query and query type, in every world whose random draws
    lie in [0, 1), the orchestrator returns a result whose verified POIs are
    no more than its suggested locations, each with verified = true. *)
Theorem verified_within_suggested (process_env : gmap string string) (w : World.t)
    (query : string) (queryType : option string) (s : Cursor.t) :
  unit_draws w ->
  exists r s',
    analyzeQuery process_env w query queryType s = (Ok r, s') /\
    length (AnalysisResult.verifiedPOIs (AnalysisResult.groundTruth r)) <=
      length (AnalysisResult.suggestedLocations (AnalysisResult.aiReasoning r)) /\
    Forall (fun p => POIData.verified p = true)
      (AnalysisResult.verifiedPOIs (AnalysisResult.groundTruth r)).
Proof.
  intros Hw.
  destruct (analyzeQuery_returns process_env w query queryType s) as (a & _ & ->).
  eexists. eexists. split; [reflexivity|].
  rewrite (verified_count w query queryType a s Hw).
  destruct (compose_result_fields w query queryType a s) as (Hs & Hv & _).
  rewrite Hs, Hv, generateAISuggestions_length. split; [lia|].
  apply validateWithGroundTruth_verified.
Qed.

Lemma verified_within_suggested_witness :
  exists r s',
    analyzeQuery ∅ offline_world "pharmacy in residential Pune" (Some "market")
      (Cursor.mk 0 0) = (Ok r, s') /\
    length (AnalysisResult.verifiedPOIs (AnalysisResult.groundTruth r)) <=
      length (AnalysisResult.suggestedLocations (AnalysisResult.aiReasoning r)) /\
    Forall (fun p => POIData.verified p = true)
      (AnalysisResult.verifiedPOIs (AnalysisResult.groundTruth r)).
Proof.
  apply (verified_within_suggested ∅ offline_world
           "pharmacy in residential Pune" (Some "market") (Cursor.mk 0 0)).
  intros n. split; vm_compute; [discriminate | reflexivity].
Defined.

(** C10. For every query and query type, in every world whose random draws
    lie in [0, 1), the orchestrator returns a result with exactly 3 verified
    POIs and accuracy exactly 60. *)
Theorem verified_three_accuracy_sixty (process_env : gmap string string) (w : World.t)
    (query : string) (queryType : option string) (s : Cursor.t) :
  unit_draws w ->
  exists r s',
    analyzeQuery process_env w query queryType s = (Ok r, s') /\
    length (AnalysisResult.verifiedPOIs (AnalysisResult.groundTruth r)) = 3 /\
    AnalysisResult.accuracy (AnalysisResult.groundTruth r) = 60%Q.
Proof.
  intros Hw.
  destruct (analyzeQuery_returns process_env w query queryType s) as (a & _ & ->).
  eexists. eexists. split; [reflexivity|].
  pose proof (verified_count w query queryType a s Hw) as H3.
  split; [exact H3|].
  destruct (compose_result_fields w query queryType a s) as (_ & Hv & ->).
  rewrite <- Hv, H3, generateAISuggestions_length. reflexivity.
Qed.

Lemma verified_three_accuracy_sixty_witness :
  exists r s',
    analyzeQuery llm_env offline_world "gym near metro in Kochi" None
      (Cursor.mk 0 0) = (Ok r, s') /\
    length (AnalysisResult.verifiedPOIs (AnalysisResult.groundTruth r)) = 3 /\
    AnalysisResult.accuracy (AnalysisResult.groundTruth r) = 60%Q.
Proof.
  apply (verified_three_accuracy_sixty llm_env offline_world
           "gym near metro in Kochi" None (Cursor.mk 0 0)).
  intros n. split; vm_compute; [discriminate | reflexivity].
Defined.

(** In binary64 the product 5 * (0.60 + r * 0.10) is 3 at the least draw,
    0, and 3.5 at the greatest, the double just below 1; and (3 / 5) * 100
    is 60: the roundings of the code leave the count and the accuracy where
    the exact arithmetic puts them. *)
Lemma validation_product_binary64 :
  validation_product 0%float = 3%float /\
  validation_product 0.99999999999999989%float = 3.5%float /\
  PrimFloat.mul (PrimFloat.div 3%float 5%float) 100%float = 60%float.
Proof. repeat split; vm_compute; reflexivity. Qed.

(** A run in the offline world: the names of the five suggestions for the
    query type market, and the accuracy. *)
Example analyzeQuery_run :
  match fst (analyzeQuery ∅ offline_world
               "Where should I open a chai stall near IT parks in Bangalore?"
               (Some "market") (Cursor.mk 0 0)) with
  | Ok r =>
      (map POIData.name (AnalysisResult.suggestedLocations (AnalysisResult.aiReasoning r)),
       AnalysisResult.accuracy (AnalysisResult.groundTruth r))
  | Throw _ => ([], 0%Q)
  end
  = ([ Some "Underserved Market - Chai Stall";
       Some "High Growth Potential Zone";
       Some "Market Gap - Chai Stall Opportunity";
       Some "Emerging Consumer Hub";
       Some "Untapped Chai Stall Market" ],
     60%Q).
Proof. vm_compute. reflexivity. Qed.

(** A query type that names an inherited property leaves the suggestions
    without a name. *)
Example names_for_inherited :
  names_for "Gym" (Some "toString") = JS.Inherited "toString" /\
  name_at (names_for "Gym" (Some "toString")) 0 = None /\
  name_at (names_for "Gym" (Some "optimize")) 0 = Some "Optimal Coverage Point" /\
  name_at (names_for "Gym" (Some "nearby")) 0 = Some "Prime Gym Zone - High Traffic".
Proof. repeat split; vm_compute; reflexivity. Qed.

(** ** The analyze endpoint *)


(** The slip: a POST whose JSON body is null has no query, and is answered
    500, not 400; the orchestrator is not called. *)
Lemma handler_null_body (analyzeQuery : string -> JSValue -> Result AnalysisResult.t) :
  handler analyzeQuery (Request.mk (Some "POST") JNull)
  = (Response.mk 500
       (Response.FailureDetails "Failed to analyze query"
          "Cannot destructure property 'query' of 'req.body' as it is null."),
     []).
Proof. reflexivity. Qed.


(** A body one property can be read from lets any property be read. *)
Lemma destructure_twice (v : JSValue) (key key' : string) (x : JSValue) :
  destructure v key = Ok x -> exists y, destructure v key' = Ok y.
Proof.
  destruct v as [| |b|n|s|l|f]; simpl; intros H; try discriminate H; eauto.
  destruct (f !! key'); eauto.
Qed.



(** * More properties *)
(** ** The classifier: bounds, the winner, the cap *)

Lemma add_times_succ_r (n : nat) (inc score : float) :
  add_times (S n) inc score = add_times n inc (PrimFloat.add score inc).
Proof. unfold add_times. now rewrite Nat.iter_succ_r. Qed.

Lemma keyword_score_count (nameLower : string) (keywords : list string) (score : float) :
  keyword_score nameLower keywords score =
  add_times (length (filter (fun k => JS.includes nameLower k = true) keywords)) 0.35%float score.
Proof.
  unfold keyword_score. revert score.
  induction keywords as [|k ks IH]; intros score; [reflexivity|].
  cbn [fold_left]. rewrite IH. rewrite filter_cons.
  destruct (decide (JS.includes nameLower k = true)) as [E|E].
  - rewrite E. cbn [length]. now rewrite add_times_succ_r.
  - apply not_true_is_false in E. now rewrite E.
Qed.

Lemma context_score_count (contextLower : string) (rules : list string) (score : float) :
  context_score contextLower rules score =
  add_times
    (length (filter (fun r => JS.includes contextLower (JS.toLowerCase r) = true) rules))
    0.15%float score.
Proof.
  unfold context_score. revert score.
  induction rules as [|r rs IH]; intros score; [reflexivity|].
  cbn [fold_left]. rewrite IH. rewrite filter_cons.
  destruct (decide (JS.includes contextLower (JS.toLowerCase r) = true)) as [E|E].
  - rewrite E. cbn [length]. now rewrite add_times_succ_r.
  - apply not_true_is_false in E. now rewrite E.
Qed.

(** The confidence of a category depends on the two counts only. *)
Lemma confidence_of_counts (name : string) (context : option string) (c : POICategory.t) :
  confidence_of name context c =
  confidence_after (keywords_matched name c) (rules_matched context c).
Proof.
  unfold confidence_of, category_confidence, confidence_after, keywords_matched, rules_matched.
  rewrite keyword_score_count.
  destruct context as [ctx|]; [|reflexivity].
  destruct (JS.truthy ctx); [|reflexivity].
  now rewrite context_score_count.
Qed.

Lemma classify_step_confidence (name : string) (context : option string)
    (best : Classification.t) (c : POICategory.t) :
  classify_step (JS.toLowerCase name)
    (match context with Some c => JS.toLowerCase c | None => "" end)
    (match context with Some c => JS.truthy c | None => false end) best c
  = if PrimFloat.ltb (Classification.confidence best) (confidence_of name context c)
    then Classification.mk (POICategory.id c) (confidence_of name context c)
    else best.
Proof. reflexivity. Qed.

Lemma taxonomy_sizes (c : POICategory.t) :
  In c POI_CATEGORIES ->
  length (POICategory.keywords c) <= 9 /\ length (POICategory.contextualRules c) <= 3 /\
  POICategory.id c <> "unknown".
Proof.
  intros Hc.
  assert (H : forallb
            (fun c => Nat.leb (length (POICategory.keywords c)) 9
                      && Nat.leb (length (POICategory.contextualRules c)) 3
                      && negb (String.eqb (POICategory.id c) "unknown"))
            POI_CATEGORIES = true) by (vm_compute; reflexivity).
  rewrite forallb_forall in H. specialize (H c Hc).
  apply andb_true_iff in H as [H H3]. apply andb_true_iff in H as [H1 H2].
  apply Nat.leb_le in H1, H2. apply negb_true_iff, String.eqb_neq in H3. auto.
Qed.

Lemma keywords_matched_le (name : string) (c : POICategory.t) :
  keywords_matched name c <= length (POICategory.keywords c).
Proof. unfold keywords_matched. apply length_filter. Qed.

Lemma rules_matched_le (context : option string) (c : POICategory.t) :
  rules_matched context c <= length (POICategory.contextualRules c).
Proof.
  unfold rules_matched. destruct context as [ctx|]; [|lia].
  destruct (JS.truthy ctx); [apply length_filter | lia].
Qed.

Lemma confidence_after_value (k r : nat) :
  k <= 9 -> r <= 3 -> In (confidence_after k r) confidence_values.
Proof.
  intros Hk Hr. right. apply in_flat_map. exists k. split.
  - apply in_seq. lia.
  - apply in_map. apply in_seq. lia.
Qed.

Lemma confidence_of_value (name : string) (context : option string) (c : POICategory.t) :
  In c POI_CATEGORIES -> In (confidence_of name context c) confidence_values.
Proof.
  intros Hc. rewrite confidence_of_counts.
  destruct (taxonomy_sizes c Hc) as (Hk & Hr & _).
  pose proof (keywords_matched_le name c). pose proof (rules_matched_le context c).
  apply confidence_after_value; lia.
Qed.

(** The comparisons of the code on the values it can meet: [<] and [<=]
    order them as a total order does. *)
Lemma confidence_order_checked :
  forallb (fun x =>
    PrimFloat.leb x x && PrimFloat.leb x 0.95%float
    && implb (PrimFloat.ltb 0.3%float x) (PrimFloat.leb 0.35%float x)
    && forallb (fun y =>
         (PrimFloat.ltb x y || PrimFloat.leb y x)
         && implb (PrimFloat.ltb x y) (PrimFloat.leb x y)
         && implb (PrimFloat.ltb x y) (negb (PrimFloat.leb y x))
         && forallb (fun z =>
              implb (PrimFloat.leb x y && PrimFloat.ltb y z) (PrimFloat.ltb x z)
              && implb (PrimFloat.leb x y && PrimFloat.leb y z) (PrimFloat.leb x z))
              confidence_values)
         confidence_values)
    confidence_values = true.
Proof. vm_compute. reflexivity. Qed.

Section ConfidenceOrder.

Variables x y z : float.
Hypothesis Hx : In x confidence_values.
Hypothesis Hy : In y confidence_values.
Hypothesis Hz : In z confidence_values.

Lemma confidence_facts :
  PrimFloat.leb x x = true /\
  PrimFloat.leb x 0.95%float = true /\
  (PrimFloat.ltb 0.3%float x = true -> PrimFloat.leb 0.35%float x = true) /\
  (PrimFloat.ltb x y = false -> PrimFloat.leb y x = true) /\
  (PrimFloat.ltb x y = true -> PrimFloat.leb x y = true) /\
  (PrimFloat.ltb x y = true -> PrimFloat.leb y x = false) /\
  (PrimFloat.leb x y = true -> PrimFloat.ltb y z = true -> PrimFloat.ltb x z = true) /\
  (PrimFloat.leb x y = true -> PrimFloat.leb y z = true -> PrimFloat.leb x z = true).
Proof.
  pose proof confidence_order_checked as H.
  rewrite forallb_forall in H. specialize (H x Hx).
  apply andb_true_iff in H as [H Hys]. apply andb_true_iff in H as [H H3].
  apply andb_true_iff in H as [H1 H2].
  rewrite forallb_forall in Hys. specialize (Hys y Hy).
  apply andb_true_iff in Hys as [Hys Hzs]. apply andb_true_iff in Hys as [Hys H6].
  apply andb_true_iff in Hys as [H4 H5].
  rewrite forallb_forall in Hzs. specialize (Hzs z Hz).
  apply andb_true_iff in Hzs as [H7 H8].
  repeat split; auto.
  - intros E. exact (implb_elim _ _ H3 E).
  - intros E. rewrite E in H4. exact H4.
  - intros E. exact (implb_elim _ _ H5 E).
  - intros E. apply negb_true_iff. exact (implb_elim _ _ H6 E).
  - intros E1 E2. apply (implb_elim _ _ H7). now rewrite E1, E2.
  - intros E1 E2. apply (implb_elim _ _ H8). now rewrite E1, E2.
Qed.

End ConfidenceOrder.

Lemma floor_is_a_value : In 0.3%float confidence_values.
Proof. left. reflexivity. Qed.

Section Winner.

Variable conf : POICategory.t -> float.

Lemma best_so_far_step (done : list POICategory.t) (best : Classification.t)
    (c : POICategory.t) :
  In (conf c) confidence_values ->
  (forall d, In d done -> In (conf d) confidence_values) ->
  best_so_far conf done best ->
  best_so_far conf (done ++ [c]) (keep_best conf best c).
Proof.
  intros Hc Hdone (Hv & Hfloor & Hmax & Hwho). unfold keep_best.
  destruct (PrimFloat.ltb (Classification.confidence best) (conf c)) eqn:E.
  - cbn [Classification.confidence].
    assert (Hlt : PrimFloat.ltb 0.3%float (conf c) = true).
    { exact (proj1 (proj2 (proj2 (proj2 (proj2 (proj2 (proj2
               (confidence_facts _ _ (conf c) floor_is_a_value Hv Hc))))))) Hfloor E). }
    split; [exact Hc|]. split.
    { exact (proj1 (proj2 (proj2 (proj2 (proj2
               (confidence_facts _ _ (conf c) floor_is_a_value Hc Hc))))) Hlt). }
    split.
    + intros d Hd. apply in_app_or in Hd as [Hd|[<-|[]]].
      * apply (proj1 (proj2 (proj2 (proj2 (proj2
                 (confidence_facts _ _ (conf c) (Hdone d Hd) Hc Hc)))))).
        exact (proj1 (proj2 (proj2 (proj2 (proj2 (proj2 (proj2
                 (confidence_facts _ _ (conf c) (Hdone d Hd) Hv Hc))))))) (Hmax d Hd) E).
      * exact (proj1 (confidence_facts _ _ (conf c) Hc Hc Hc)).
    + right. exists done, c, []. repeat split; [exact Hlt|].
      intros d Hd.
      exact (proj1 (proj2 (proj2 (proj2 (proj2 (proj2 (proj2
               (confidence_facts _ _ (conf c) (Hdone d Hd) Hv Hc))))))) (Hmax d Hd) E).
  - split; [exact Hv|]. split; [exact Hfloor|]. split.
    + intros d Hd. apply in_app_or in Hd as [Hd|[<-|[]]]; [now apply Hmax|].
      exact (proj1 (proj2 (proj2 (proj2
               (confidence_facts _ _ (conf c) Hv Hc Hc)))) E).
    + destruct Hwho as [Hinit|(pre & w & post & -> & Hb & Hlt & Hpre)]; [now left|].
      right. exists pre, w, (post ++ [c]). rewrite <- app_assoc. now repeat split.
Qed.

Lemma best_so_far_fold (todo done : list POICategory.t) (best : Classification.t) :
  (forall d, In d (done ++ todo) -> In (conf d) confidence_values) ->
  best_so_far conf done best ->
  best_so_far conf (done ++ todo) (fold_left (keep_best conf) todo best).
Proof.
  revert done best. induction todo as [|c todo IH]; intros done best Hall Hinv.
  - now rewrite app_nil_r.
  - cbn [fold_left].
    replace (done ++ c :: todo) with ((done ++ [c]) ++ todo) in * by now rewrite <- app_assoc.
    apply IH; [exact Hall|].
    apply best_so_far_step; [| |exact Hinv].
    + apply Hall. apply in_or_app. left. apply in_or_app. right. now left.
    + intros d Hd. apply Hall. apply in_or_app. left. apply in_or_app. now left.
Qed.

End Winner.

(** The invariant holds of what [classifyPOI] returns, for the whole
    taxonomy. *)
Lemma classifyPOI_best (name : string) (context : option string) :
  best_so_far (confidence_of name context) POI_CATEGORIES (classifyPOI name context).
Proof.
  apply (best_so_far_fold (confidence_of name context) POI_CATEGORIES []
           (Classification.mk "unknown" 0.3%float)).
  - intros d Hd. now apply confidence_of_value.
  - split; [exact floor_is_a_value|]. split; [reflexivity|].
    split; [intros c []|now left].
Qed.

Lemma top_value (x : float) :
  In x confidence_values -> PrimFloat.leb 0.95%float x = true -> x = 0.95%float.
Proof.
  intros H. cbv [confidence_values flat_map map seq app In] in H.
  repeat (destruct H as [<-|H];
          [vm_compute; intros E; first [reflexivity | discriminate E]|]).
  destruct H.
Qed.

Lemma confidence_after_capped (k r : nat) :
  3 <= k <= 9 -> r <= 3 -> confidence_after k r = 0.95%float.
Proof.
  intros Hk Hr.
  assert (Ek : k = 3 \/ k = 4 \/ k = 5 \/ k = 6 \/ k = 7 \/ k = 8 \/ k = 9) by lia.
  assert (Er : r = 0 \/ r = 1 \/ r = 2 \/ r = 3) by lia.
  clear Hk Hr.
  repeat match goal with H : _ \/ _ |- _ => destruct H end; subst;
    vm_compute; reflexivity.
Qed.

Lemma confidence_after_rules_alone (k r : nat) :
  k <= 9 -> r <= 3 ->
  PrimFloat.ltb 0.3%float (confidence_after k r) = negb (Nat.eqb k 0 && Nat.leb r 2).
Proof.
  intros Hk Hr.
  assert (Ek : k = 0 \/ k = 1 \/ k = 2 \/ k = 3 \/ k = 4 \/ k = 5 \/ k = 6 \/ k = 7
               \/ k = 8 \/ k = 9) by lia.
  assert (Er : r = 0 \/ r = 1 \/ r = 2 \/ r = 3) by lia.
  clear Hk Hr.
  repeat match goal with H : _ \/ _ |- _ => destruct H end; subst;
    vm_compute; reflexivity.
Qed.

(** X1. Whatever the name and the context, [classifyPOI] returns the
    category unknown or the id of a category of the taxonomy, with a
    confidence between 0.3 and 0.95; the confidence is 0.3 exactly when the
    category is unknown, and at least 0.35 otherwise. *)
Theorem classifyPOI_range (name : string) (context : option string) :
  let r := classifyPOI name context in
  (Classification.category r = "unknown" \/
   exists c, In c POI_CATEGORIES /\ Classification.category r = POICategory.id c) /\
  PrimFloat.leb 0.3%float (Classification.confidence r) = true /\
  PrimFloat.leb (Classification.confidence r) 0.95%float = true /\
  (Classification.category r = "unknown" <-> Classification.confidence r = 0.3%float) /\
  (Classification.category r <> "unknown" ->
   PrimFloat.leb 0.35%float (Classification.confidence r) = true).
Proof.
  cbv zeta.
  destruct (classifyPOI_best name context) as (Hv & Hfloor & _ & Hwho).
  pose proof (confidence_facts _ _ _ Hv Hv Hv) as (_ & Hcap & H35 & _).
  destruct Hwho as [E|(pre & c & post & Hpos & E & Hlt & _)]; rewrite E in *;
    cbn [Classification.category Classification.confidence] in *.
  - split; [now left|]. split; [reflexivity|]. split; [reflexivity|].
    split; [tauto|]. intros H. now elim H.
  - assert (Hc : In c POI_CATEGORIES).
    { rewrite Hpos. apply in_or_app. right. now left. }
    destruct (taxonomy_sizes c Hc) as (_ & _ & Hid).
    split; [right; now exists c|]. split; [exact Hfloor|]. split; [exact Hcap|].
    split; [|intros _; now apply H35].
    split; [intros H; now elim Hid|].
    intros H. rewrite H in Hlt. discriminate Hlt.
Qed.

(** X2. The result of [classifyPOI] is the best of the taxonomy: its
    confidence is at least that of every category; it is the initial match
    (unknown, 0.3) when no category is above 0.3, and otherwise the first
    category, in the order of the taxonomy, whose confidence no other
    exceeds: every category before it has a strictly smaller confidence. *)
Theorem classifyPOI_winner (name : string) (context : option string) :
  let r := classifyPOI name context in
  (forall c, In c POI_CATEGORIES ->
     PrimFloat.leb (confidence_of name context c) (Classification.confidence r) = true) /\
  ((r = Classification.mk "unknown" 0.3%float /\
    forall c, In c POI_CATEGORIES ->
      PrimFloat.ltb 0.3%float (confidence_of name context c) = false) \/
   exists pre c post,
     POI_CATEGORIES = pre ++ c :: post /\
     r = Classification.mk (POICategory.id c) (confidence_of name context c) /\
     PrimFloat.ltb 0.3%float (confidence_of name context c) = true /\
     forall c', In c' pre ->
       PrimFloat.ltb (confidence_of name context c') (confidence_of name context c) = true).
Proof.
  cbv zeta.
  destruct (classifyPOI_best name context) as (Hv & Hfloor & Hmax & Hwho).
  split; [exact Hmax|].
  destruct Hwho as [E|Hw]; [left|now right].
  split; [exact E|]. intros c Hc.
  specialize (Hmax c Hc). rewrite E in Hmax. cbn [Classification.confidence] in Hmax.
  destruct (PrimFloat.ltb 0.3%float (confidence_of name context c)) eqn:Hlt; [|reflexivity].
  pose proof (confidence_of_value name context c Hc) as Hcv.
  pose proof (confidence_facts _ _ _ floor_is_a_value Hcv Hcv) as (_ & _ & _ & _ & _ & Hno & _).
  rewrite (Hno Hlt) in Hmax. discriminate Hmax.
Qed.

(** X3. The confidence a category gets depends only on how many of its
    keywords the lower-cased name includes and how many of its contextual
    rules a given context includes: it is 0.35 added once per keyword, then
    0.15 once per rule, capped at 0.95. *)
Theorem confidence_by_counts (name : string) (context : option string) (c : POICategory.t) :
  confidence_of name context c =
  Math_min
    (add_times (rules_matched context c) 0.15%float
       (add_times (keywords_matched name c) 0.35%float 0%float))
    0.95%float.
Proof. exact (confidence_of_counts name context c). Qed.

(** X4. A context alone needs three rules of one category: when the name
    includes no keyword and no category has more than two of its rules in
    the context, the result is unknown with 0.3 (two rules give exactly 0.3,
    which is not above the floor); when some category has three of its
    rules in the context, the result is not unknown. *)
Theorem classifyPOI_context_alone (name : string) (context : option string) :
  ((forall c, In c POI_CATEGORIES -> keywords_matched name c = 0) ->
   (forall c, In c POI_CATEGORIES -> rules_matched context c <= 2) ->
   classifyPOI name context = Classification.mk "unknown" 0.3%float) /\
  (forall c, In c POI_CATEGORIES -> rules_matched context c = 3 ->
   Classification.category (classifyPOI name context) <> "unknown").
Proof.
  destruct (classifyPOI_best name context) as (Hv & Hfloor & Hmax & Hwho). split.
  - intros Hk Hr.
    destruct Hwho as [E|(pre & c & post & Hpos & _ & Hlt & _)]; [exact E|].
    assert (Hc : In c POI_CATEGORIES).
    { rewrite Hpos. apply in_or_app. right. now left. }
    rewrite confidence_of_counts, (Hk c Hc) in Hlt.
    rewrite confidence_after_rules_alone in Hlt by (specialize (Hr c Hc); lia).
    specialize (Hr c Hc). apply Nat.leb_le in Hr. rewrite Hr in Hlt. discriminate Hlt.
  - intros c Hc H3 Hunk.
    destruct Hwho as [E|(pre & d & post & Hpos & E & _)].
    + specialize (Hmax c Hc). rewrite E in Hmax. cbn [Classification.confidence] in Hmax.
      pose proof (confidence_of_value name context c Hc) as Hcv.
      pose proof (confidence_facts _ _ _ floor_is_a_value Hcv Hcv)
        as (_ & _ & _ & _ & _ & Hno & _).
      assert (Hlt : PrimFloat.ltb 0.3%float (confidence_of name context c) = true).
      { rewrite confidence_of_counts, H3.
        destruct (taxonomy_sizes c Hc) as (Hks & _ & _).
        pose proof (keywords_matched_le name c).
        rewrite confidence_after_rules_alone by lia.
        now rewrite andb_false_r. }
      rewrite (Hno Hlt) in Hmax. discriminate Hmax.
    + assert (Hd : In d POI_CATEGORIES).
      { rewrite Hpos. apply in_or_app. right. now left. }
      rewrite E in Hunk. cbn in Hunk.
      now destruct (taxonomy_sizes d Hd) as (_ & _ & Hid).
Qed.

(** X5. A name that includes three or more keywords of one category gets
    the confidence 0.95 exactly, whatever else it includes and whatever the
    context. *)
Theorem classifyPOI_capped (name : string) (context : option string) (c : POICategory.t) :
  In c POI_CATEGORIES ->
  3 <= keywords_matched name c ->
  Classification.confidence (classifyPOI name context) = 0.95%float.
Proof.
  intros Hc Hk.
  destruct (classifyPOI_best name context) as (Hv & _ & Hmax & _).
  apply top_value; [exact Hv|].
  specialize (Hmax c Hc).
  rewrite confidence_of_counts in Hmax.
  destruct (taxonomy_sizes c Hc) as (Hks & Hrs & _).
  pose proof (keywords_matched_le name c). pose proof (rules_matched_le context c).
  now rewrite confidence_after_capped in Hmax by lia.
Qed.

(** ** The orchestrator: what the POIs look like *)

Lemma mapM_Eff_Forall2 {A B : Type} (R : A -> B -> Prop) (f : A -> Eff B) (l : list A)
    (s : Cursor.t) :
  (forall a s, R a (fst (f a s))) -> Forall2 R l (fst (mapM f l s)).
Proof.
  intros Hf. revert s. induction l as [|x l IH]; intros s; [constructor|].
  rewrite mapM_Eff_cons. pose proof (Hf x s) as Hy. destruct (f x s) as [y s1].
  specialize (IH s1). destruct (mapM f l s1) as [k s2]. simpl in *.
  now constructor.
Qed.

(** The result, step by step. *)
Lemma compose_result_eq (w : World.t) (query : string) (queryType : option string)
    (a : LLMQueryAnalysis.t) (s : Cursor.t) :
  let location := LLMQueryAnalysis.location a in
  let businessType := LLMQueryAnalysis.businessType a in
  let factors := LLMQueryAnalysis.contextualFactors a in
  let g := generateAISuggestions w location businessType factors queryType s in
  let v := validateWithGroundTruth w (fst g) location businessType (snd g) in
  let cg := identifyCorrectionsAndGaps w factors businessType location (snd v) in
  fst (compose_result w query queryType a s) =
  AnalysisResult.mk query
    (AnalysisResult.mkAiReasoning (LLMQueryAnalysis.marketInsights a) (fst g)
       (LLMQueryAnalysis.keyAssumptions a)
       ((72 # 100) + World.random w (Cursor.draws (snd cg)) * (8 # 100))%Q)
    (AnalysisResult.mkGroundTruth (fst v) (fst (fst cg)) (snd (fst cg))
       (Qmin (inject_Z (Math_round
                (inject_Z (Z.of_nat (length (fst v))) /
                 inject_Z (Z.max (Z.of_nat (length (fst g))) 1) * 100)%Q)) 70))
    (generateRecommendation businessType location (fst v) (fst (fst cg)) (snd (fst cg)))
    (AnalysisResult.mkVisualization (getCityCoordinates location) 13).
Proof.
  unfold compose_result, mbind, Eff_bind. cbv zeta.
  destruct (generateAISuggestions w _ _ _ queryType s) as [ai s1].
  cbn [fst snd].
  destruct (validateWithGroundTruth w ai _ _ s1) as [v s2].
  cbn [fst snd].
  destruct (identifyCorrectionsAndGaps w _ _ _ s2) as [cg s3].
  reflexivity.
Qed.

Lemma mapM_Eff_map {A B C : Type} (g : B -> C) (h : A -> C) (f : A -> Eff B) (l : list A)
    (s : Cursor.t) :
  (forall a, In a l -> forall s, g (fst (f a s)) = h a) ->
  map g (fst (mapM f l s)) = map h l.
Proof.
  revert s. induction l as [|x l IH]; intros s Hf; [reflexivity|].
  rewrite mapM_Eff_cons. pose proof (Hf x (or_introl eq_refl) s) as Hy.
  destruct (f x s) as [y s1].
  specialize (IH s1 (fun a Ha => Hf a (or_intror Ha))).
  destruct (mapM f l s1) as [k s2]. simpl in *. now rewrite Hy, IH.
Qed.

Local Open Scope Q_scope.

Section Draws.

Variable w : World.t.
Hypothesis Hw : unit_draws w.

Lemma ai_suggestion_confidence coords names factors i s :
  let p := fst (ai_suggestion w coords names factors i s) in
  (55 # 100) <= POIData.confidence p /\ POIData.confidence p <= (80 # 100).
Proof.
  run_turn. destruct (Hw (S (S (Cursor.draws s)))) as [H0 H1]. split; lra.
Qed.

Lemma verified_poi_confidence coords businessType i s :
  let p := fst (verified_poi w coords businessType i s) in
  (82 # 100) <= POIData.confidence p /\ POIData.confidence p <= (95 # 100).
Proof.
  run_turn. destruct (Hw (S (S (Cursor.draws s)))) as [H0 H1]. split; lra.
Qed.

Lemma ai_suggestion_place lat lng names factors i s :
  let p := fst (ai_suggestion w (LatLng lat lng) names factors i s) in
  within lat (2 # 100) (POIData.lat p) /\ within lng (2 # 100) (POIData.lng p).
Proof.
  run_turn. destruct (Hw (Cursor.draws s)) as [H0 H1].
  destruct (Hw (S (Cursor.draws s))) as [H2 H3]. repeat split; lra.
Qed.

Lemma verified_poi_place lat lng businessType i s :
  let p := fst (verified_poi w (LatLng lat lng) businessType i s) in
  within lat (175 # 10000) (POIData.lat p) /\ within lng (175 # 10000) (POIData.lng p).
Proof.
  run_turn. destruct (Hw (Cursor.draws s)) as [H0 H1].
  destruct (Hw (S (Cursor.draws s))) as [H2 H3]. repeat split; lra.
Qed.

End Draws.

Lemma within_wider (center radius radius' : Q) (x : Num) :
  radius <= radius' -> within center radius x -> within center radius' x.
Proof. destruct x as [q|]; [|tauto]. cbn [within]. intros H [H1 H2]. split; lra. Qed.

Local Close Scope Q_scope.

(** In binary64, at the least and at the greatest draw: the confidences
    stay within their bounds, the upper one being reached by the first two
    and not by the third; the rating of a sample POI reaches 5; the
    percentage of the recommendation runs from 82 to 95; and every
    coordinate of the table, moved by a draw, stays within 0.0201, 0.0176
    and 0.0501 degrees at the three scales of the code, although not always
    within 0.02, 0.0175 and 0.05. *)
Lemma draws_binary64 :
  forallb (fun r =>
    PrimFloat.leb 0.55%float (suggestion_confidence_binary64 r) &&
    PrimFloat.leb (suggestion_confidence_binary64 r) 0.80%float &&
    PrimFloat.leb 0.82%float (verified_confidence_binary64 r) &&
    PrimFloat.leb (verified_confidence_binary64 r) 0.95%float &&
    PrimFloat.leb 0.72%float (reasoning_confidence_binary64 r) &&
    PrimFloat.ltb (reasoning_confidence_binary64 r) 0.80%float &&
    PrimFloat.leb 3%float (sample_rating_binary64 r) &&
    PrimFloat.leb (sample_rating_binary64 r) 5%float &&
    PrimFloat.leb 82%float (percentage_binary64 (verified_confidence_binary64 r)) &&
    PrimFloat.leb (percentage_binary64 (verified_confidence_binary64 r)) 95%float)
    extreme_draws = true /\
  PrimFloat.eqb (suggestion_confidence_binary64 0.99999999999999989%float) 0.80%float = true /\
  PrimFloat.eqb (verified_confidence_binary64 0.99999999999999989%float) 0.95%float = true /\
  PrimFloat.eqb (sample_rating_binary64 0.99999999999999989%float) 5%float = true /\
  forallb (fun city =>
    moved_near 0.04%float 0.0201%float (fst (snd city)) &&
    moved_near 0.04%float 0.0201%float (snd (snd city)) &&
    moved_near 0.035%float 0.0176%float (fst (snd city)) &&
    moved_near 0.035%float 0.0176%float (snd (snd city)) &&
    moved_near 0.1%float 0.0501%float (fst (snd city)) &&
    moved_near 0.1%float 0.0501%float (snd (snd city)))
    CITY_TABLE = true /\
  moved_near 0.04%float 0.02%float (- (12921 # 10000))%Q = false /\
  moved_near 0.035%float 0.0175%float (129716 # 10000)%Q = false /\
  moved_near 0.1%float 0.05%float (129716 # 10000)%Q = false.
Proof. repeat split; vm_compute; reflexivity. Qed.

(** X6. With draws in [0, 1), every confidence of a result is a
    probability: that of a suggested location is at least 0.55 and at most
    0.80, that of a verified POI at least 0.82 and at most 0.95, and that
    of the reasoning at least 0.72 and below 0.80. The first two upper
    bounds are not strict: in binary64 the greatest draws reach them. *)
Theorem confidences_in_range (process_env : gmap string string) (w : World.t)
    (query : string) (queryType : option string) (s : Cursor.t) :
  unit_draws w ->
  exists r s',
    analyzeQuery process_env w query queryType s = (Ok r, s') /\
    Forall (fun p => (55 # 100 <= POIData.confidence p)%Q /\ (POIData.confidence p <= 80 # 100)%Q)
      (AnalysisResult.suggestedLocations (AnalysisResult.aiReasoning r)) /\
    Forall (fun p => (82 # 100 <= POIData.confidence p)%Q /\ (POIData.confidence p <= 95 # 100)%Q)
      (AnalysisResult.verifiedPOIs (AnalysisResult.groundTruth r)) /\
    (72 # 100 <= AnalysisResult.confidence (AnalysisResult.aiReasoning r))%Q /\
    (AnalysisResult.confidence (AnalysisResult.aiReasoning r) < 80 # 100)%Q.
Proof.
  intros Hw.
  destruct (analyzeQuery_returns process_env w query queryType s) as (a & _ & ->).
  eexists. eexists. split; [reflexivity|].
  rewrite compose_result_eq. cbn [AnalysisResult.suggestedLocations AnalysisResult.aiReasoning
    AnalysisResult.verifiedPOIs AnalysisResult.groundTruth AnalysisResult.confidence].
  split; [|split].
  - unfold generateAISuggestions. apply mapM_Eff_Forall.
    intros i s0. now apply ai_suggestion_confidence.
  - unfold validateWithGroundTruth, mbind, Eff_bind, Math_random.
    apply mapM_Eff_Forall. intros i s0. now apply verified_poi_confidence.
  - match goal with |- context [World.random w ?n] => destruct (Hw n) as [H0 H1] end.
    split; lra.
Qed.

(** X7. With draws in [0, 1), when the centre of the map is a coordinate
    pair every suggested location lies within 0.0201 degrees of it, in
    latitude and in longitude, and every verified POI within 0.0176
    degrees. The radii of the code are 0.02 and 0.0175; the sums it rounds
    to binary64 can leave them by the rounding, and stay within these. *)
Theorem pois_around_center (process_env : gmap string string) (w : World.t)
    (query : string) (queryType : option string) (s : Cursor.t) (lat lng : Q) :
  unit_draws w ->
  exists r s',
    analyzeQuery process_env w query queryType s = (Ok r, s') /\
    (AnalysisResult.center (AnalysisResult.visualization r) = LatLng lat lng ->
     Forall (fun p => within lat (201 # 10000) (POIData.lat p) /\
                      within lng (201 # 10000) (POIData.lng p))
       (AnalysisResult.suggestedLocations (AnalysisResult.aiReasoning r)) /\
     Forall (fun p => within lat (176 # 10000) (POIData.lat p) /\
                      within lng (176 # 10000) (POIData.lng p))
       (AnalysisResult.verifiedPOIs (AnalysisResult.groundTruth r))).
Proof.
  intros Hw.
  destruct (analyzeQuery_returns process_env w query queryType s) as (a & _ & ->).
  eexists. eexists. split; [reflexivity|].
  rewrite compose_result_eq. cbn [AnalysisResult.suggestedLocations AnalysisResult.aiReasoning
    AnalysisResult.verifiedPOIs AnalysisResult.groundTruth AnalysisResult.center
    AnalysisResult.visualization].
  intros Hc. split.
  - unfold generateAISuggestions. rewrite Hc. apply mapM_Eff_Forall.
    intros i s0.
    destruct (ai_suggestion_place w Hw lat lng
                (names_for (LLMQueryAnalysis.businessType a) queryType)
                (LLMQueryAnalysis.contextualFactors a) i s0) as [H1 H2].
    split; (eapply within_wider; [|eassumption]); apply Qle_bool_imp_le; reflexivity.
  - unfold validateWithGroundTruth, mbind, Eff_bind, Math_random. rewrite Hc.
    apply mapM_Eff_Forall. intros i s0.
    destruct (verified_poi_place w Hw lat lng (LLMQueryAnalysis.businessType a) i s0)
      as [H1 H2].
    split; (eapply within_wider; [|eassumption]); apply Qle_bool_imp_le; reflexivity.
Qed.

Lemma is_space_lower_char (c : ascii) : JS.is_space (JS.lower_char c) = JS.is_space c.
Proof. by_cases_on_char c. Qed.

Lemma toLowerCase_strip_spaces (s : string) :
  JS.toLowerCase (JS.strip_spaces s) = JS.strip_spaces (JS.toLowerCase s).
Proof.
  induction s as [|c s IH]; [reflexivity|].
  cbn [JS.strip_spaces JS.toLowerCase]. rewrite is_space_lower_char.
  destruct (JS.is_space c); [exact IH|].
  cbn [JS.toLowerCase]. now rewrite IH.
Qed.

(** No city is stored under a name every object inherits. *)
Lemma inherited_not_city (key : string) :
  JS.inherited key = true -> CITY_COORDINATES !! key = None.
Proof.
  unfold JS.inherited. intros H. apply existsb_exists in H as (k & Hk & E).
  apply String.eqb_eq in E. subst k. unfold JS.Object_prototype in Hk.
  repeat (destruct Hk as [<-|Hk]; [vm_compute; reflexivity|]). destruct Hk.
Qed.

(** What is looked up is in lower case. *)
Lemma normalized_lower (location : string) :
  JS.toLowerCase (normalized location) = normalized location.
Proof. unfold normalized. now rewrite toLowerCase_strip_spaces, toLowerCase_idem. Qed.

(** Of the inherited names only two are in lower case. *)
Lemma inherited_normalized (location : string) :
  JS.inherited (normalized location) = true <->
  normalized location = "constructor" \/ normalized location = "__proto__".
Proof.
  split.
  - intros H. pose proof (normalized_lower location) as Hl.
    revert H Hl. generalize (normalized location) as k. intros k H Hl.
    unfold JS.inherited in H. apply existsb_exists in H as (x & Hx & E).
    apply String.eqb_eq in E. subst x. unfold JS.Object_prototype in Hx.
    repeat (destruct Hx as [<-|Hx];
      [first [left; reflexivity | right; reflexivity | vm_compute in Hl; discriminate Hl]|]).
    destruct Hx.
  - intros [->| ->]; reflexivity.
Qed.

Lemma getCityCoordinates_cases (location : string) :
  if JS.inherited (normalized location)
  then getCityCoordinates location = NotCoordinates (normalized location)
  else exists lat lng, getCityCoordinates location = LatLng lat lng.
Proof.
  unfold getCityCoordinates, JS.get.
  destruct (JS.inherited (normalized location)) eqn:E.
  - now rewrite (inherited_not_city _ E).
  - destruct (CITY_COORDINATES !! normalized location) as [[lat lng]|]; eauto.
Qed.

(** X8. The centre of the map is what the gazetteer gives for the location
    of the interpretation. When that location, in lower case and without
    its white space, names a property every object inherits, which only
    [constructor] and [__proto__] do (the other inherited names have a
    capital), the centre is that property, no coordinate pair, and every
    POI of the result has NaN for latitude and longitude. For every other
    location the centre is a pair and no coordinate is NaN. *)
Theorem pois_nowhere (process_env : gmap string string) (w : World.t)
    (query : string) (queryType : option string) (s : Cursor.t) :
  exists r s' a,
    analyzeQuery process_env w query queryType s = (Ok r, s') /\
    analyzeSpatialQuery process_env w query = Ok a /\
    let key := normalized (LLMQueryAnalysis.location a) in
    let pois := AnalysisResult.suggestedLocations (AnalysisResult.aiReasoning r) ++
                AnalysisResult.verifiedPOIs (AnalysisResult.groundTruth r) in
    AnalysisResult.center (AnalysisResult.visualization r) =
      getCityCoordinates (LLMQueryAnalysis.location a) /\
    (JS.inherited key = true <-> key = "constructor" \/ key = "__proto__") /\
    (JS.inherited key = true ->
     AnalysisResult.center (AnalysisResult.visualization r) = NotCoordinates key /\
     Forall (fun p => POIData.lat p = NaN /\ POIData.lng p = NaN) pois) /\
    (JS.inherited key = false ->
     (exists lat lng,
        AnalysisResult.center (AnalysisResult.visualization r) = LatLng lat lng) /\
     Forall (fun p => POIData.lat p <> NaN /\ POIData.lng p <> NaN) pois).
Proof.
  destruct (analyzeQuery_returns process_env w query queryType s) as (a & Ha & ->).
  eexists. eexists. exists a. split; [reflexivity|]. split; [exact Ha|].
  rewrite compose_result_eq. cbv zeta.
  cbn [AnalysisResult.suggestedLocations AnalysisResult.aiReasoning
    AnalysisResult.verifiedPOIs AnalysisResult.groundTruth AnalysisResult.center
    AnalysisResult.visualization].
  split; [reflexivity|]. split; [apply inherited_normalized|].
  pose proof (getCityCoordinates_cases (LLMQueryAnalysis.location a)) as Hc.
  split; intros E; rewrite E in Hc.
  - split; [exact Hc|]. apply Forall_app. split.
    + unfold generateAISuggestions. rewrite Hc. apply mapM_Eff_Forall.
      intros i s0. run_turn. split; reflexivity.
    + unfold validateWithGroundTruth, mbind, Eff_bind, Math_random. rewrite Hc.
      apply mapM_Eff_Forall. intros i s0. run_turn. split; reflexivity.
  - destruct Hc as (lat & lng & Hc). split; [now exists lat, lng|].
    apply Forall_app. split.
    + unfold generateAISuggestions. rewrite Hc. apply mapM_Eff_Forall.
      intros i s0. run_turn. split; discriminate.
    + unfold validateWithGroundTruth, mbind, Eff_bind, Math_random. rewrite Hc.
      apply mapM_Eff_Forall. intros i s0. run_turn. split; discriminate.
Qed.

(** ** The orchestrator: ids and names *)

Lemma first_char_app (c : ascii) (a b : string) :
  first_char (String c a +:+ b) = Some c.
Proof. reflexivity. Qed.

Lemma last_char_app (a b : string) :
  b <> EmptyString -> last_char (a +:+ b) = last_char b.
Proof.
  intros Hb. induction a as [|c a IH]; [reflexivity|].
  change (String c a +:+ b) with (String c (a +:+ b)).
  cbn [last_char]. rewrite IH.
  destruct (a +:+ b) eqn:E; [|reflexivity].
  destruct a; [simpl in E; contradiction | discriminate].
Qed.

Lemma last_char_id (prefix : string) (t : Z) (i : nat) :
  (i < 10)%nat ->
  last_char (prefix +:+ pretty t +:+ "_" +:+ pretty i) = last_char (pretty i).
Proof.
  intros Hi.
  assert (Hne : pretty i <> EmptyString).
  { assert (i = 0 \/ i = 1 \/ i = 2 \/ i = 3 \/ i = 4 \/ i = 5 \/ i = 6 \/ i = 7 \/
            i = 8 \/ i = 9)%nat as Hc by lia.
    repeat match goal with H : _ \/ _ |- _ => destruct H end; subst; discriminate. }
  rewrite !last_char_app; try reflexivity.
  - exact Hne.
  - destruct (pretty i); [contradiction | discriminate].
  - destruct (pretty t); [|discriminate].
    destruct (pretty i); [contradiction | discriminate].
Qed.

(** What tells the ids of one result apart: the first and the last
    character. *)
Lemma ai_suggestion_id_ends (w : World.t) coords names factors i s :
  (i < 10)%nat ->
  let p := fst (ai_suggestion w coords names factors i s) in
  (first_char (POIData.id p), last_char (POIData.id p)) =
  (Some "a"%char, last_char (pretty i)).
Proof. intros Hi. run_turn. now rewrite last_char_id. Qed.

Lemma verified_poi_id_ends (w : World.t) coords businessType i s :
  (i < 10)%nat ->
  let p := fst (verified_poi w coords businessType i s) in
  (first_char (POIData.id p), last_char (POIData.id p)) =
  (Some "v"%char, last_char (pretty i)).
Proof. intros Hi. run_turn. now rewrite last_char_id. Qed.

(** With draws in [0, 1), the loop of [validateWithGroundTruth] has three
    turns on five suggestions. *)
Lemma validateWithGroundTruth_three (w : World.t) (aiSuggestions : list POIData.t)
    (location businessType : string) (s : Cursor.t) :
  unit_draws w -> length aiSuggestions = 5 ->
  validateWithGroundTruth w aiSuggestions location businessType s =
  mapM (verified_poi w (getCityCoordinates location) businessType) (seq 0 3)
    (Cursor.mk (S (Cursor.draws s)) (Cursor.ticks s)).
Proof.
  intros Hw Hl. unfold validateWithGroundTruth, mbind, Eff_bind, Math_random.
  rewrite Hl. destruct (Hw (Cursor.draws s)) as [H0 H1].
  now rewrite valid_count_three.
Qed.

Lemma generateAISuggestions_id_ends (w : World.t) location businessType factors queryType s :
  map (fun p => (first_char (POIData.id p), last_char (POIData.id p)))
    (fst (generateAISuggestions w location businessType factors queryType s)) =
  map (fun i => (Some "a"%char, last_char (pretty i))) (seq 0 5).
Proof.
  unfold generateAISuggestions. apply mapM_Eff_map.
  intros i Hi s0. apply ai_suggestion_id_ends. apply in_seq in Hi. lia.
Qed.

Lemma validateWithGroundTruth_id_ends (w : World.t) aiSuggestions location businessType s :
  unit_draws w -> length aiSuggestions = 5 ->
  map (fun p => (first_char (POIData.id p), last_char (POIData.id p)))
    (fst (validateWithGroundTruth w aiSuggestions location businessType s)) =
  map (fun i => (Some "v"%char, last_char (pretty i))) (seq 0 3).
Proof.
  intros Hw Hl. rewrite validateWithGroundTruth_three by assumption.
  apply mapM_Eff_map.
  intros i Hi s0. apply verified_poi_id_ends. apply in_seq in Hi. lia.
Qed.

(** X9. With draws in [0, 1), the eight POIs of a result have pairwise
    different ids, whatever the clock says: the ids the map uses as its
    keys are unique. *)
Theorem poi_ids_distinct (process_env : gmap string string) (w : World.t)
    (query : string) (queryType : option string) (s : Cursor.t) :
  unit_draws w ->
  exists r s',
    analyzeQuery process_env w query queryType s = (Ok r, s') /\
    NoDup (map POIData.id
             (AnalysisResult.suggestedLocations (AnalysisResult.aiReasoning r) ++
              AnalysisResult.verifiedPOIs (AnalysisResult.groundTruth r))).
Proof.
  intros Hw.
  destruct (analyzeQuery_returns process_env w query queryType s) as (a & _ & ->).
  eexists. eexists. split; [reflexivity|].
  rewrite compose_result_eq. cbn [AnalysisResult.suggestedLocations AnalysisResult.aiReasoning
    AnalysisResult.verifiedPOIs AnalysisResult.groundTruth].
  apply (NoDup_fmap_1 (fun i => (first_char i, last_char i))).
  change (@fmap list _) with (@map). rewrite map_map, map_app.
  rewrite generateAISuggestions_id_ends.
  rewrite validateWithGroundTruth_id_ends
    by (try assumption; apply generateAISuggestions_length).
  apply (bool_decide_unpack _). vm_compute. exact I.
Qed.

(** The table of names has four own keys, none of them inherited, and five
    names under each. *)
Lemma locationNames_lookup (businessType key : string) :
  match locationNames businessType !! key with
  | Some l => length l = 5 /\ JS.inherited key = false
  | None => True
  end.
Proof.
  destruct (decide (key = "location")) as [->|H1]; [now vm_compute|].
  destruct (decide (key = "market")) as [->|H2]; [now vm_compute|].
  destruct (decide (key = "competitor")) as [->|H3]; [now vm_compute|].
  destruct (decide (key = "optimize")) as [->|H4]; [now vm_compute|].
  unfold locationNames. rewrite !list_to_map_cons, list_to_map_nil.
  rewrite !lookup_insert_ne by congruence. now rewrite lookup_empty.
Qed.

Lemma name_at_own (l : list string) (i : nat) :
  length l = 5 -> In i (seq 0 5) -> name_at (JS.Own l) i <> None.
Proof.
  intros Hl Hi. apply in_seq in Hi. unfold name_at.
  destruct (l !! i) eqn:E; [discriminate|].
  apply lookup_ge_None in E. lia.
Qed.

Lemma names_for_cases (businessType : string) (queryType : option string) :
  if JS.inherited (names_key queryType)
  then names_for businessType queryType = JS.Inherited (names_key queryType)
  else exists l, names_for businessType queryType = JS.Own l /\ length l = 5.
Proof.
  unfold names_for. fold (names_key queryType). unfold JS.get.
  pose proof (locationNames_lookup businessType (names_key queryType)) as H.
  destruct (locationNames businessType !! names_key queryType) as [l|].
  - destruct H as [Hl ->]. now exists l.
  - destruct (JS.inherited (names_key queryType)); [reflexivity|].
    pose proof (locationNames_lookup businessType "location") as H'.
    destruct (locationNames businessType !! "location") as [l|] eqn:E.
    + destruct H' as [Hl _]. now exists l.
    + vm_compute in E. discriminate.
Qed.

(** X10. The suggested locations of a result all have a name, unless the
    query type names a property every object inherits ([constructor],
    [toString], ...): then none of the five has one. *)
Theorem suggestions_named (process_env : gmap string string) (w : World.t)
    (query : string) (queryType : option string) (s : Cursor.t) :
  exists r s',
    analyzeQuery process_env w query queryType s = (Ok r, s') /\
    if JS.inherited (names_key queryType)
    then Forall (fun p => POIData.name p = None)
           (AnalysisResult.suggestedLocations (AnalysisResult.aiReasoning r))
    else Forall (fun p => POIData.name p <> None)
           (AnalysisResult.suggestedLocations (AnalysisResult.aiReasoning r)).
Proof.
  destruct (analyzeQuery_returns process_env w query queryType s) as (a & _ & ->).
  eexists. eexists. split; [reflexivity|].
  rewrite compose_result_eq.
  cbn [AnalysisResult.suggestedLocations AnalysisResult.aiReasoning].
  unfold generateAISuggestions.
  pose proof (names_for_cases (LLMQueryAnalysis.businessType a) queryType) as H.
  destruct (JS.inherited (names_key queryType)).
  - rewrite H. apply mapM_Eff_Forall. intros i s0. now run_turn.
  - destruct H as (l & -> & Hl).
    apply List.Forall_forall. intros p Hp.
    assert (Hm : In (POIData.name p) (map (fun i => name_at (JS.Own l) i) (seq 0 5))).
    { rewrite <- (mapM_Eff_map POIData.name (fun i => name_at (JS.Own l) i)
                    (ai_suggestion w (getCityCoordinates (LLMQueryAnalysis.location a))
                       (JS.Own l) (LLMQueryAnalysis.contextualFactors a))
                    (seq 0 5) s).
      - apply in_map. exact Hp.
      - intros i _ s0. reflexivity. }
    apply in_map_iff in Hm. destruct Hm as (i & <- & Hi).
    apply name_at_own; assumption.
Qed.

(** ** The orchestrator: corrections, gaps and the recommendation *)

Lemma Qfloor_range (x : Q) (lo hi : Z) :
  (inject_Z lo <= x)%Q -> (x < inject_Z hi)%Q -> (lo <= Qfloor x < hi)%Z.
Proof.
  intros Hlo Hhi. split.
  - rewrite <- (Qfloor_Z lo). now apply Qfloor_resp_le.
  - rewrite Zlt_Qlt. eapply Qle_lt_trans; [apply Qfloor_le | exact Hhi].
Qed.

Lemma identifyCorrectionsAndGaps_shape (w : World.t) (contextFactors : list string)
    (businessType location : string) (s : Cursor.t) :
  unit_draws w ->
  let cg := fst (identifyCorrectionsAndGaps w contextFactors businessType location s) in
  exists n rest,
    length (fst cg) = 2 /\
    snd cg = ("Identified " +:+ pretty n +:+
              " underserved neighborhoods with high demand potential") :: rest /\
    (2 <= n <= 4)%Z /\
    length rest = (if mentions_residential contextFactors then 2 else 1).
Proof.
  intros Hw.
  unfold identifyCorrectionsAndGaps, mbind, mret, Eff_bind, Eff_ret, Math_random.
  cbn [fst snd].
  destruct (Hw (Cursor.draws s)) as [H0 H1].
  exists (Math_floor (World.random w (Cursor.draws s) * 3) + 2)%Z.
  assert (Hn : (0 <= Math_floor (World.random w (Cursor.draws s) * 3) < 3)%Z).
  { apply Qfloor_range.
    - change (inject_Z 0) with 0%Q. lra.
    - change (inject_Z 3) with 3%Q. lra. }
  destruct (mentions_residential contextFactors);
    eexists; (split; [now destruct (mentions_it _)|]);
    (split; [reflexivity|]); (split; [lia | reflexivity]).
Qed.

(** X11. With draws in [0, 1), a result lists two corrections and two or
    three gaps, three exactly when a contextual factor mentions
    [residential]; the first gap counts 2, 3 or 4 underserved
    neighborhoods. *)
Theorem corrections_and_gaps (process_env : gmap string string) (w : World.t)
    (query : string) (queryType : option string) (s : Cursor.t) :
  unit_draws w ->
  exists r s' a n rest,
    analyzeQuery process_env w query queryType s = (Ok r, s') /\
    analyzeSpatialQuery process_env w query = Ok a /\
    length (AnalysisResult.corrections (AnalysisResult.groundTruth r)) = 2 /\
    AnalysisResult.gaps (AnalysisResult.groundTruth r) =
      ("Identified " +:+ pretty n +:+
       " underserved neighborhoods with high demand potential") :: rest /\
    (2 <= n <= 4)%Z /\
    length rest =
      (if mentions_residential (LLMQueryAnalysis.contextualFactors a) then 2 else 1).
Proof.
  intros Hw.
  destruct (analyzeQuery_returns process_env w query queryType s) as (a & Ha & ->).
  eexists. eexists. exists a.
  rewrite compose_result_eq.
  cbn [AnalysisResult.corrections AnalysisResult.gaps AnalysisResult.groundTruth].
  match goal with |- context [identifyCorrectionsAndGaps w ?f ?b ?l ?s0] =>
    destruct (identifyCorrectionsAndGaps_shape w f b l s0 Hw) as (n & rest & H1 & H2 & H3 & H4)
  end.
  exists n, rest. repeat split; try assumption; lia.
Qed.


Lemma startsWith_refl_app (x y : string) : JS.startsWith (x +:+ y) x = true.
Proof.
  induction x as [|c x IH]; [now destruct y|].
  change (String c x +:+ y) with (String c (x +:+ y)).
  cbn [JS.startsWith]. now rewrite Ascii.eqb_refl.
Qed.

Lemma startsWith_app_same (x y z : string) :
  JS.startsWith (x +:+ z) (x +:+ y) = JS.startsWith z y.
Proof.
  induction x as [|c x IH]; [reflexivity|].
  change (String c x +:+ z) with (String c (x +:+ z)).
  change (String c x +:+ y) with (String c (x +:+ y)).
  cbn [JS.startsWith]. now rewrite Ascii.eqb_refl.
Qed.

Lemma includes_here (s x : string) : JS.startsWith s x = true -> JS.includes s x = true.
Proof. intros H. rewrite includes_unfold, H. reflexivity. Qed.

Lemma includes_skip_char (c : ascii) (s x : string) :
  JS.includes s x = true -> JS.includes (String c s) x = true.
Proof. intros H. rewrite includes_unfold, H. apply orb_true_r. Qed.

Lemma includes_app_r (a y x : string) :
  JS.includes y x = true -> JS.includes (a +:+ y) x = true.
Proof.
  intros H. induction a as [|c a IH]; [exact H|].
  change (String c a +:+ y) with (String c (a +:+ y)). now apply includes_skip_char.
Qed.

Lemma includes_after (k : nat) (a y x : string) :
  JS.startsWith (JS.slice_from k a +:+ y) x = true -> JS.includes (a +:+ y) x = true.
Proof.
  revert a. induction k as [|k IH]; intros a H.
  - destruct a; now apply includes_here.
  - destruct a as [|c a].
    + now apply includes_here.
    + change (String c a +:+ y) with (String c (a +:+ y)).
      apply includes_skip_char, IH. exact H.
Qed.

(** The recommendation cites the first verified POI, by name and by
    rounded confidence. *)
Lemma generateRecommendation_cites (businessType location : string) (v : POIData.t)
    (rest : list POIData.t) (corrections gaps : list string) (n : string) :
  POIData.name v = Some n ->
  JS.includes
    (generateRecommendation businessType location (v :: rest) corrections gaps)
    ("Location: " +:+ n +:+ "
Confidence: " +:+
     pretty (Math_round (POIData.confidence v * 100)) +:+ "% (grounded in POI data)") = true.
Proof.
  intros Hn. unfold generateRecommendation. rewrite Hn.
  do 10 apply includes_app_r.
  match goal with |- JS.includes (?F +:+ _) _ = true =>
    let k := eval vm_compute in (String.length F - 10)%nat in
    apply (includes_after k);
    let r := eval vm_compute in (JS.slice_from k F) in
    change (JS.slice_from k F) with r
  end.
  rewrite !startsWith_app_same. reflexivity.
Qed.

(** X13. With draws in [0, 1), the recommendation of a result cites the
    first verified POI: its name, and a percentage between 82 and 95 for
    its confidence. The fallback text for an empty list is never used. The
    percentage is given by its range only: the code rounds the binary64
    product, which is in that range too but can be the integer next to the
    one the exact product rounds to. *)
Theorem recommendation_cites_top (process_env : gmap string string) (w : World.t)
    (query : string) (queryType : option string) (s : Cursor.t) :
  unit_draws w ->
  exists r s' v n percentage,
    analyzeQuery process_env w query queryType s = (Ok r, s') /\
    head (AnalysisResult.verifiedPOIs (AnalysisResult.groundTruth r)) = Some v /\
    POIData.name v = Some n /\
    (82 <= percentage <= 95)%Z /\
    JS.includes (AnalysisResult.recommendation r)
      ("Location: " +:+ n +:+ "
Confidence: " +:+ pretty percentage +:+ "% (grounded in POI data)") = true.
Proof.
  intros Hw.
  destruct (analyzeQuery_returns process_env w query queryType s) as (a & _ & ->).
  exists (fst (compose_result w query queryType a s)),
         (snd (compose_result w query queryType a s)).
  rewrite compose_result_eq.
  cbn [AnalysisResult.verifiedPOIs AnalysisResult.groundTruth AnalysisResult.recommendation].
  rewrite validateWithGroundTruth_three
    by (try assumption; apply generateAISuggestions_length).
  change (seq 0 3) with (0 :: seq 1 2). rewrite mapM_Eff_cons.
  match goal with |- context [verified_poi w ?c ?b 0 ?s0] =>
    pose proof (verified_poi_confidence w Hw c b 0 s0) as Hc;
    assert (Hn : POIData.name (fst (verified_poi w c b 0 s0)) = Some (verified_name b 0))
      by reflexivity;
    destruct (verified_poi w c b 0 s0) as [v s1]
  end.
  cbn [fst] in Hc, Hn. cbv zeta in Hc. destruct Hc as [Hlo Hhi].
  match goal with |- context [mapM ?f (seq 1 2) s1] =>
    destruct (mapM f (seq 1 2) s1) as [k s2]
  end.
  cbn [fst head].
  exists v. eexists. exists (Math_round (POIData.confidence v * 100)).
  split; [reflexivity|]. split; [reflexivity|].
  split; [exact Hn|]. split.
  - assert (H : (82 <= Math_round (POIData.confidence v * 100) < 96)%Z).
    { apply Qfloor_range.
      - change (inject_Z 82) with 82%Q. lra.
      - change (inject_Z 96) with 96%Q. lra. }
    lia.
  - now apply generateRecommendation_cites.
Qed.

(** ** The interpreter: the fence around a reply *)

Lemma append_assoc (a b c : string) : a +:+ (b +:+ c) = (a +:+ b) +:+ c.
Proof.
  induction a as [|x a IH]; [reflexivity|].
  change (String x (a +:+ (b +:+ c)) = String x ((a +:+ b) +:+ c)). now rewrite IH.
Qed.

Lemma rev_onto_app (s acc : string) : JS.rev_onto s acc = JS.reverse s +:+ acc.
Proof.
  unfold JS.reverse. revert acc. induction s as [|c s IH]; intros acc; [reflexivity|].
  cbn [JS.rev_onto]. rewrite IH, (IH (String c EmptyString)).
  rewrite <- append_assoc. reflexivity.
Qed.

Lemma reverse_cons (c : ascii) (s : string) :
  JS.reverse (String c s) = JS.reverse s +:+ String c EmptyString.
Proof. unfold JS.reverse at 1. cbn [JS.rev_onto]. apply rev_onto_app. Qed.

Lemma append_empty_r (s : string) : s +:+ EmptyString = s.
Proof.
  induction s as [|c s IH]; [reflexivity|].
  change (String c (s +:+ EmptyString) = String c s). now rewrite IH.
Qed.

Lemma reverse_app (a b : string) : JS.reverse (a +:+ b) = JS.reverse b +:+ JS.reverse a.
Proof.
  induction a as [|c a IH].
  - cbn. now rewrite append_empty_r.
  - change (String c a +:+ b) with (String c (a +:+ b)).
    rewrite !reverse_cons, IH. now rewrite append_assoc.
Qed.

Lemma reverse_involutive (s : string) : JS.reverse (JS.reverse s) = s.
Proof.
  induction s as [|c s IH]; [reflexivity|].
  rewrite reverse_cons, reverse_app, IH. reflexivity.
Qed.

Lemma endsWith_app (a p : string) : JS.endsWith (a +:+ p) p = true.
Proof. unfold JS.endsWith. rewrite reverse_app. apply startsWith_refl_app. Qed.

Lemma take_app (a b : string) : JS.take (String.length a) (a +:+ b) = a.
Proof.
  induction a as [|c a IH]; [now destruct b|].
  change (String c (JS.take (String.length a) (a +:+ b)) = String c a). now rewrite IH.
Qed.

Lemma length_app (a b : string) :
  String.length (a +:+ b) = String.length a + String.length b.
Proof.
  induction a as [|c a IH]; [reflexivity|].
  change (S (String.length (a +:+ b)) = S (String.length a + String.length b)).
  now rewrite IH.
Qed.

Lemma slice_to_minus_app (a p : string) :
  JS.slice_to_minus (String.length p) (a +:+ p) = a.
Proof.
  unfold JS.slice_to_minus. rewrite length_app.
  replace (String.length a + String.length p - String.length p) with (String.length a) by lia.
  apply take_app.
Qed.

(** Trimming does nothing to a text that neither starts nor ends with white
    space. *)
Lemma trim_solid (c d : ascii) (s : string) :
  JS.is_space c = false -> JS.is_space d = false ->
  JS.trim (String c (s +:+ String d EmptyString)) = String c (s +:+ String d EmptyString).
Proof.
  intros Hc Hd. unfold JS.trim. cbn [JS.trimStart]. rewrite Hc.
  rewrite reverse_cons, reverse_app.
  change (JS.reverse (String d EmptyString)) with (String d EmptyString).
  change (String d EmptyString +:+ JS.reverse s) with (String d (JS.reverse s)).
  change (String d (JS.reverse s) +:+ String c EmptyString)
    with (String d (JS.reverse s +:+ String c EmptyString)).
  cbn [JS.trimStart]. rewrite Hd.
  rewrite reverse_cons, reverse_app, reverse_involutive. reflexivity.
Qed.

(** White space after the text is trimmed with it. *)
Lemma trimStart_app_space (t : string) (c : ascii) :
  JS.is_space c = true ->
  (JS.trimStart (t +:+ String c EmptyString) = EmptyString /\ JS.trimStart t = EmptyString) \/
  JS.trimStart (t +:+ String c EmptyString) = JS.trimStart t +:+ String c EmptyString.
Proof.
  intros Hc. induction t as [|x t IH].
  - left. change (EmptyString +:+ String c EmptyString) with (String c EmptyString).
    cbn [JS.trimStart]. now rewrite Hc.
  - change (String x t +:+ String c EmptyString) with (String x (t +:+ String c EmptyString)).
    cbn [JS.trimStart]. destruct (JS.is_space x); [exact IH|]. now right.
Qed.

Lemma trim_between_spaces (c d : ascii) (t : string) :
  JS.is_space c = true -> JS.is_space d = true ->
  JS.trim (String c (t +:+ String d EmptyString)) = JS.trim t.
Proof.
  intros Hc Hd. unfold JS.trim. cbn [JS.trimStart]. rewrite Hc.
  destruct (trimStart_app_space t d Hd) as [[-> ->]| ->]; [reflexivity|].
  rewrite reverse_app.
  change (JS.reverse (String d EmptyString)) with (String d EmptyString).
  change (String d EmptyString +:+ ?x) with (String d x).
  cbn [JS.trimStart]. now rewrite Hd.
Qed.

Lemma strip_fence_fenced_json (text : string) : strip_fence (fenced_json text) = JS.trim text.
Proof.
  unfold strip_fence, fenced_json, nl.
  change ("```json" +:+ ?x) with (String "`" ("``json" +:+ x)).
  replace ("``json" +:+ String (ascii_of_nat 10) EmptyString +:+ text +:+
           String (ascii_of_nat 10) EmptyString +:+ "```")
    with (("``json" +:+ String (ascii_of_nat 10) EmptyString +:+ text +:+
           String (ascii_of_nat 10) EmptyString +:+ "``") +:+ String "`" EmptyString)
    by (now rewrite <- !append_assoc).
  rewrite trim_solid by reflexivity.
  rewrite <- !append_assoc.
  change (String "`" ("``json" +:+ ?x)) with ("```json" +:+ x).
  rewrite (startsWith_refl_app "```json").
  change (JS.slice_from 7 ("```json" +:+ ?x)) with x.
  change (JS.startsWith (String (ascii_of_nat 10) EmptyString +:+ ?x) "```") with false.
  cbv iota.
  replace (String (ascii_of_nat 10) EmptyString +:+ text +:+
           String (ascii_of_nat 10) EmptyString +:+ "``" +:+ String "`" EmptyString)
    with ((String (ascii_of_nat 10) EmptyString +:+ text +:+
           String (ascii_of_nat 10) EmptyString) +:+ "```")
    by (now rewrite <- !append_assoc).
  rewrite endsWith_app.
  change 3 with (String.length "```"). rewrite slice_to_minus_app.
  change (String (ascii_of_nat 10) EmptyString +:+ ?x) with (String (ascii_of_nat 10) x).
  now apply trim_between_spaces.
Qed.

Lemma strip_fence_fenced (text : string) : strip_fence (fenced text) = JS.trim text.
Proof.
  unfold strip_fence, fenced, nl.
  change ("```" +:+ ?x) with (String "`" ("``" +:+ x)).
  replace ("``" +:+ String (ascii_of_nat 10) EmptyString +:+ text +:+
           String (ascii_of_nat 10) EmptyString +:+ "```")
    with (("``" +:+ String (ascii_of_nat 10) EmptyString +:+ text +:+
           String (ascii_of_nat 10) EmptyString +:+ "``") +:+ String "`" EmptyString)
    by (now rewrite <- !append_assoc).
  rewrite trim_solid by reflexivity.
  rewrite <- !append_assoc.
  change (String "`" ("``" +:+ ?x)) with ("```" +:+ x).
  change (JS.startsWith ("```" +:+ String (ascii_of_nat 10) EmptyString +:+ ?x) "```json")
    with false.
  cbv iota.
  rewrite (startsWith_refl_app "```").
  change (JS.slice_from 3 ("```" +:+ ?x)) with x.
  replace (String (ascii_of_nat 10) EmptyString +:+ text +:+
           String (ascii_of_nat 10) EmptyString +:+ "``" +:+ String "`" EmptyString)
    with ((String (ascii_of_nat 10) EmptyString +:+ text +:+
           String (ascii_of_nat 10) EmptyString) +:+ "```")
    by (now rewrite <- !append_assoc).
  rewrite endsWith_app.
  change 3 with (String.length "```"). rewrite slice_to_minus_app.
  change (String (ascii_of_nat 10) EmptyString +:+ ?x) with (String (ascii_of_nat 10) x).
  now apply trim_between_spaces.
Qed.

(** X14. A reply inside a Markdown fence, with or without the [json] tag,
    is parsed as the text between the fences, trimmed: whatever the text
    is, stripping the fence leaves exactly [text.trim()]. *)
Theorem fence_stripped (text : string) :
  strip_fence (fenced_json text) = JS.trim text /\
  strip_fence (fenced text) = JS.trim text.
Proof. split; [apply strip_fence_fenced_json | apply strip_fence_fenced]. Qed.

(** X15. In LLM mode, when the endpoint answers with a fenced reply, the
    interpretation is what [JSON.parse] makes of the text between the
    fences, trimmed; when that is no JSON, it is the heuristic one. *)
Theorem fenced_reply_parsed (process_env : gmap string string) (w : World.t)
    (query text : string) (client : OpenAI.t) (response : ChatCompletion.t) :
  llm_mode process_env = true ->
  getClient process_env w = Ok (Some client) ->
  World.chat_completions_create w client (analysis_request process_env query) = Ok response ->
  first_content response = Ok (Some (fenced_json text)) ->
  analyzeSpatialQuery process_env w query =
  match World.JSON_parse w (JS.trim text) with
  | Ok analysis => Ok analysis
  | Throw _ => Ok (simulateAnalysis query)
  end.
Proof.
  intros Hmode Hclient Hcall Hcontent.
  unfold llm_mode in Hmode. apply negb_true_iff in Hmode.
  unfold analyzeSpatialQuery. rewrite Hmode.
  unfold ask_llm. rewrite Hclient. cbn [mbind]. unfold Result_bind.
  unfold mbind, Result_bind. rewrite Hcall, Hcontent.
  change (JS.truthy (fenced_json text)) with true. cbn [negb].
  rewrite strip_fence_fenced_json.
  now destruct (World.JSON_parse w (JS.trim text)).
Qed.

Lemma fenced_reply_parsed_witness :
  analyzeSpatialQuery llm_env (replying_world (Some (fenced_json " {nairobi} ")))
    "pharmacy in Nairobi" =
  match World.JSON_parse (replying_world (Some (fenced_json " {nairobi} ")))
          (JS.trim " {nairobi} ") with
  | Ok analysis => Ok analysis
  | Throw _ => Ok (simulateAnalysis "pharmacy in Nairobi")
  end.
Proof.
  apply (fenced_reply_parsed llm_env (replying_world (Some (fenced_json " {nairobi} ")))
           "pharmacy in Nairobi" " {nairobi} "
           (OpenAI.mk (ClientOptions.mk (Some "http://localhost:11434/v1") (Some "ollama") true))
           (ChatCompletion.mk
              (Some [ChatCompletion.mkChoice
                       (Some (ChatCompletion.mkMessage
                                (Some (fenced_json " {nairobi} "))))])));
    vm_compute; reflexivity.
Defined.

(** ** The interpreter: the heuristic location, the provider, the status *)

Lemma extract_location_in (queryLower : string) (l : list string) (d : string) :
  In (extract_location queryLower l d)
     (d :: map (fun city => JS.toUpperCase (JS.charAt 0 city) +:+ JS.slice_from 1 city) l).
Proof.
  induction l as [|city l IH]; [now left|].
  cbn [extract_location map]. destruct (JS.includes queryLower city).
  - right. now left.
  - destruct IH as [IH|IH]; [now left | right; now right].
Qed.

(** X16. The location the heuristic interpreter finds is always a city of
    the gazetteer: its coordinates are the pair the table holds under the
    lower-cased name, never the fallback for an unknown city and never a
    property of the prototype. *)
Theorem heuristic_location_known (query : string) :
  exists lat lng,
    getCityCoordinates (LLMQueryAnalysis.location (simulateAnalysis query)) = LatLng lat lng /\
    In (JS.toLowerCase (LLMQueryAnalysis.location (simulateAnalysis query)), (lat, lng))
       CITY_TABLE.
Proof.
  unfold simulateAnalysis. cbv zeta. cbn [LLMQueryAnalysis.location].
  pose proof (extract_location_in (JS.toLowerCase query) cities "Bangalore") as H.
  revert H. generalize (extract_location (JS.toLowerCase query) cities "Bangalore") as l.
  intros l H.
  repeat (destruct H as [<-|H];
    [eexists; eexists; split; [vm_compute; reflexivity|];
     vm_compute; repeat (try (left; reflexivity); right)|]).
  destruct H.
Qed.

Lemma testLLMConnection_returns (process_env : gmap string string) (w : World.t) :
  exists b, testLLMConnection process_env w = Ok b.
Proof.
  unfold testLLMConnection.
  destruct (negb (USE_LLM process_env) || String.eqb (LLM_PROVIDER process_env) "simulate").
  - now exists false.
  - match goal with |- context [try_catch ?body _] => destruct body as [b|e] end.
    + now exists b.
    + now exists false.
Qed.

(** X17. With a provider that is neither [ollama] nor [openai], no client
    is built: the interpreter is the heuristic one and the connection test
    says no, whatever the flag and the world. *)
Theorem unknown_provider (process_env : gmap string string) (w : World.t) (query : string) :
  LLM_PROVIDER process_env <> "ollama" ->
  LLM_PROVIDER process_env <> "openai" ->
  getClient process_env w = Ok None /\
  analyzeSpatialQuery process_env w query = Ok (simulateAnalysis query) /\
  testLLMConnection process_env w = Ok false.
Proof.
  intros H1 H2.
  apply String.eqb_neq in H1. apply String.eqb_neq in H2.
  assert (Hc : getClient process_env w = Ok None).
  { unfold getClient. now rewrite H1, H2. }
  split; [exact Hc|]. split.
  - unfold analyzeSpatialQuery, ask_llm. rewrite Hc.
    now destruct (negb (USE_LLM process_env) || _).
  - unfold testLLMConnection. rewrite Hc.
    now destruct (negb (USE_LLM process_env) || _).
Qed.

Lemma unknown_provider_witness :
  getClient {[ "NEXT_PUBLIC_USE_LLM" := "true"; "NEXT_PUBLIC_LLM_PROVIDER" := "mistral" ]}
    (replying_world (Some "{nairobi}")) = Ok None /\
  analyzeSpatialQuery
    {[ "NEXT_PUBLIC_USE_LLM" := "true"; "NEXT_PUBLIC_LLM_PROVIDER" := "mistral" ]}
    (replying_world (Some "{nairobi}")) "gym in Pune" = Ok (simulateAnalysis "gym in Pune") /\
  testLLMConnection
    {[ "NEXT_PUBLIC_USE_LLM" := "true"; "NEXT_PUBLIC_LLM_PROVIDER" := "mistral" ]}
    (replying_world (Some "{nairobi}")) = Ok false.
Proof.
  apply (unknown_provider
           {[ "NEXT_PUBLIC_USE_LLM" := "true"; "NEXT_PUBLIC_LLM_PROVIDER" := "mistral" ]}
           (replying_world (Some "{nairobi}")) "gym in Pune");
    vm_compute; discriminate.
Defined.

(** X18. The status endpoint always answers 200, with the outcome of the
    connection test, which never throws; and the page, which reads
    [connected] where the answer has [llmConnected], shows the demo status
    whatever that outcome is. *)
Theorem status_always_demo (process_env : gmap string string) (w : World.t) :
  exists llmConnected,
    testLLMConnection process_env w = Ok llmConnected /\
    status_handler process_env w = Ok (JsonResponse.mk 200 (status_body llmConnected)) /\
    checkLLMStatus (Ok (status_body llmConnected)) = "demo".
Proof.
  destruct (testLLMConnection_returns process_env w) as [b Hb].
  exists b. split; [exact Hb|]. split.
  - unfold status_handler. now rewrite Hb.
  - now destruct b.
Qed.

(** ** The probe endpoint *)

Lemma replace_first_absent (s pattern replacement : string) :
  JS.includes s pattern = false -> replace_first s pattern replacement = s.
Proof.
  induction s as [|c s IH]; intros H; rewrite includes_unfold in H;
    apply orb_false_iff in H as [H1 H2].
  - cbn [replace_first]. now rewrite H1.
  - cbn [replace_first]. rewrite H1. now rewrite IH.
Qed.

(** X19. To a POST whose body is neither null nor undefined the probe
    endpoint answers 200 with a [connected] flag, after at most two
    requests. The flag is true exactly when the last request made was
    answered with an ok status; an endpoint that is no string makes no
    request at all. *)
Theorem probe_answers (fetch : FetchRequest.t -> Result bool) (req : Request.t)
    (endpoint : JSValue) :
  not_post req = false ->
  destructure (Request.body req) "endpoint" = Ok endpoint ->
  exists connected log,
    test_llm_handler fetch req = (Ok (JsonResponse.mk 200 (connected_body connected)), log) /\
    length log <= 2 /\
    (connected = true <-> exists r, last log = Some r /\ fetch r = Ok true) /\
    (typeof endpoint <> "string" -> log = []).
Proof.
  intros Hpost He.
  destruct (destructure_twice _ _ "model" _ He) as [model Hm].
  unfold test_llm_handler. rewrite Hpost, He, Hm. unfold probe.
  destruct (tags_url endpoint) as [url|e] eqn:Hu.
  - assert (Hs : typeof endpoint = "string").
    { destruct endpoint; try discriminate Hu; reflexivity. }
    destruct (fetch (tags_request url)) as [[|]|e] eqn:Ht.
    + exists true, [tags_request url]. repeat split; simpl; try lia; try congruence.
      now exists (tags_request url).
    + destruct (fetch (completion_request (string_value endpoint) model)) as [b|e] eqn:Hc.
      * exists b, [tags_request url; completion_request (string_value endpoint) model].
        repeat split; simpl; try lia; try congruence.
        -- intros ->. eexists. split; [reflexivity | exact Hc].
        -- intros (r & Hr & Hf). injection Hr as <-. congruence.
      * exists false, [tags_request url; completion_request (string_value endpoint) model].
        repeat split; simpl; try lia; try congruence.
        intros (r & Hr & Hf). injection Hr as <-. congruence.
    + exists false, [tags_request url]. repeat split; simpl; try lia; try congruence.
      intros (r & Hr & Hf). injection Hr as <-. congruence.
  - exists false, []. repeat split; simpl; try lia; try congruence.
    intros (r & Hr & _). discriminate Hr.
Qed.

Lemma probe_answers_witness :
  exists connected log,
    test_llm_handler
      (fun r => Ok (String.eqb (FetchRequest.method r) "POST"))
      (Request.mk (Some "POST")
         (JObject {[ "endpoint" := JString "http://localhost:11434/v1";
                     "model" := JString "llama3.2" ]}))
    = (Ok (JsonResponse.mk 200 (connected_body connected)), log) /\
    length log <= 2 /\
    (connected = true <->
     exists r, last log = Some r /\
               (fun r => Ok (String.eqb (FetchRequest.method r) "POST")) r = Ok true) /\
    (typeof (JString "http://localhost:11434/v1") <> "string" -> log = []).
Proof.
  apply (probe_answers
           (fun r => Ok (String.eqb (FetchRequest.method r) "POST"))
           (Request.mk (Some "POST")
              (JObject {[ "endpoint" := JString "http://localhost:11434/v1";
                          "model" := JString "llama3.2" ]}))
           (JString "http://localhost:11434/v1")); reflexivity.
Defined.

(** X20. A POST whose body is null or undefined: the analyze endpoint
    answers 500 without calling the orchestrator, while the probe endpoint,
    whose destructuring stands before the [try], throws and answers
    nothing. *)
Theorem body_missing (analyzeQuery : string -> JSValue -> Result AnalysisResult.t)
    (fetch : FetchRequest.t -> Result bool) (req : Request.t) :
  not_post req = false ->
  Request.body req = JNull \/ Request.body req = JUndefined ->
  (exists details,
     handler analyzeQuery req =
     (Response.mk 500 (Response.FailureDetails "Failed to analyze query" details), [])) /\
  (exists e, test_llm_handler fetch req = (Throw e, [])).
Proof.
  intros Hpost Hb. unfold handler, serve, test_llm_handler. rewrite Hpost.
  destruct Hb as [-> | ->]; split; eexists; reflexivity.
Qed.

Lemma body_missing_witness :
  (exists details,
     handler offline_orchestrator (Request.mk (Some "POST") JNull) =
     (Response.mk 500 (Response.FailureDetails "Failed to analyze query" details), [])) /\
  (exists e, test_llm_handler (fun _ => Ok true) (Request.mk (Some "POST") JNull)
             = (Throw e, [])).
Proof.
  apply (body_missing offline_orchestrator (fun _ => Ok true) (Request.mk (Some "POST") JNull));
    [reflexivity | left; reflexivity].
Defined.

(** X21. The URL the probe lists the models at is the endpoint with its
    first [/v1] replaced; an endpoint without [/v1] is requested as it
    is. *)
Theorem tags_url_unchanged (endpoint : string) :
  JS.includes endpoint "/v1" = false ->
  tags_url (JString endpoint) = Ok endpoint.
Proof. intros H. unfold tags_url. now rewrite replace_first_absent. Qed.

Lemma tags_url_unchanged_witness :
  tags_url (JString "http://localhost:1234") = Ok "http://localhost:1234".
Proof. apply (tags_url_unchanged "http://localhost:1234"). reflexivity. Defined.

Lemma startsWith_nil (s : string) : JS.startsWith s EmptyString = true.
Proof. now destruct s. Qed.

Lemma startsWith_v1_window (c : ascii) (base rest : string) :
  JS.startsWith (String c base +:+ "/v1" +:+ rest) "/v1" =
  JS.startsWith (String c base +:+ "/v") "/v1".
Proof.
  destruct base as [|d [|e base]]; cbn [String.append String.app JS.startsWith];
    unfold String.app; cbn [String.append JS.startsWith];
    rewrite ?startsWith_nil;
    repeat match goal with |- context [Ascii.eqb ?a ?b] => destruct (Ascii.eqb a b) end;
    reflexivity.
Qed.

Lemma replace_first_v1 (base rest : string) :
  JS.includes (base +:+ "/v") "/v1" = false ->
  replace_first (base +:+ "/v1" +:+ rest) "/v1" "/api/tags" = base +:+ "/api/tags" +:+ rest.
Proof.
  induction base as [|c base IH]; intros H.
  - destruct rest; reflexivity.
  - rewrite includes_unfold in H. apply orb_false_iff in H as [H1 H2].
    change (String c base +:+ "/v") with (String c (base +:+ "/v")) in H2.
    cbv iota in H2.
    change (replace_first (String c base +:+ "/v1" +:+ rest) "/v1" "/api/tags")
      with (if JS.startsWith (String c base +:+ "/v1" +:+ rest) "/v1"
            then "/api/tags" +:+
                 JS.slice_from (String.length "/v1") (String c base +:+ "/v1" +:+ rest)
            else String c (replace_first (base +:+ "/v1" +:+ rest) "/v1" "/api/tags")).
    rewrite startsWith_v1_window, H1, (IH H2). reflexivity.
Qed.

(** X22. For an endpoint that has [/v1] after a base without it, the URL
    the probe lists the models at is the base, then [/api/tags], then the
    rest. *)
Theorem tags_url_replaced (base rest : string) :
  JS.includes (base +:+ "/v") "/v1" = false ->
  tags_url (JString (base +:+ "/v1" +:+ rest)) = Ok (base +:+ "/api/tags" +:+ rest).
Proof. intros H. unfold tags_url. now rewrite replace_first_v1. Qed.

Lemma tags_url_replaced_witness :
  tags_url (JString ("http://localhost:11434" +:+ "/v1" +:+ "")) =
  Ok ("http://localhost:11434" +:+ "/api/tags" +:+ "").
Proof. apply (tags_url_replaced "http://localhost:11434" ""). reflexivity. Defined.

(** ** [generateSamplePOIs] *)

Lemma classifyPOI_bounds (name : string) (context : option string) :
  PrimFloat.leb 0.3%float (Classification.confidence (classifyPOI name context)) = true /\
  PrimFloat.leb (Classification.confidence (classifyPOI name context)) 0.95%float = true.
Proof.
  destruct (classifyPOI_best name context) as (Hv & Hfloor & _).
  pose proof (confidence_facts _ _ _ Hv Hv Hv) as (_ & Hcap & _).
  now split.
Qed.

(** X23. The two look-ups of the gazetteer differ by the white space only:
    the orchestrator's [getCityCoordinates] finds for a name what the
    look-up of [generateSamplePOIs] finds for the name without its white
    space. *)
Theorem lookups_agree (location : string) :
  getCityCoordinates location = baseCoord (JS.strip_spaces location).
Proof.
  unfold getCityCoordinates, baseCoord, normalized.
  now rewrite toLowerCase_strip_spaces.
Qed.

(** X24. [generateSamplePOIs] makes as many POIs as the count rounded up,
    five when no count is given and none for a count that is not positive;
    POI number [i] is named [<category> Location <i + 1>] and tagged with
    the category, and all carry the classifier's verdict on the category
    word, a confidence between 0.3 and 0.95. *)
Theorem sample_pois_shape (w : World.t) (location category : string) (count : option Q)
    (s : Cursor.t) :
  let pois := fst (generateSamplePOIs w location category count s) in
  let n := match count with Some c => Z.to_nat (Qceiling c) | None => 5 end in
  length pois = n /\
  (forall c, count = Some c -> (c <= 0)%Q -> pois = []) /\
  map SamplePOI.name pois =
    map (fun i => category +:+ " Location " +:+ pretty (i + 1)%nat) (seq 0 n) /\
  Forall (fun p =>
            SamplePOI.category p = Classification.category (classifyPOI category None) /\
            SamplePOI.confidence p = Classification.confidence (classifyPOI category None) /\
            PrimFloat.leb 0.3%float (SamplePOI.confidence p) = true /\
            PrimFloat.leb (SamplePOI.confidence p) 0.95%float = true /\
            option_map Attributes.tags (SamplePOI.attributes p) = Some (Some [category]))
    pois.
Proof.
  cbv zeta. unfold generateSamplePOIs.
  assert (Hn : turns (match count with Some c => c | None => 5%Q end) =
               match count with Some c => Z.to_nat (Qceiling c) | None => 5 end).
  { destruct count; reflexivity. }
  rewrite Hn. clear Hn.
  set (n := match count with Some c => Z.to_nat (Qceiling c) | None => 5 end).
  split; [|split; [|split]].
  - rewrite mapM_Eff_length. apply length_seq.
  - intros c -> Hc. subst n.
    assert (Hz : (Qceiling c <= 0)%Z).
    { change 0%Z with (Qceiling 0). now apply Qceiling_resp_le. }
    replace (Z.to_nat (Qceiling c)) with 0 by lia. reflexivity.
  - apply mapM_Eff_map. intros i _ s0. reflexivity.
  - apply mapM_Eff_Forall. intros i s0.
    unfold sample_poi, mbind, mret, Eff_bind, Eff_ret, Date_now, Math_random.
    cbn [fst SamplePOI.category SamplePOI.confidence SamplePOI.attributes option_map
         Attributes.tags].
    destruct (classifyPOI_bounds category None) as [Hlo Hhi].
    repeat split; assumption.
Qed.

(** X25. With draws in [0, 1), for a location the look-up finds a pair
    for, every sample POI lies within 0.0501 degrees of the pair, in
    latitude and in longitude, and has a rating from 3 to 5. The radius of
    the code is 0.05, which the sums it rounds to binary64 can leave by the
    rounding; and the rating 5 is reached, in binary64, by the greatest
    draws. *)
Theorem sample_pois_placed (w : World.t) (location category : string) (count : option Q)
    (s : Cursor.t) (lat lng : Q) :
  unit_draws w ->
  baseCoord location = LatLng lat lng ->
  Forall (fun p =>
            within lat (501 # 10000) (SamplePOI.lat p) /\
            within lng (501 # 10000) (SamplePOI.lng p) /\
            exists rating,
              option_map Attributes.rating (SamplePOI.attributes p) = Some (Some rating) /\
              (3 <= rating)%Q /\ (rating <= 5)%Q)
    (fst (generateSamplePOIs w location category count s)).
Proof.
  intros Hw Hb. unfold generateSamplePOIs. rewrite Hb.
  apply mapM_Eff_Forall. intros i s0.
  unfold sample_poi, mbind, mret, Eff_bind, Eff_ret, Date_now, Math_random.
  cbn [fst snd SamplePOI.lat SamplePOI.lng SamplePOI.attributes option_map
       Attributes.rating Cursor.draws Cursor.ticks lat_plus lng_plus within].
  destruct (Hw (Cursor.draws s0)) as [H0 H1].
  destruct (Hw (S (Cursor.draws s0))) as [H2 H3].
  destruct (Hw (S (S (S (Cursor.draws s0))))) as [H4 H5].
  split; [split; lra|]. split; [split; lra|].
  eexists. split; [reflexivity|]. split; lra.
Qed.

Lemma sample_pois_placed_witness :
  Forall (fun p =>
            within (185204 # 10000) (501 # 10000) (SamplePOI.lat p) /\
            within (738567 # 10000) (501 # 10000) (SamplePOI.lng p) /\
            exists rating,
              option_map Attributes.rating (SamplePOI.attributes p) = Some (Some rating) /\
              (3 <= rating)%Q /\ (rating <= 5)%Q)
    (fst (generateSamplePOIs offline_world "Pune" "cafe" (Some (5 # 2)%Q) (Cursor.mk 0 0))).
Proof.
  apply (sample_pois_placed offline_world "Pune" "cafe" (Some (5 # 2)%Q) (Cursor.mk 0 0)
           (185204 # 10000) (738567 # 10000)).
  - intros n. split; vm_compute; [discriminate | reflexivity].
  - vm_compute. reflexivity.
Defined.

(** ** The page and the map *)

Lemma filter_all {A : Type} (f : A -> bool) (l : list A) :
  Forall (fun x => f x = true) l -> List.filter f l = l.
Proof.
  induction 1 as [|x l Hx _ IH]; [reflexivity|].
  cbn [List.filter]. now rewrite Hx, IH.
Qed.

Lemma filter_none {A : Type} (f : A -> bool) (l : list A) :
  Forall (fun x => f x = false) l -> List.filter f l = [].
Proof.
  induction 1 as [|x l Hx _ IH]; [reflexivity|].
  cbn [List.filter]. now rewrite Hx.
Qed.

(** X26. The map shows a result as the orchestrator built it: of the POIs
    the page hands over, the markers of AI suggestions are exactly the
    suggested locations and the markers of verified POIs exactly the
    verified ones, in their order. *)
Theorem markers_of_result (process_env : gmap string string) (w : World.t)
    (query : string) (queryType : option string) (s : Cursor.t) :
  exists r s',
    analyzeQuery process_env w query queryType s = (Ok r, s') /\
    markers (allPOIs (Some r)) =
    (AnalysisResult.suggestedLocations (AnalysisResult.aiReasoning r),
     AnalysisResult.verifiedPOIs (AnalysisResult.groundTruth r)).
Proof.
  destruct (analyzeQuery_returns process_env w query queryType s) as (a & _ & ->).
  eexists. eexists. split; [reflexivity|].
  unfold markers, allPOIs.
  destruct (compose_result_fields w query queryType a s) as (-> & -> & _).
  rewrite !List.filter_app.
  set (g := generateAISuggestions w _ _ _ queryType s).
  pose proof (generateAISuggestions_unverified w (LLMQueryAnalysis.location a)
                (LLMQueryAnalysis.businessType a) s
                (LLMQueryAnalysis.contextualFactors a) queryType) as Hg.
  fold g in Hg.
  pose proof (validateWithGroundTruth_verified w (LLMQueryAnalysis.location a)
                (LLMQueryAnalysis.businessType a) (snd g) (fst g)) as Hv.
  set (v := validateWithGroundTruth w _ _ _ _) in *.
  f_equal.
  - rewrite (filter_all (fun p => negb (POIData.verified p)) (fst g)).
    + rewrite (filter_none (fun p => negb (POIData.verified p)) (fst v)).
      * apply app_nil_r.
      * eapply List.Forall_impl; [|exact Hv]. intros p Hp. cbv beta in *. now rewrite Hp.
    + eapply List.Forall_impl; [|exact Hg]. intros p Hp. cbv beta in *. now rewrite Hp.
  - rewrite (filter_none (fun p => POIData.verified p) (fst g)) by exact Hg.
    rewrite (filter_all (fun p => POIData.verified p) (fst v)) by exact Hv.
    reflexivity.
Qed.

Lemma trim_nonempty (query : string) : JS.trim query <> EmptyString -> query <> EmptyString.
Proof. intros H ->. now apply H. Qed.

(** X27. A query that is not blank goes all the way: the page sends a
    POST, and the endpoint, whatever the orchestrator, accepts it, calls
    the orchestrator once, with the query as typed and the query type, and
    answers with its result, 200, or with its error, 500. With LLM mode
    disabled the orchestrator of the repository returns, and the answer is
    200 with the analysis. *)
Theorem page_request_served (process_env : gmap string string) (w : World.t)
    (query queryType : string) (s : Cursor.t) :
  JS.trim query <> EmptyString ->
  exists req,
    handleAnalyze query queryType = Some req /\
    (forall orchestrator : string -> JSValue -> Result AnalysisResult.t,
       handler orchestrator req =
       (answer (orchestrator query (JString queryType)), [(query, JString queryType)])) /\
    (llm_mode process_env = false ->
     exists r s',
       analyzeQuery process_env w query (Some queryType) s = (Ok r, s') /\
       handler
         (fun q t => fst (analyzeQuery process_env w q
                            (match t with JString x => Some x | _ => None end) s))
         req
       = (Response.mk 200 (Response.Analysis r), [(query, JString queryType)])).
Proof.
  intros Hq.
  eexists. split.
  { unfold handleAnalyze, JS.truthy.
    apply String.eqb_neq in Hq. rewrite Hq. reflexivity. }
  apply trim_nonempty in Hq.
  assert (Hserve : forall orchestrator : string -> JSValue -> Result AnalysisResult.t,
            handler orchestrator
              (Request.mk (Some "POST")
                 (JObject {[ "query" := JString query; "queryType" := JString queryType ]})) =
            (answer (orchestrator query (JString queryType)),
             [(query, JString queryType)])).
  { intros orchestrator. unfold handler, serve.
    change (not_post (Request.mk (Some "POST") ?b)) with false. cbv iota.
    cbn [Request.body destructure].
    change (({[ "query" := JString query; "queryType" := JString queryType ]}
               : gmap string JSValue) !! "query") with (Some (JString query)).
    change (({[ "query" := JString query; "queryType" := JString queryType ]}
               : gmap string JSValue) !! "queryType") with (Some (JString queryType)).
    cbv iota.
    assert (G : falsy (JString query) || negb (String.eqb (typeof (JString query)) "string")
                = false).
    { destruct query; [now elim Hq | reflexivity]. }
    rewrite G. cbn [string_value].
    destruct (orchestrator query (JString queryType)) as [result|[message|value]];
      reflexivity. }
  split; [exact Hserve|].
  intros Hmode.
  assert (Ha : analyzeSpatialQuery process_env w query = Ok (simulateAnalysis query)).
  { unfold analyzeSpatialQuery. unfold llm_mode in Hmode.
    apply negb_false_iff in Hmode. now rewrite Hmode. }
  exists (fst (compose_result w query (Some queryType) (simulateAnalysis query) s)),
         (snd (compose_result w query (Some queryType) (simulateAnalysis query) s)).
  assert (Hr : analyzeQuery process_env w query (Some queryType) s =
               (Ok (fst (compose_result w query (Some queryType) (simulateAnalysis query) s)),
                snd (compose_result w query (Some queryType) (simulateAnalysis query) s))).
  { unfold analyzeQuery. rewrite Ha.
    now destruct (compose_result w query (Some queryType) (simulateAnalysis query) s). }
  split; [exact Hr|].
  rewrite Hserve. cbv beta. rewrite Hr. reflexivity.
Qed.

Lemma page_request_served_witness :
  exists req,
    handleAnalyze "gym in Pune" "market" = Some req /\
    (forall orchestrator : string -> JSValue -> Result AnalysisResult.t,
       handler orchestrator req =
       (answer (orchestrator "gym in Pune" (JString "market")),
        [("gym in Pune", JString "market")])) /\
    (llm_mode ∅ = false ->
     exists r s',
       analyzeQuery ∅ offline_world "gym in Pune" (Some "market") (Cursor.mk 0 0) = (Ok r, s') /\
       handler
         (fun q t => fst (analyzeQuery ∅ offline_world q
                            (match t with JString x => Some x | _ => None end)
                            (Cursor.mk 0 0)))
         req
       = (Response.mk 200 (Response.Analysis r), [("gym in Pune", JString "market")])).
Proof.
  apply (page_request_served ∅ offline_world "gym in Pune" "market" (Cursor.mk 0 0)).
  vm_compute. discriminate.
Defined.

(** X28. What the analyze endpoint never does, for any orchestrator and
    any request: it answers with no status other than 200, 400, 405 and
    500; it calls the orchestrator at most once, and never with an empty
    query; and it answers 200 only with the analysis the orchestrator
    returned for the query of the body. *)
Theorem handler_never (analyzeQuery : string -> JSValue -> Result AnalysisResult.t)
    (req : Request.t) :
  let served := handler analyzeQuery req in
  In (Response.status (fst served)) [200; 400; 405; 500] /\
  length (snd served) <= 1 /\
  (forall q t, In (q, t) (snd served) ->
     q <> EmptyString /\
     destructure (Request.body req) "query" = Ok (JString q) /\
     destructure (Request.body req) "queryType" = Ok t) /\
  (Response.status (fst served) = 200 ->
   exists q t r,
     snd served = [(q, t)] /\ analyzeQuery q t = Ok r /\
     Response.json (fst served) = Response.Analysis r).
Proof.
  cbv zeta. unfold handler.
  destruct (not_post req).
  { cbn. repeat split; try lia; try tauto; try discriminate. }
  unfold serve.
  destruct (destructure (Request.body req) "query") as [query|e] eqn:Hq.
  2:{ cbn. repeat split; try lia; try tauto; try discriminate. }
  destruct (destructure (Request.body req) "queryType") as [queryType|e] eqn:Ht.
  2:{ cbn. repeat split; try lia; try tauto; try discriminate. }
  destruct (falsy query || negb (String.eqb (typeof query) "string")) eqn:G.
  { cbn. repeat split; try lia; try tauto; try discriminate. }
  apply orb_false_iff in G as [G1 G2].
  assert (Hs : exists q, query = JString q /\ q <> EmptyString).
  { destruct query as [| |b|n|q|l|f]; try discriminate G2.
    exists q. split; [reflexivity|]. intros ->. discriminate G1. }
  destruct Hs as (q & -> & Hne). cbn [string_value].
  unfold mbind, Result_bind, mret, Result_ret.
  destruct (analyzeQuery q queryType) as [r|e] eqn:Ha; cbn [fst snd Response.status].
  - split; [now left|]. split; [simpl; lia|]. split.
    + intros q' t' [E|[]]. injection E as <- <-. now repeat split.
    + intros _. exists q, queryType, r. now repeat split.
  - split; [do 3 right; now left|]. split; [simpl; lia|]. split.
    + intros q' t' [E|[]]. injection E as <- <-. now repeat split.
    + discriminate.
Qed.

(** ** The settings dialog *)

(** X29. The settings dialog and the probe endpoint fit together: the
    request of [handleTest] is always answered 200, after the models were
    asked for at the endpoint, and the dialog reports success exactly when
    the [connected] flag of the answer is true. *)
Theorem settings_test (fetch : FetchRequest.t -> Result bool) (config : LLMConfig.t) :
  exists connected url rest,
    test_llm_handler fetch (handleTest_request config) =
      (Ok (JsonResponse.mk 200 (connected_body connected)), tags_request url :: rest) /\
    tags_url (JString (LLMConfig.endpoint config)) = Ok url /\
    handleTest (Ok (connected_body connected)) = (if connected then "success" else "error").
Proof.
  unfold test_llm_handler, handleTest_request.
  change (not_post (Request.mk (Some "POST") ?b)) with false. cbv iota.
  cbn [Request.body destructure].
  change (({[ "provider" := JString (LLMConfig.provider config);
              "endpoint" := JString (LLMConfig.endpoint config);
              "model" := JString (LLMConfig.model config) ]} : gmap string JSValue)
            !! "endpoint") with (Some (JString (LLMConfig.endpoint config))).
  change (({[ "provider" := JString (LLMConfig.provider config);
              "endpoint" := JString (LLMConfig.endpoint config);
              "model" := JString (LLMConfig.model config) ]} : gmap string JSValue)
            !! "model") with (Some (JString (LLMConfig.model config))).
  cbv iota. unfold probe.
  cbn [tags_url string_value].
  set (url := replace_first (LLMConfig.endpoint config) "/v1" "/api/tags").
  destruct (fetch (tags_request url)) as [[|]|e].
  - exists true, url, []. now repeat split.
  - destruct (fetch (completion_request _ _)) as [b|e].
    + exists b, url. eexists. split; [reflexivity|]. split; [reflexivity|]. now destruct b.
    + exists false, url. eexists. now repeat split.
  - exists false, url, []. now repeat split.
Qed.

(** ** The properties at sample inputs *)

Lemma classifyPOI_context_alone_witness :
  classifyPOI "Plaza" (Some "Near residential areas, main roads") =
    Classification.mk "unknown" 0.3%float /\
  Classification.category
    (classifyPOI "Plaza" (Some "Accessible locations, near residential areas, main roads"))
  <> "unknown".
Proof.
  split.
  - apply (proj1 (classifyPOI_context_alone "Plaza"
                    (Some "Near residential areas, main roads")));
      intros c Hc; unfold POI_CATEGORIES in Hc;
      repeat (destruct Hc as [<-|Hc]; [try apply Nat.leb_le; vm_compute; reflexivity|]);
      destruct Hc.
  - apply (proj2 (classifyPOI_context_alone "Plaza"
                    (Some "Accessible locations, near residential areas, main roads"))
             (nth 2 POI_CATEGORIES (POICategory.mk "" "" "" [] []))).
    + vm_compute. do 2 right. left. reflexivity.
    + vm_compute. reflexivity.
Defined.

Lemma classifyPOI_capped_witness :
  Classification.confidence (classifyPOI "Big Bazaar Supermarket" None) = 0.95%float.
Proof.
  apply (classifyPOI_capped "Big Bazaar Supermarket" None
           (nth 1 POI_CATEGORIES (POICategory.mk "" "" "" [] []))).
  - vm_compute. right. left. reflexivity.
  - apply Nat.leb_le. vm_compute. reflexivity.
Defined.

Lemma confidences_in_range_witness :
  exists r s',
    analyzeQuery ∅ offline_world "pharmacy in residential Pune" (Some "market")
      (Cursor.mk 0 0) = (Ok r, s') /\
    Forall (fun p => (55 # 100 <= POIData.confidence p)%Q /\ (POIData.confidence p <= 80 # 100)%Q)
      (AnalysisResult.suggestedLocations (AnalysisResult.aiReasoning r)) /\
    Forall (fun p => (82 # 100 <= POIData.confidence p)%Q /\ (POIData.confidence p <= 95 # 100)%Q)
      (AnalysisResult.verifiedPOIs (AnalysisResult.groundTruth r)) /\
    (72 # 100 <= AnalysisResult.confidence (AnalysisResult.aiReasoning r))%Q /\
    (AnalysisResult.confidence (AnalysisResult.aiReasoning r) < 80 # 100)%Q.
Proof.
  apply (confidences_in_range ∅ offline_world "pharmacy in residential Pune" (Some "market")
           (Cursor.mk 0 0)).
  intros n. split; vm_compute; [discriminate | reflexivity].
Defined.

Lemma pois_around_center_witness :
  exists r s',
    analyzeQuery ∅ offline_world "pharmacy in residential Pune" (Some "market")
      (Cursor.mk 0 0) = (Ok r, s') /\
    (AnalysisResult.center (AnalysisResult.visualization r) =
       LatLng (185204 # 10000) (738567 # 10000) ->
     Forall (fun p => within (185204 # 10000) (201 # 10000) (POIData.lat p) /\
                      within (738567 # 10000) (201 # 10000) (POIData.lng p))
       (AnalysisResult.suggestedLocations (AnalysisResult.aiReasoning r)) /\
     Forall (fun p => within (185204 # 10000) (176 # 10000) (POIData.lat p) /\
                      within (738567 # 10000) (176 # 10000) (POIData.lng p))
       (AnalysisResult.verifiedPOIs (AnalysisResult.groundTruth r))).
Proof.
  apply (pois_around_center ∅ offline_world "pharmacy in residential Pune" (Some "market")
           (Cursor.mk 0 0) (185204 # 10000) (738567 # 10000)).
  intros n. split; vm_compute; [discriminate | reflexivity].
Defined.

Lemma pois_nowhere_witness :
  exists r s',
    analyzeQuery llm_env constructor_world "pharmacy" None (Cursor.mk 0 0) = (Ok r, s') /\
    AnalysisResult.center (AnalysisResult.visualization r) = NotCoordinates "constructor" /\
    Forall (fun p => POIData.lat p = NaN /\ POIData.lng p = NaN)
      (AnalysisResult.suggestedLocations (AnalysisResult.aiReasoning r) ++
       AnalysisResult.verifiedPOIs (AnalysisResult.groundTruth r)).
Proof.
  destruct (pois_nowhere llm_env constructor_world "pharmacy" None (Cursor.mk 0 0))
    as (r & s' & a & E & Ea & _ & _ & H & _).
  exists r, s'. split; [exact E|].
  assert (Hl : normalized (LLMQueryAnalysis.location a) = "constructor").
  { vm_compute in Ea. injection Ea as <-. reflexivity. }
  rewrite Hl in H. exact (H eq_refl).
Defined.

Lemma poi_ids_distinct_witness :
  exists r s',
    analyzeQuery ∅ offline_world "pharmacy in residential Pune" (Some "market")
      (Cursor.mk 0 0) = (Ok r, s') /\
    NoDup (map POIData.id
             (AnalysisResult.suggestedLocations (AnalysisResult.aiReasoning r) ++
              AnalysisResult.verifiedPOIs (AnalysisResult.groundTruth r))).
Proof.
  apply (poi_ids_distinct ∅ offline_world "pharmacy in residential Pune" (Some "market")
           (Cursor.mk 0 0)).
  intros n. split; vm_compute; [discriminate | reflexivity].
Defined.

Lemma corrections_and_gaps_witness :
  exists r s' a n rest,
    analyzeQuery ∅ offline_world "pharmacy in residential Pune" (Some "market")
      (Cursor.mk 0 0) = (Ok r, s') /\
    analyzeSpatialQuery ∅ offline_world "pharmacy in residential Pune" = Ok a /\
    length (AnalysisResult.corrections (AnalysisResult.groundTruth r)) = 2 /\
    AnalysisResult.gaps (AnalysisResult.groundTruth r) =
      ("Identified " +:+ pretty n +:+
       " underserved neighborhoods with high demand potential") :: rest /\
    (2 <= n <= 4)%Z /\
    length rest =
      (if mentions_residential (LLMQueryAnalysis.contextualFactors a) then 2 else 1).
Proof.
  apply (corrections_and_gaps ∅ offline_world "pharmacy in residential Pune" (Some "market")
           (Cursor.mk 0 0)).
  intros n. split; vm_compute; [discriminate | reflexivity].
Defined.

Lemma recommendation_cites_top_witness :
  exists r s' v n percentage,
    analyzeQuery ∅ offline_world "pharmacy in residential Pune" (Some "market")
      (Cursor.mk 0 0) = (Ok r, s') /\
    head (AnalysisResult.verifiedPOIs (AnalysisResult.groundTruth r)) = Some v /\
    POIData.name v = Some n /\
    (82 <= percentage <= 95)%Z /\
    JS.includes (AnalysisResult.recommendation r)
      ("Location: " +:+ n +:+ "
Confidence: " +:+ pretty percentage +:+ "% (grounded in POI data)") = true.
Proof.
  apply (recommendation_cites_top ∅ offline_world "pharmacy in residential Pune"
           (Some "market") (Cursor.mk 0 0)).
  intros n. split; vm_compute; [discriminate | reflexivity].
Defined.
